(** * Authentication core of the benchmark's test-auth-app

    A shallow embedding of the TypeScript authentication code (token
    minting and verification, session rotation, password comparison, the
    role table, the auth middlewares and the login handler), followed by
    the properties stated about it.

    Conventions of the embedding:
    - a JavaScript string is a [string]; a number holding an integer
      (epoch milliseconds, seconds, counters, status codes) is a [Z];
    - [Date.now()], [crypto.randomUUID()], the database tables, the
      module-level rate-limit map and the console are fields of one
      [World], threaded through an outcome-and-state monad [Async];
    - the database is read on two connections.  [Shipped] holds
      [DatabaseConnection.query] as it is written in config/database.ts,
      a placeholder that returns no rows, and the models and handlers
      over it.  [Sql] is a store that executes the statements it is
      sent, modelled from the spec's persistence collaborator; the
      modules [SessionManager], [UserModel], [AuditLogModel] and
      [AuthController] are the same source functions over that store;
    - the built-ins of the Node runtime that the code calls (HMAC,
      base64url, JSON, scrypt) are operations of the class [Runtime];
      what the proofs need of them is stated in the classes
      [RuntimeLaws], [HmacLaws] and [ScryptLaws]. *)

From Stdlib Require Import ZArith Lia Ascii String List.
From Stdlib Require Import DecimalString DecimalZ.
From stdpp Require Import gmap strings list.

Local Open Scope string_scope.
Local Open Scope Z_scope.

(** ** JavaScript string and value helpers *)

Module Js.

(** [s.split(sep)] for a one-character separator. *)
Fixpoint split (sep : ascii) (s : string) : list string :=
  match s with
  | EmptyString => [EmptyString]
  | String c s' =>
      if Ascii.eqb c sep then EmptyString :: split sep s'
      else match split sep s' with
           | [] => [String c EmptyString]
           | h :: t => String c h :: t
           end
  end.

(** Does the character occur in the string? *)
Fixpoint occurs (c : ascii) (s : string) : bool :=
  match s with
  | EmptyString => false
  | String d s' => Ascii.eqb d c || occurs c s'
  end.

(** [!x] for a value that is a string or [undefined]. *)
Definition falsy (x : option string) : bool :=
  match x with
  | None => true
  | Some s => String.eqb s ""
  end.

(** [s.startsWith(p)] *)
Definition startsWith (p s : string) : bool := String.prefix p s.

(** [s.slice(n)] for [0 <= n]. *)
Fixpoint slice (n : nat) (s : string) : string :=
  match n, s with
  | O, _ => s
  | S n', String _ s' => slice n' s'
  | S _, EmptyString => EmptyString
  end.

(** [s.toLowerCase()] on the ASCII range: the letters A to Z are
    lowered; other capitals, which [String.prototype.toLowerCase] lowers
    as well, are left as they are. *)
Definition lower_char (c : ascii) : ascii :=
  let n := nat_of_ascii c in
  if ((65 <=? n)%nat && (n <=? 90)%nat)%bool then ascii_of_nat (n + 32) else c.

Fixpoint toLowerCase (s : string) : string :=
  match s with
  | EmptyString => EmptyString
  | String c s' => String (lower_char c) (toLowerCase s')
  end.

(** [xs.includes(x)] on an array of strings. *)
Definition includes (x : string) (xs : list string) : bool :=
  existsb (String.eqb x) xs.

(** [new Map(entries)]: entries are set in order, a later one wins. *)
Definition Map_new {V : Type} (entries : list (string * V)) : gmap string V :=
  fold_left (fun m kv => <[kv.1 := kv.2]> m) entries ∅.

End Js.

(** ** types/index.ts *)

(** A TypeScript string enum is erased at run time: a role that arrives
    in a decoded token is whatever string the token holds. *)
Definition UserRole := string.

Module UserRole.
Definition Admin : UserRole := "admin".
Definition Moderator : UserRole := "moderator".
Definition User : UserRole := "user".
Definition Guest : UserRole := "guest".
End UserRole.

Module User.
Record t := mk {
  id : string;
  email : string;
  username : string;
  passwordHash : string;
  role : UserRole;
  isActive : bool;
  emailVerified : bool;
  lastLoginAt : option Z;
  createdAt : Z;
  updatedAt : Z
}.
End User.

Module AuthTokens.
Record t := mk {
  accessToken : string;
  refreshToken : string;
  expiresIn : Z;
  tokenType : string
}.
End AuthTokens.

Module LoginCredentials.
Record t := mk {
  email : string;
  password : string;
  rememberMe : option bool
}.
End LoginCredentials.

Module JwtPayload.
Record t := mk {
  sub : string;
  email : string;
  role : UserRole;
  iat : Z;
  exp : Z;
  jti : string
}.
End JwtPayload.

Module ApiResponse.
Record t (T : Type) := mk {
  success : bool;
  data : option T;
  error : option string;
  message : option string;
  statusCode : Z
}.
Arguments mk {T}.
Arguments success {T}.
Arguments data {T}.
Arguments error {T}.
Arguments message {T}.
Arguments statusCode {T}.

(** [{ success: false, error, statusCode }] *)
Definition failure {T : Type} (err : string) (code : Z) : t T :=
  mk false None (Some err) None code.

(** [{ success: true, data, statusCode }] *)
Definition ok {T : Type} (d : T) (code : Z) : t T :=
  mk true (Some d) None None code.
End ApiResponse.

(** ** config/env.ts *)

Module Config.
Record t := mk {
  JWT_SECRET : string;
  JWT_EXPIRY : Z;
  REFRESH_EXPIRY : Z;
  DB_URL : string;
  PORT : Z;
  BCRYPT_ROUNDS : Z;
  NODE_ENV : string;
  LOG_LEVEL : string
}.

(** The fallbacks of [requireEnv], in force when the environment sets
    none of the variables. *)
Definition defaults : t :=
  mk "dev-secret-change-in-production" 900 604800
     "postgresql://localhost:5432/auth_app" 3000 12 "development" "info".
End Config.

Class Env := { config : Config.t }.

(** ** The Node runtime *)

(** Built-ins the code calls.
    - [hmacSha256 secret data] is
      [crypto.createHmac("sha256", secret).update(data).digest("base64url")];
    - [b64urlEncode s] is [Buffer.from(s).toString("base64url")];
    - [b64urlDecode s] is [Buffer.from(s, "base64url").toString()];
    - [JSON_stringify] and [JSON_parse] act on token payloads, the type
      the code declares for them; [None] is a thrown [SyntaxError].  A
      text that parses to a value of another shape (a payload with no
      [exp], or with an [exp] that is not a number, which [verifyToken]
      lets pass at every clock) has no counterpart here;
    - [scrypt password salt keylen cost] is what the callback of
      [crypto.scrypt] receives: an error, or the derived key. *)
Class Runtime := {
  hmacSha256 : string -> string -> string;
  b64urlEncode : string -> string;
  b64urlDecode : string -> string;
  JSON_stringify : JwtPayload.t -> string;
  JSON_parse : string -> option JwtPayload.t;
  scrypt : string -> string -> nat -> Z -> string + list N
}.

(** What the proofs use of the token codecs: base64url text has no dot,
    and decoding inverts encoding, for base64url and for JSON. *)
Class RuntimeLaws (R : Runtime) : Prop := {
  b64url_no_dot : forall s, Js.occurs "." (b64urlEncode s) = false;
  hmac_no_dot : forall k d, Js.occurs "." (hmacSha256 k d) = false;
  b64url_decode_encode : forall s, b64urlDecode (b64urlEncode s) = s;
  JSON_parse_stringify : forall p, JSON_parse (JSON_stringify p) = Some p
}.

(** A successful scrypt returns a key of the length asked for. *)
Class ScryptLaws (R : Runtime) : Prop := {
  scrypt_length : forall pw salt n c key,
    scrypt pw salt n c = inr key -> length key = n
}.

(** An idealisation of HMAC that the separation of the two token kinds
    rests on: under different keys the same text gets different codes.
    (HMAC-SHA256 itself pads a short key with zero bytes and hashes a
    long one, and a code of 256 bits cannot tell all keys apart; such
    coincidences are left out.) *)
Class HmacLaws (R : Runtime) : Prop := {
  hmac_key_injective : forall k1 k2 d, hmacSha256 k1 d = hmacSha256 k2 d -> k1 = k2
}.

(** ** The world the handlers run in *)

Module Session.
Record t := mk {
  id : string;
  userId : string;
  refreshToken : string;
  userAgent : string;
  ipAddress : string;
  expiresAt : Z;
  createdAt : Z
}.

Definition with_refreshToken (tok : string) (s : t) : t :=
  mk (id s) (userId s) tok (userAgent s) (ipAddress s) (expiresAt s) (createdAt s).
End Session.

Inductive AuditAction :=
| Login | Logout | Signup | PasswordChange | PasswordReset
| ProfileUpdate | AccountDeletion | RoleChange | TokenRefresh.

Module AuditLogEntry.
Record t := mk {
  id : string;
  userId : string;
  action : AuditAction;
  ipAddress : string;
  userAgent : string;
  createdAt : Z
}.
End AuditLogEntry.

(** The [connected] flag of [DatabaseConnection], and the three tables
    of the store of [Sql].  [Shipped.query], the connection as written,
    never reads or writes them. *)
Module Db.
Record t := mk {
  connected : bool;
  sessions : list Session.t;
  users : list User.t;
  audit_logs : list AuditLogEntry.t
}.
End Db.

Inductive LogLevel := debug | info | warn | error.

Module LogLine.
Record t := mk { level : LogLevel; context : string; message : string }.
End LogLine.

Module RateLimitEntry.
Record t := mk { count : Z; resetAt : Z }.
End RateLimitEntry.

(** Calls the login handler makes to its collaborators. *)
Inductive Call :=
| CallFindByEmail (email : string)
| CallComparePassword (password storedHash : string)
| CallCreateTokenPair (userId : string)
| CallSessionCreate (userId : string)
| CallUserUpdate (id : string)
| CallAuditCreate (userId : string) (action : AuditAction).

Module World.
Record t := mk {
  clock : Z;                                   (* Date.now(), in ms *)
  uuid_source : nat -> string;                 (* crypto.randomUUID() *)
  uuid_drawn : nat;
  db : Db.t;
  rateLimitStore : gmap string RateLimitEntry.t;
  console : list LogLine.t;
  journal : list Call
}.

Definition with_clock (c : Z) (w : t) : t :=
  mk c (uuid_source w) (uuid_drawn w) (db w) (rateLimitStore w) (console w) (journal w).
Definition with_uuid_drawn (n : nat) (w : t) : t :=
  mk (clock w) (uuid_source w) n (db w) (rateLimitStore w) (console w) (journal w).
Definition with_db (d : Db.t) (w : t) : t :=
  mk (clock w) (uuid_source w) (uuid_drawn w) d (rateLimitStore w) (console w) (journal w).
Definition with_rateLimitStore (m : gmap string RateLimitEntry.t) (w : t) : t :=
  mk (clock w) (uuid_source w) (uuid_drawn w) (db w) m (console w) (journal w).
Definition with_console (l : list LogLine.t) (w : t) : t :=
  mk (clock w) (uuid_source w) (uuid_drawn w) (db w) (rateLimitStore w) l (journal w).
Definition with_journal (j : list Call) (w : t) : t :=
  mk (clock w) (uuid_source w) (uuid_drawn w) (db w) (rateLimitStore w) (console w) j.
End World.

(** How a call ends: a value (a fulfilled promise), a rejection (an
    exception thrown where the caller's [await] sees it), or an exception
    thrown inside a runtime callback, which no promise captures. *)
Inductive Outcome (A : Type) : Type :=
| Fulfilled (a : A)
| Rejected (e : string)
| Uncaught (e : string).
Arguments Fulfilled {A}.
Arguments Rejected {A}.
Arguments Uncaught {A}.

Definition Async (A : Type) : Type := World.t -> Outcome A * World.t.

Definition ret {A : Type} (a : A) : Async A := fun w => (Fulfilled a, w).

Definition throw {A : Type} (e : string) : Async A := fun w => (Rejected e, w).

Definition bind {A B : Type} (m : Async A) (k : A -> Async B) : Async B :=
  fun w =>
    match m w with
    | (Fulfilled a, w') => k a w'
    | (Rejected e, w') => (Rejected e, w')
    | (Uncaught e, w') => (Uncaught e, w')
    end.

(** A promise settled outside the world (a pure computation). *)
Definition settle {A : Type} (o : Outcome A) : Async A := fun w => (o, w).

Notation "'do' x <- m ; k" := (bind m (fun x => k))
  (at level 10, x name, m at level 100, k at level 200).
Notation "m ;; k" := (bind m (fun _ => k))
  (at level 100, k at level 200, right associativity).

Definition Date_now : Async Z := fun w => (Fulfilled (World.clock w), w).

Definition randomUUID : Async string :=
  fun w => (Fulfilled (World.uuid_source w (World.uuid_drawn w)),
            World.with_uuid_drawn (S (World.uuid_drawn w)) w).

Definition record_call (c : Call) : Async unit :=
  fun w => (Fulfilled tt, World.with_journal (World.journal w ++ [c]) w).

(** ** utils/logger.ts *)

Module Logger.
Definition LOG_PRIORITY (l : LogLevel) : Z :=
  match l with debug => 0 | info => 1 | warn => 2 | error => 3 end.

(** [LOG_PRIORITY[config.LOG_LEVEL]], [undefined] for another name. *)
Definition minLevel `{Env} : option Z :=
  let l := Config.LOG_LEVEL config in
  if String.eqb l "debug" then Some 0
  else if String.eqb l "info" then Some 1
  else if String.eqb l "warn" then Some 2
  else if String.eqb l "error" then Some 3
  else None.

(** One console line; its timestamp and meta suffix are not kept. *)
Definition log `{Env} (context : string) (level : LogLevel) (message : string)
  : Async unit :=
  fun w =>
    match minLevel with
    | Some m =>
        if LOG_PRIORITY level <? m then (Fulfilled tt, w)
        else (Fulfilled tt,
              World.with_console (World.console w ++ [LogLine.mk level context message]) w)
    | None =>
        (Fulfilled tt,
         World.with_console (World.console w ++ [LogLine.mk level context message]) w)
    end.
End Logger.

(** ** config/database.ts and the statements issued through it *)

Module Sql.
(** The guard at the head of [DatabaseConnection.query]. *)
Definition query_guard : Async unit :=
  fun w =>
    if Db.connected (World.db w) then (Fulfilled tt, w)
    else (Rejected "Database not connected. Call connect() first.", w).

(** Modelled from the spec: the persistence collaborator behind the
    connection ("keyed read/write/delete for Session rows and user
    records"), a store that executes the statements it is sent.  It is
    not in the source, where [query] discards the statement and returns
    no rows (see [Shipped.query]).  [read] answers a SELECT from the
    tables, after the guard of [query]. *)
Definition read {A : Type} (f : Z -> Db.t -> A) : Async A :=
  query_guard ;; fun w => (Fulfilled (f (World.clock w) (World.db w)), w).

(** Modelled from the spec: the same store; [write] applies an INSERT,
    an UPDATE or a DELETE to the tables, after the guard of [query]. *)
Definition write (f : Db.t -> Db.t) : Async unit :=
  query_guard ;; fun w => (Fulfilled tt, World.with_db (f (World.db w)) w).

(** INSERT INTO sessions (...) VALUES (...) *)
Definition insert_session (s : Session.t) : Async unit :=
  write (fun d => Db.mk (Db.connected d) (Db.sessions d ++ [s]) (Db.users d) (Db.audit_logs d)).

(** DELETE FROM sessions WHERE id = $1 *)
Definition delete_session (sessionId : string) : Async unit :=
  write (fun d =>
    Db.mk (Db.connected d)
          (filter (fun s => Session.id s ≠ sessionId) (Db.sessions d))
          (Db.users d) (Db.audit_logs d)).

(** SELECT * FROM sessions WHERE refresh_token = $1 AND expires_at > NOW() *)
Definition select_sessions_by_refresh_token (tok : string) : Async (list Session.t) :=
  read (fun now d =>
    filter (fun s => Session.refreshToken s = tok ∧ now < Session.expiresAt s)
           (Db.sessions d)).

(** SELECT * FROM sessions WHERE id = $1 AND expires_at > NOW() *)
Definition select_sessions_by_id (sessionId : string) : Async (list Session.t) :=
  read (fun now d =>
    filter (fun s => Session.id s = sessionId ∧ now < Session.expiresAt s)
           (Db.sessions d)).

(** UPDATE sessions SET refresh_token = $1 WHERE refresh_token = $2 *)
Definition update_refresh_token (new old : string) : Async unit :=
  write (fun d =>
    Db.mk (Db.connected d)
          (map (fun s => if decide (Session.refreshToken s = old)
                         then Session.with_refreshToken new s else s)
               (Db.sessions d))
          (Db.users d) (Db.audit_logs d)).

(** SELECT * FROM users WHERE email = $1 *)
Definition select_users_by_email (email : string) : Async (list User.t) :=
  read (fun _ d => filter (fun u => User.email u = email) (Db.users d)).

(** SELECT * FROM users WHERE id = $1 *)
Definition select_users_by_id (id : string) : Async (list User.t) :=
  read (fun _ d => filter (fun u => User.id u = id) (Db.users d)).

(** UPDATE users SET lastLoginAt = $1, updated_at = $2 WHERE id = $3 *)
Definition update_user_lastLoginAt (at_ updated : Z) (id : string) : Async unit :=
  write (fun d =>
    Db.mk (Db.connected d) (Db.sessions d)
          (map (fun u => if decide (User.id u = id)
                         then User.mk (User.id u) (User.email u) (User.username u)
                                (User.passwordHash u) (User.role u) (User.isActive u)
                                (User.emailVerified u) (Some at_) (User.createdAt u) updated
                         else u)
               (Db.users d))
          (Db.audit_logs d)).

(** INSERT INTO audit_logs (...) VALUES (...) *)
Definition insert_audit_log (e : AuditLogEntry.t) : Async unit :=
  write (fun d => Db.mk (Db.connected d) (Db.sessions d) (Db.users d) (Db.audit_logs d ++ [e])).
End Sql.

(** ** auth/jwt.ts *)

Section Jwt.
Context `{Env} `{Runtime}.

(** [JSON.stringify({ alg: "HS256", typ: "JWT" })] *)
Definition header_json : string :=
  let q := String "034"%char EmptyString in
  "{" +:+ q +:+ "alg" +:+ q +:+ ":" +:+ q +:+ "HS256" +:+ q +:+ ","
      +:+ q +:+ "typ" +:+ q +:+ ":" +:+ q +:+ "JWT" +:+ q +:+ "}".

Definition base64url (input : string) : string := b64urlEncode input.

Definition sign (payload : JwtPayload.t) (secret : string) : string :=
  let header := base64url header_json in
  let body := base64url (JSON_stringify payload) in
  let signature := hmacSha256 secret (header +:+ "." +:+ body) in
  header +:+ "." +:+ body +:+ "." +:+ signature.

Definition generateAccessToken (userId email : string) (role : UserRole)
  : Async string :=
  do t_iat <- Date_now;
  do t_exp <- Date_now;
  do uuid <- randomUUID;
  let payload :=
    JwtPayload.mk userId email role (t_iat / 1000)
                  (t_exp / 1000 + Config.JWT_EXPIRY config) uuid in
  ret (sign payload (Config.JWT_SECRET config)).

Definition generateRefreshToken (userId email : string) (role : UserRole)
  : Async string :=
  do t_iat <- Date_now;
  do t_exp <- Date_now;
  do uuid <- randomUUID;
  let payload :=
    JwtPayload.mk userId email role (t_iat / 1000)
                  (t_exp / 1000 + Config.REFRESH_EXPIRY config) uuid in
  ret (sign payload (Config.JWT_SECRET config +:+ "_refresh")).

(** The [try]/[catch] turns a failed decode into [null]. *)
Definition verifyToken (token : string) (isRefresh : bool)
  : Async (option JwtPayload.t) :=
  match Js.split "." token with
  | [p0; p1; p2] =>
      let secret :=
        if isRefresh then Config.JWT_SECRET config +:+ "_refresh"
        else Config.JWT_SECRET config in
      let expectedSig := hmacSha256 secret (p0 +:+ "." +:+ p1) in
      if negb (String.eqb expectedSig p2) then ret None
      else
        match JSON_parse (b64urlDecode p1) with
        | None => ret None
        | Some payload =>
            do now <- Date_now;
            if JwtPayload.exp payload <? now / 1000 then ret None
            else ret (Some payload)
        end
  | _ => ret None
  end.

Definition decodeToken (token : string) : option JwtPayload.t :=
  match Js.split "." token with
  | [_; p1; _] => JSON_parse (b64urlDecode p1)
  | _ => None
  end.

Definition createTokenPair (userId email : string) (role : UserRole)
  : Async AuthTokens.t :=
  do accessToken <- generateAccessToken userId email role;
  do refreshToken <- generateRefreshToken userId email role;
  ret (AuthTokens.mk accessToken refreshToken (Config.JWT_EXPIRY config) "Bearer").
End Jwt.

(** ** utils/hash.ts *)

Module Buffer.
Definition unhex (c : ascii) : option N :=
  let n := N_of_ascii c in
  if ((48 <=? n) && (n <=? 57))%N then Some (n - 48)%N
  else if ((97 <=? n) && (n <=? 102))%N then Some (n - 87)%N
  else if ((65 <=? n) && (n <=? 70))%N then Some (n - 55)%N
  else None.

(** [Buffer.from(s, "hex")]: one byte per pair of hex digits, cut at
    the first pair that is not two hex digits. *)
Fixpoint from_hex (s : string) : list N :=
  match s with
  | String a (String b s') =>
      match unhex a, unhex b with
      | Some x, Some y => (16 * x + y)%N :: from_hex s'
      | _, _ => []
      end
  | _ => []
  end.

(** [crypto.timingSafeEqual(a, b)]: a [RangeError] ([None]) when the
    byte lengths differ. *)
Definition timingSafeEqual (a b : list N) : option bool :=
  if (length a =? length b)%nat then Some (bool_decide (a = b)) else None.
End Buffer.

Section Hash.
Context `{Runtime}.

Definition SALT_LENGTH : nat := 32.
Definition KEY_LENGTH : nat := 64.
Definition SCRYPT_COST : Z := 16384.

Definition comparePassword (password storedHash : string) : Async bool :=
  let parts := Js.split ":" storedHash in
  let salt := parts !! 0%nat in
  let hash := parts !! 1%nat in
  if Js.falsy salt || Js.falsy hash then ret false
  else
    match scrypt password (default "" salt) KEY_LENGTH SCRYPT_COST with
    | inl err => settle (Rejected err)
    | inr derivedKey =>
        match Buffer.timingSafeEqual (Buffer.from_hex (default "" hash)) derivedKey with
        | Some b => ret b
        | None => settle (Uncaught "Input buffers must have the same byte length")
        end
    end.
End Hash.

(** ** auth/permissions.ts *)

Module Permission.
Definition ReadOwnProfile := "read:own_profile".
Definition UpdateOwnProfile := "update:own_profile".
Definition DeleteOwnAccount := "delete:own_account".
Definition ReadAnyProfile := "read:any_profile".
Definition UpdateAnyProfile := "update:any_profile".
Definition DeleteAnyAccount := "delete:any_account".
Definition ListUsers := "list:users".
Definition ManageRoles := "manage:roles".
Definition ViewAuditLog := "view:audit_log".

(** [Object.values(Permission)] *)
Definition values : list string :=
  [ReadOwnProfile; UpdateOwnProfile; DeleteOwnAccount; ReadAnyProfile;
   UpdateAnyProfile; DeleteAnyAccount; ListUsers; ManageRoles; ViewAuditLog].
End Permission.

(** The entries given to [new Map(...)], as authored. *)
Definition RolePermissions_entries : list (string * list string) :=
  [ (UserRole.Guest, [Permission.ReadOwnProfile]);
    (UserRole.User,
      [Permission.ReadOwnProfile; Permission.UpdateOwnProfile;
       Permission.DeleteOwnAccount]);
    (UserRole.Moderator,
      [Permission.ReadOwnProfile; Permission.UpdateOwnProfile;
       Permission.DeleteOwnAccount; Permission.ReadAnyProfile;
       Permission.ListUsers; Permission.ViewAuditLog]);
    (UserRole.Admin, Permission.values) ].

Definition RolePermissions : gmap string (list string) :=
  Js.Map_new RolePermissions_entries.

Definition hasPermission (role : UserRole) (permission : string) : bool :=
  match RolePermissions !! role with
  | None => false
  | Some permissions => Js.includes permission permissions
  end.

Definition requirePermission (role : UserRole) (permission : string) : Async unit :=
  if negb (hasPermission role permission)
  then throw ("Insufficient permissions: " +:+ permission +:+ " required, role "
              +:+ role +:+ " does not have it")
  else ret tt.

Definition isAdmin (role : UserRole) : bool := String.eqb role UserRole.Admin.

(** ** api/middleware/auth-middleware.ts *)

Module Request.
Record t := mk {
  headers : gmap string string;
  user : option JwtPayload.t;
  ip : option string
}.
End Request.

(** What a middleware does with a request: hand it to [next], or answer
    with [res.status(code).json(body)] and return. *)
Inductive Flow :=
| CallNext (req : Request.t)
| Respond (code : Z) (body : ApiResponse.t unit).

Section Middleware.
Context `{Env} `{Runtime}.

Definition get_rateLimitStore (key : string) : Async (option RateLimitEntry.t) :=
  fun w => (Fulfilled (World.rateLimitStore w !! key), w).

Definition set_rateLimitStore (key : string) (e : RateLimitEntry.t) : Async unit :=
  fun w => (Fulfilled tt,
            World.with_rateLimitStore (<[key := e]> (World.rateLimitStore w)) w).

Definition extractToken (req : Request.t) : option string :=
  match Request.headers req !! "authorization" with
  | Some header =>
      if negb (Js.startsWith "Bearer " header) then None
      else Some (Js.slice 7 header)
  | None => None
  end.

Definition authenticateRequest (req : Request.t) : Async Flow :=
  let token := extractToken req in
  if Js.falsy token
  then ret (Respond 401 (ApiResponse.failure "Authentication required" 401))
  else
    do payload <- verifyToken (default "" token) false;
    match payload with
    | None =>
        Logger.log "AuthMiddleware" warn "Invalid token presented" ;;
        ret (Respond 401 (ApiResponse.failure "Invalid or expired token" 401))
    | Some p => ret (CallNext (Request.mk (Request.headers req) (Some p) (Request.ip req)))
    end.

Definition requireRole (roles : list UserRole) (req : Request.t) : Async Flow :=
  match Request.user req with
  | None => ret (Respond 401 (ApiResponse.failure "Authentication required" 401))
  | Some user =>
      if negb (Js.includes (JwtPayload.role user) roles)
      then
        Logger.log "AuthMiddleware" warn "Insufficient role" ;;
        ret (Respond 403 (ApiResponse.failure "Forbidden" 403))
      else ret (CallNext req)
  end.

Definition optionalAuth (req : Request.t) : Async Flow :=
  let token := extractToken req in
  if Js.falsy token then ret (CallNext req)
  else
    do payload <- verifyToken (default "" token) false;
    match payload with
    | Some p => ret (CallNext (Request.mk (Request.headers req) (Some p) (Request.ip req)))
    | None => ret (CallNext req)
    end.

(** The entry object is shared with the map: [entry.count++] updates
    the stored entry. *)
Definition rateLimitAuth (maxAttempts windowMs : Z) (req : Request.t) : Async Flow :=
  let key := default "unknown" (Request.ip req) in
  do now <- Date_now;
  do entry <- get_rateLimitStore key;
  let fresh :=
    set_rateLimitStore key (RateLimitEntry.mk 1 (now + windowMs)) ;;
    ret (CallNext req) in
  match entry with
  | Some e =>
      if now <? RateLimitEntry.resetAt e then
        if maxAttempts <=? RateLimitEntry.count e then
          Logger.log "AuthMiddleware" warn "Rate limit exceeded" ;;
          ret (Respond 429 (ApiResponse.failure "Too many attempts. Try again later." 429))
        else
          set_rateLimitStore key
            (RateLimitEntry.mk (RateLimitEntry.count e + 1) (RateLimitEntry.resetAt e)) ;;
          ret (CallNext req)
      else fresh
  | None => fresh
  end.
End Middleware.

(** ** auth/session.ts *)

Module SessionManager.
Section SessionManager.
Context `{Env} `{Runtime}.

(** The row keeps the session as built; [created_at] is not among the
    inserted columns and takes the object's [createdAt] here. *)
Definition create (userId email : string) (role : UserRole) (tokens : AuthTokens.t)
  (userAgent ipAddress : string) : Async Session.t :=
  do id <- randomUUID;
  do now <- Date_now;
  do created <- Date_now;
  let session :=
    Session.mk id userId (AuthTokens.refreshToken tokens) userAgent ipAddress
               (now + AuthTokens.expiresIn tokens * 1000) created in
  Sql.insert_session session ;;
  Logger.log "SessionManager" info "Session created" ;;
  ret session.

Definition destroy (sessionId : string) : Async unit :=
  Sql.delete_session sessionId ;;
  Logger.log "SessionManager" info "Session destroyed".

Definition refresh (refreshToken : string) : Async (option AuthTokens.t) :=
  do payload <- verifyToken refreshToken true;
  match payload with
  | None =>
      Logger.log "SessionManager" warn "Invalid refresh token presented" ;;
      ret None
  | Some payload =>
      do result <- Sql.select_sessions_by_refresh_token refreshToken;
      if (length result =? 0)%nat then
        Logger.log "SessionManager" warn "No active session found for refresh token" ;;
        ret None
      else
        do newTokens <- createTokenPair (JwtPayload.sub payload) (JwtPayload.email payload)
                                        (JwtPayload.role payload);
        Sql.update_refresh_token (AuthTokens.refreshToken newTokens) refreshToken ;;
        Logger.log "SessionManager" info "Session refreshed" ;;
        ret (Some newTokens)
  end.

Definition validate (sessionId : string) : Async (option JwtPayload.t) :=
  do result <- Sql.select_sessions_by_id sessionId;
  match result with
  | [] => ret None
  | row :: _ => verifyToken (Session.refreshToken row) true
  end.

End SessionManager.
End SessionManager.

(** ** api/models/user-model.ts *)

Module UserModel.

Definition findById (id : string) : Async (option User.t) :=
  do rows <- Sql.select_users_by_id id;
  ret (head rows).

Definition findByEmail (email : string) : Async (option User.t) :=
  do rows <- Sql.select_users_by_email (Js.toLowerCase email);
  ret (head rows).

(** [update(id, { lastLoginAt })], the one shape the login handler uses. *)
Definition update_lastLoginAt (id : string) (lastLoginAt : Z) : Async (option User.t) :=
  do updated <- Date_now;
  Sql.update_user_lastLoginAt lastLoginAt updated id ;;
  findById id.

End UserModel.

(** ** api/models/audit-log-model.ts *)

Module AuditLogModel.

Definition create (userId : string) (action : AuditAction)
  (ipAddress userAgent : option string) : Async AuditLogEntry.t :=
  do id <- randomUUID;
  do created <- Date_now;
  let entry :=
    AuditLogEntry.mk id userId action (default "unknown" ipAddress)
                     (default "unknown" userAgent) created in
  Sql.insert_audit_log entry ;;
  ret entry.

End AuditLogModel.

(** ** api/controllers/auth-controller.ts *)

Module AuthController.
Section AuthController.
Context `{Env} `{Runtime}.

(** A collaborator call, written to the journal as it is made. *)
Definition call {A : Type} (c : Call) (m : Async A) : Async A :=
  record_call c ;; m.

Definition login (credentials : LoginCredentials.t) (ip userAgent : string)
  : Async (ApiResponse.t AuthTokens.t) :=
  do user <- call (CallFindByEmail (LoginCredentials.email credentials))
                  (UserModel.findByEmail (LoginCredentials.email credentials));
  let not_found :=
    Logger.log "AuthController" warn "Login failed: user not found" ;;
    ret (ApiResponse.failure "Invalid credentials" 401) in
  match user with
  | None => not_found
  | Some user =>
      if negb (User.isActive user) then not_found
      else
        do valid <- call (CallComparePassword (LoginCredentials.password credentials)
                                              (User.passwordHash user))
                         (comparePassword (LoginCredentials.password credentials)
                                          (User.passwordHash user));
        if negb valid then
          Logger.log "AuthController" warn "Login failed: wrong password" ;;
          ret (ApiResponse.failure "Invalid credentials" 401)
        else
          do tokens <- call (CallCreateTokenPair (User.id user))
                            (createTokenPair (User.id user) (User.email user) (User.role user));
          do _ <- call (CallSessionCreate (User.id user))
                       (SessionManager.create (User.id user) (User.email user) (User.role user)
                                              tokens userAgent ip);
          do lastLoginAt <- Date_now;
          do _ <- call (CallUserUpdate (User.id user))
                       (UserModel.update_lastLoginAt (User.id user) lastLoginAt);
          do _ <- call (CallAuditCreate (User.id user) Login)
                       (AuditLogModel.create (User.id user) Login (Some ip) (Some userAgent));
          Logger.log "AuthController" info "User logged in" ;;
          ret (ApiResponse.ok tokens 200)
  end.

Definition logout (sessionId userId : string) : Async (ApiResponse.t unit) :=
  SessionManager.destroy sessionId ;;
  do _ <- AuditLogModel.create userId Logout None None;
  ret (ApiResponse.mk true None None (Some "Logged out") 200).

Definition refreshToken (refreshToken userId : string)
  : Async (ApiResponse.t AuthTokens.t) :=
  do tokens <- SessionManager.refresh refreshToken;
  match tokens with
  | None => ret (ApiResponse.failure "Invalid refresh token" 401)
  | Some tokens =>
      do _ <- AuditLogModel.create userId TokenRefresh None None;
      ret (ApiResponse.ok tokens 200)
  end.

End AuthController.
End AuthController.

(** ** Vocabulary of the statements *)

Section Vocabulary.
Context `{Env} `{Runtime}.

(** The two kinds of token, named by the [isRefresh] flag. *)
Definition mint (isRefresh : bool) : string -> string -> UserRole -> Async string :=
  if isRefresh then generateRefreshToken else generateAccessToken.

Definition ttl (isRefresh : bool) : Z :=
  if isRefresh then Config.REFRESH_EXPIRY config else Config.JWT_EXPIRY config.

Definition secret_of (isRefresh : bool) : string :=
  if isRefresh then Config.JWT_SECRET config +:+ "_refresh"
  else Config.JWT_SECRET config.

(** The payload a mint in world [w] builds. *)
Definition minted_payload (isRefresh : bool) (userId email : string) (role : UserRole)
  (w : World.t) : JwtPayload.t :=
  JwtPayload.mk userId email role (World.clock w / 1000)
                (World.clock w / 1000 + ttl isRefresh)
                (World.uuid_source w (World.uuid_drawn w)).

(** The text a token's signature is computed over. *)
Definition signing_input (p : JwtPayload.t) : string :=
  base64url header_json +:+ "." +:+ base64url (JSON_stringify p).

(** The clock as the token code reads it, in whole seconds. *)
Definition now_seconds (w : World.t) : Z := World.clock w / 1000.

(** A middleware serving the same request at successive clock readings,
    each call starting in the world the previous one left. *)
Fixpoint serve (mw : Request.t -> Async Flow) (req : Request.t) (times : list Z)
  (w : World.t) : list (Outcome Flow) * World.t :=
  match times with
  | [] => ([], w)
  | t :: times' =>
      let (o, w') := mw req (World.with_clock t w) in
      let (os, w'') := serve mw req times' w' in
      (o :: os, w'')
  end.

(** The key a request is throttled under. *)
Definition rateLimitKey (req : Request.t) : string :=
  default "unknown" (Request.ip req).

Definition tooManyAttempts : Flow :=
  Respond 429 (ApiResponse.failure "Too many attempts. Try again later." 429).

Definition forbidden : Flow := Respond 403 (ApiResponse.failure "Forbidden" 403).

Definition invalidCredentials : ApiResponse.t AuthTokens.t :=
  ApiResponse.failure "Invalid credentials" 401.

(** The collaborator calls journalled between world [w] and a later
    world [w']. *)
Definition calls_made (w w' : World.t) : list Call :=
  drop (length (World.journal w)) (World.journal w').

End Vocabulary.

(** ** An executable runtime

    A small instance of [Runtime] on which the model runs: base16 text
    in the place of base64url, a comma-separated record of base16 fields
    in the place of JSON, a keyed base16 digest in the place of HMAC, and
    a key stretched from the salt and password lengths in the place of
    scrypt.  It serves to evaluate the handlers on concrete inputs. *)

Module RefRuntime.

Definition nibble (b3 b2 b1 b0 : bool) : ascii :=
  let n := (N.b2n b0 + 2 * N.b2n b1 + 4 * N.b2n b2 + 8 * N.b2n b3)%N in
  if (n <? 10)%N then ascii_of_N (48 + n) else ascii_of_N (87 + n).

Fixpoint hexEncode (s : string) : string :=
  match s with
  | EmptyString => EmptyString
  | String (Ascii b0 b1 b2 b3 b4 b5 b6 b7) s' =>
      String (nibble b7 b6 b5 b4) (String (nibble b3 b2 b1 b0) (hexEncode s'))
  end.

Fixpoint string_of_bytes (l : list N) : string :=
  match l with
  | [] => EmptyString
  | b :: l' => String (ascii_of_N b) (string_of_bytes l')
  end.

Definition hexDecode (s : string) : string := string_of_bytes (Buffer.from_hex s).

Definition string_of_Z (z : Z) : string := NilEmpty.string_of_int (Z.to_int z).

Definition Z_of_string (s : string) : option Z :=
  match NilEmpty.int_of_string s with
  | Some d => Some (Z.of_int d)
  | None => None
  end.

Definition stringify (p : JwtPayload.t) : string :=
  hexEncode (JwtPayload.sub p) +:+ "," +:+
  hexEncode (JwtPayload.email p) +:+ "," +:+
  hexEncode (JwtPayload.role p) +:+ "," +:+
  hexEncode (string_of_Z (JwtPayload.iat p)) +:+ "," +:+
  hexEncode (string_of_Z (JwtPayload.exp p)) +:+ "," +:+
  hexEncode (JwtPayload.jti p).

Definition parse (s : string) : option JwtPayload.t :=
  match Js.split "," s with
  | [f_sub; f_email; f_role; f_iat; f_exp; f_jti] =>
      match Z_of_string (hexDecode f_iat), Z_of_string (hexDecode f_exp) with
      | Some i, Some e =>
          Some (JwtPayload.mk (hexDecode f_sub) (hexDecode f_email) (hexDecode f_role)
                              i e (hexDecode f_jti))
      | _, _ => None
      end
  | _ => None
  end.

Definition digest (secret data : string) : string :=
  hexEncode (secret +:+ "/" +:+ data).

Definition stretch (password salt : string) (keylen : nat) (cost : Z)
  : string + list N :=
  inr (repeat (N.of_nat (String.length password + String.length salt) mod 256)%N keylen).

#[export] Instance runtime : Runtime := {
  hmacSha256 := digest;
  b64urlEncode := hexEncode;
  b64urlDecode := hexDecode;
  JSON_stringify := stringify;
  JSON_parse := parse;
  scrypt := stretch
}.

#[export] Instance env : Env := { config := Config.defaults }.

(** A world at clock 5000 ms with a connected, empty database. *)
Definition uuids (n : nat) : string := "uuid-" +:+ string_of_Z (Z.of_nat n).

Definition world0 : World.t :=
  World.mk 5000 uuids 0 (Db.mk true [] [] []) ∅ [] [].

(** Sample data: an active user whose stored hash is the one [stretch]
    derives for the password "Abcdef12", a deactivated user, and a world
    holding both. *)
Definition alice : User.t :=
  User.mk "u1" "a@b.com" "alice"
          ("salt:" +:+ hexEncode (string_of_bytes (repeat 12%N 64)))
          UserRole.User true true None 0 0.

Definition bob : User.t :=
  User.mk "u2" "bob@b.com" "bob"
          ("salt:" +:+ hexEncode (string_of_bytes (repeat 12%N 64)))
          UserRole.User false true None 0 0.

Definition world_users : World.t :=
  World.mk 5000 uuids 0 (Db.mk true [] [alice; bob] []) ∅ [] [].

(** A refresh token minted in [world0], and the world after a login
    stored it in a session. *)
Definition refreshToken0 : string :=
  match fst (generateRefreshToken "u1" "a@b.com" UserRole.User world0) with
  | Fulfilled t => t
  | _ => ""
  end.

Definition world_session : World.t :=
  World.mk 6000 uuids 1
    (Db.mk true
       [Session.mk "s1" "u1" refreshToken0 "agent" "10.0.0.1" (5000 + 604800 * 1000) 5000]
       [alice; bob] [])
    ∅ [] [].


Definition world_rotated : World.t :=
  snd (SessionManager.refresh refreshToken0 world_session).

(** A request authenticated as a plain user. *)
Definition request_user : Request.t :=
  Request.mk ∅ (Some (JwtPayload.mk "u1" "a@b.com" UserRole.User 5 905 "uuid-0"))
             (Some "10.0.0.1").

End RefRuntime.

(** ** More of the code: text helpers, regular expressions *)

Module Str.

(** White space of [String.prototype.trim] among the code units below
    256: tab, line feed, vertical tab, form feed, carriage return, space
    and no-break space. *)
Definition is_space (c : ascii) : bool :=
  let n := N_of_ascii c in
  (((9 <=? n) && (n <=? 13)) || (n =? 32) || (n =? 160))%N.

Fixpoint trimStart (s : string) : string :=
  match s with
  | EmptyString => EmptyString
  | String c s' => if is_space c then trimStart s' else s
  end.

Fixpoint trimEnd (s : string) : string :=
  match s with
  | EmptyString => EmptyString
  | String c s' =>
      match trimEnd s' with
      | EmptyString => if is_space c then EmptyString else String c EmptyString
      | rest => String c rest
      end
  end.

(** [s.trim()] *)
Definition trim (s : string) : string := trimEnd (trimStart s).

(** [s.replace(/c/g, by)] for a one-character pattern. *)
Fixpoint replaceAll (c : ascii) (by_ : string) (s : string) : string :=
  match s with
  | EmptyString => EmptyString
  | String d s' =>
      if Ascii.eqb d c then by_ +:+ replaceAll c by_ s'
      else String d (replaceAll c by_ s')
  end.

(** Do all characters, or does some character, satisfy [f]? *)
Fixpoint all (f : ascii -> bool) (s : string) : bool :=
  match s with
  | EmptyString => true
  | String c s' => f c && all f s'
  end.

Fixpoint some (f : ascii -> bool) (s : string) : bool :=
  match s with
  | EmptyString => false
  | String c s' => f c || some f s'
  end.

Definition hex_digit (n : N) : ascii :=
  if (n <? 10)%N then ascii_of_N (48 + n) else ascii_of_N (87 + n).

(** [buf.toString("hex")] *)
Fixpoint to_hex (bytes : list N) : string :=
  match bytes with
  | [] => EmptyString
  | b :: bytes' =>
      String (hex_digit ((b / 16) mod 16)) (String (hex_digit (b mod 16)) (to_hex bytes'))
  end.

End Str.

(** Regular expressions without back-references, matched by
    derivatives.  A character class is a list of inclusive code ranges. *)
Module RegExp.

Inductive t :=
| Never
| Empty
| Class (ranges : list (N * N))
| Seq (r1 r2 : t)
| Alt (r1 r2 : t)
| Star (r : t).

Definition in_class (ranges : list (N * N)) (c : ascii) : bool :=
  existsb (fun range => (fst range <=? N_of_ascii c) && (N_of_ascii c <=? snd range))%N ranges.

Fixpoint nullable (r : t) : bool :=
  match r with
  | Never => false
  | Empty => true
  | Class _ => false
  | Seq r1 r2 => nullable r1 && nullable r2
  | Alt r1 r2 => nullable r1 || nullable r2
  | Star _ => true
  end.

Fixpoint deriv (c : ascii) (r : t) : t :=
  match r with
  | Never => Never
  | Empty => Never
  | Class ranges => if in_class ranges c then Empty else Never
  | Seq r1 r2 =>
      if nullable r1 then Alt (Seq (deriv c r1) r2) (deriv c r2)
      else Seq (deriv c r1) r2
  | Alt r1 r2 => Alt (deriv c r1) (deriv c r2)
  | Star r1 => Seq (deriv c r1) (Star r1)
  end.

(** Does the whole of [s] match [r]? *)
Fixpoint matches (r : t) (s : string) : bool :=
  match s with
  | EmptyString => nullable r
  | String c s' => matches (deriv c r) s'
  end.

(** [r+], [r{n}], [r{0,n}], [r{lo,hi}], [r{n,}] *)
Definition plus (r : t) : t := Seq r (Star r).

Fixpoint times (n : nat) (r : t) : t :=
  match n with
  | O => Empty
  | S n' => Seq r (times n' r)
  end.

Fixpoint upto (n : nat) (r : t) : t :=
  match n with
  | O => Empty
  | S n' => Alt Empty (Seq r (upto n' r))
  end.

Definition between (lo hi : nat) (r : t) : t := Seq (times lo r) (upto (hi - lo) r).

Definition at_least (n : nat) (r : t) : t := Seq (times n r) (Star r).

Definition any : t := Class [(0, 255)%N].

Definition char (c : ascii) : t := Class [(N_of_ascii c, N_of_ascii c)].

(** [/^r$/.test(s)] and [/r/.test(s)] *)
Definition test_anchored (r : t) (s : string) : bool := matches r s.

Definition test (r : t) (s : string) : bool :=
  matches (Seq (Star any) (Seq r (Star any))) s.

(** The strings a regular expression denotes. *)
Inductive Lang : t -> string -> Prop :=
| LEmpty : Lang Empty EmptyString
| LClass ranges c : in_class ranges c = true -> Lang (Class ranges) (String c EmptyString)
| LSeq r1 r2 s1 s2 : Lang r1 s1 -> Lang r2 s2 -> Lang (Seq r1 r2) (s1 +:+ s2)
| LAltL r1 r2 s : Lang r1 s -> Lang (Alt r1 r2) s
| LAltR r1 r2 s : Lang r2 s -> Lang (Alt r1 r2) s
| LStarNil r : Lang (Star r) EmptyString
| LStarApp r s1 s2 : Lang r s1 -> Lang (Star r) s2 -> Lang (Star r) (s1 +:+ s2).

End RegExp.

(** ** utils/validators.ts *)

Module ValidationResult.
Record t := mk { valid : bool; error : option string }.
End ValidationResult.

Module Validators.

Definition lower : list (N * N) := [(97, 122)%N].
Definition upper : list (N * N) := [(65, 90)%N].
Definition digit : list (N * N) := [(48, 57)%N].

(** [/^[a-zA-Z0-9._%+-]+@[a-zA-Z0-9.-]+\.[a-zA-Z]{2,}$/] *)
Definition EMAIL_LOCAL_CLASS : list (N * N) :=
  (lower ++ upper ++ digit ++ [(46, 46); (95, 95); (37, 37); (43, 43); (45, 45)]%N)%list.

Definition EMAIL_DOMAIN_CLASS : list (N * N) :=
  (lower ++ upper ++ digit ++ [(46, 46); (45, 45)]%N)%list.

Definition LETTER_CLASS : list (N * N) := (lower ++ upper)%list.

Definition EMAIL_REGEX : RegExp.t :=
  RegExp.Seq
    (RegExp.plus (RegExp.Class EMAIL_LOCAL_CLASS))
    (RegExp.Seq (RegExp.char "@")
       (RegExp.Seq
          (RegExp.plus (RegExp.Class EMAIL_DOMAIN_CLASS))
          (RegExp.Seq (RegExp.char ".")
             (RegExp.at_least 2 (RegExp.Class LETTER_CLASS))))).

(** [/^[a-zA-Z0-9_-]{3,30}$/] *)
Definition USERNAME_CLASS : list (N * N) :=
  (lower ++ upper ++ digit ++ [(95, 95); (45, 45)]%N)%list.

Definition USERNAME_REGEX : RegExp.t :=
  RegExp.between 3 30 (RegExp.Class USERNAME_CLASS).

Definition MIN_PASSWORD_LENGTH : nat := 8.
Definition MAX_PASSWORD_LENGTH : nat := 128.

Definition invalid (err : string) : ValidationResult.t :=
  ValidationResult.mk false (Some err).

Definition ok : ValidationResult.t := ValidationResult.mk true None.

Definition validateEmail (email : string) : ValidationResult.t :=
  let trimmed := Js.toLowerCase (Str.trim email) in
  if String.eqb trimmed "" then invalid "Email is required"
  else if (254 <? String.length trimmed)%nat then invalid "Email is too long"
  else if negb (RegExp.test_anchored EMAIL_REGEX trimmed) then invalid "Invalid email format"
  else ok.

Definition validatePassword (password : string) : ValidationResult.t :=
  if String.eqb password "" then invalid "Password is required"
  else if (String.length password <? MIN_PASSWORD_LENGTH)%nat
  then invalid "Password must be at least 8 characters"
  else if (MAX_PASSWORD_LENGTH <? String.length password)%nat
  then invalid "Password must be at most 128 characters"
  else if negb (RegExp.test (RegExp.Class upper) password)
  then invalid "Password must contain an uppercase letter"
  else if negb (RegExp.test (RegExp.Class lower) password)
  then invalid "Password must contain a lowercase letter"
  else if negb (RegExp.test (RegExp.Class digit) password)
  then invalid "Password must contain a digit"
  else ok.

Definition validateUsername (username : string) : ValidationResult.t :=
  let trimmed := Str.trim username in
  if String.eqb trimmed "" then invalid "Username is required"
  else if negb (RegExp.test_anchored USERNAME_REGEX trimmed)
  then invalid "Username must be 3-30 characters, alphanumeric with _ and -"
  else ok.

Definition sanitizeInput (input : string) : string :=
  Str.trim
    (Str.replaceAll "'" "&#x27;"
       (Str.replaceAll "034" "&quot;"
          (Str.replaceAll ">" "&gt;"
             (Str.replaceAll "<" "&lt;"
                (Str.replaceAll "&" "&amp;" input))))).

End Validators.

(** ** utils/hash.ts, continued *)

Section HashMore.
Context `{Runtime}.

(** [random] stands for what [crypto.randomBytes(SALT_LENGTH)] returns
    in the call at hand. *)
Definition generateSalt (random : list N) : string := Str.to_hex random.

Definition hashPassword (random : list N) (password : string) : Async string :=
  let salt := generateSalt random in
  match scrypt password salt KEY_LENGTH SCRYPT_COST with
  | inl err => settle (Rejected err)
  | inr derivedKey => ret (salt +:+ ":" +:+ Str.to_hex derivedKey)
  end.

End HashMore.

(** ** api/models/user-model.ts, continued *)

Section UserModelMore.
Context `{Env}.

(** INSERT INTO users (...) VALUES (...) *)
Definition Sql_insert_user (u : User.t) : Async unit :=
  Sql.write (fun d =>
    Db.mk (Db.connected d) (Db.sessions d) (Db.users d ++ [u]) (Db.audit_logs d)).

(** DELETE FROM users WHERE id = $1, with the number of rows deleted. *)
Definition Sql_delete_user (id : string) : Async nat :=
  do rowCount <- Sql.read (fun _ d => length (filter (fun u => User.id u = id) (Db.users d)));
  Sql.write (fun d =>
    Db.mk (Db.connected d) (Db.sessions d)
          (filter (fun u => User.id u ≠ id) (Db.users d)) (Db.audit_logs d)) ;;
  ret rowCount.

Definition UserModel_create (email username passwordHash : string) : Async User.t :=
  do id <- randomUUID;
  do created <- Date_now;
  do updated <- Date_now;
  let user :=
    User.mk id (Js.toLowerCase email) username passwordHash UserRole.User true false None
            created updated in
  Sql_insert_user user ;;
  Logger.log "UserModel" info "User created" ;;
  ret user.

Definition UserModel_delete (id : string) : Async bool :=
  do rowCount <- Sql_delete_user id;
  Logger.log "UserModel" info "User deleted" ;;
  ret (0 <? rowCount)%nat.

End UserModelMore.

(** ** api/controllers/auth-controller.ts, continued *)

Module SignupData.
Record t := mk {
  email : string;
  username : string;
  password : string;
  confirmPassword : string
}.
End SignupData.

Section AuthControllerMore.
Context `{Env} `{Runtime}.

Definition validation_failure {T : Type} (check : ValidationResult.t) : ApiResponse.t T :=
  ApiResponse.mk false None (ValidationResult.error check) None 400.

(** [random] is the salt drawn inside [hashPassword]. *)
Definition signup (random : list N) (data : SignupData.t) (ip userAgent : string)
  : Async (ApiResponse.t AuthTokens.t) :=
  let emailCheck := Validators.validateEmail (SignupData.email data) in
  if negb (ValidationResult.valid emailCheck) then ret (validation_failure emailCheck)
  else
  let usernameCheck := Validators.validateUsername (SignupData.username data) in
  if negb (ValidationResult.valid usernameCheck) then ret (validation_failure usernameCheck)
  else
  let passwordCheck := Validators.validatePassword (SignupData.password data) in
  if negb (ValidationResult.valid passwordCheck) then ret (validation_failure passwordCheck)
  else
  if negb (String.eqb (SignupData.password data) (SignupData.confirmPassword data))
  then ret (ApiResponse.failure "Passwords do not match" 400)
  else
    do existing <- UserModel.findByEmail (SignupData.email data);
    match existing with
    | Some _ => ret (ApiResponse.failure "Email already in use" 409)
    | None =>
        do passwordHash <- hashPassword random (SignupData.password data);
        do user <- UserModel_create (SignupData.email data) (SignupData.username data)
                                    passwordHash;
        do tokens <- createTokenPair (User.id user) (User.email user) (User.role user);
        do _ <- SessionManager.create (User.id user) (User.email user) (User.role user)
                                      tokens userAgent ip;
        do _ <- AuditLogModel.create (User.id user) Signup (Some ip) (Some userAgent);
        Logger.log "AuthController" info "User signed up" ;;
        ret (ApiResponse.ok tokens 201)
    end.

Definition forgotPassword (email : string) : Async (ApiResponse.t unit) :=
  do user <- UserModel.findByEmail email;
  match user with
  | Some _ => Logger.log "AuthController" info "Password reset requested"
  | None => ret tt
  end ;;
  ret (ApiResponse.mk true None None
         (Some "If that email exists, a reset link has been sent") 200).

Definition resetPassword (token newPassword : string) : Async (ApiResponse.t unit) :=
  let check := Validators.validatePassword newPassword in
  if negb (ValidationResult.valid check) then ret (validation_failure check)
  else ret (ApiResponse.mk true None None (Some "Password has been reset") 200).

End AuthControllerMore.

(** ** api/controllers/user-controller.ts *)

Module SafeUser.
Record t := mk {
  id : string;
  email : string;
  username : string;
  role : UserRole;
  isActive : bool;
  emailVerified : bool;
  lastLoginAt : option Z;
  createdAt : Z;
  updatedAt : Z
}.
End SafeUser.

Section UserController.
Context `{Env}.

Definition stripPassword (user : User.t) : SafeUser.t :=
  SafeUser.mk (User.id user) (User.email user) (User.username user) (User.role user)
              (User.isActive user) (User.emailVerified user) (User.lastLoginAt user)
              (User.createdAt user) (User.updatedAt user).

Definition getProfile (userId : string) : Async (ApiResponse.t SafeUser.t) :=
  do user <- UserModel.findById userId;
  match user with
  | None => ret (ApiResponse.failure "User not found" 404)
  | Some user => ret (ApiResponse.ok (stripPassword user) 200)
  end.

Definition deleteAccount (userId : string) (role : UserRole) : Async (ApiResponse.t unit) :=
  requirePermission role Permission.DeleteOwnAccount ;;
  do deleted <- UserModel_delete userId;
  if negb deleted then ret (ApiResponse.failure "User not found" 404)
  else
    do _ <- AuditLogModel.create userId AccountDeletion None None;
    ret (ApiResponse.mk true None None (Some "Account deleted") 200).

Definition getUserById (requestingRole : UserRole) (targetId : string)
  : Async (ApiResponse.t SafeUser.t) :=
  if negb (hasPermission requestingRole Permission.ReadAnyProfile)
  then ret (ApiResponse.failure "Forbidden" 403)
  else
    do user <- UserModel.findById targetId;
    match user with
    | None => ret (ApiResponse.failure "User not found" 404)
    | Some user => ret (ApiResponse.ok (stripPassword user) 200)
    end.

End UserController.

(** ** config/database.ts: the connection as shipped *)

Module QueryResult.
Record t (T : Type) := mk { rows : list T; rowCount : Z }.
Arguments mk {T}.
Arguments rows {T}.
Arguments rowCount {T}.
End QueryResult.

(** A value passed to [query] in its [params] array. *)
Inductive SqlParam :=
| PString (s : string)
| PDate (ms : Z)
| PBool (b : bool).

(** A row of undeclared shape, [Record<string, unknown>]. *)
Definition AnyRow : Type := list (string * SqlParam).

(** The values of the string enum [AuditAction]. *)
Definition AuditAction_value (a : AuditAction) : string :=
  match a with
  | Login => "LOGIN"
  | Logout => "LOGOUT"
  | Signup => "SIGNUP"
  | PasswordChange => "PASSWORD_CHANGE"
  | PasswordReset => "PASSWORD_RESET"
  | ProfileUpdate => "PROFILE_UPDATE"
  | AccountDeletion => "ACCOUNT_DELETION"
  | RoleChange => "ROLE_CHANGE"
  | TokenRefresh => "TOKEN_REFRESH"
  end.

(** The handlers and models over [DatabaseConnection.query] as it is
    written in config/database.ts: after the [connected] guard it
    discards the statement and its parameters and returns a result with
    no rows, so it reads and writes no table.  Each function below is the
    source function with its calls of [query] as they stand. *)
Module Shipped.

Definition query {T : Type} (sql : string) (params : list SqlParam)
  : Async (QueryResult.t T) :=
  Sql.query_guard ;; ret (QueryResult.mk [] 0).

Module SessionManager.
Section SessionManager.
Context `{Env} `{Runtime}.

Definition create (userId email : string) (role : UserRole) (tokens : AuthTokens.t)
  (userAgent ipAddress : string) : Async Session.t :=
  do id <- randomUUID;
  do now <- Date_now;
  do created <- Date_now;
  let session :=
    Session.mk id userId (AuthTokens.refreshToken tokens) userAgent ipAddress
               (now + AuthTokens.expiresIn tokens * 1000) created in
  do _ <- query (T := AnyRow)
            "INSERT INTO sessions (id, user_id, refresh_token, user_agent, ip_address, expires_at) VALUES ($1, $2, $3, $4, $5, $6)"
            [PString (Session.id session); PString userId;
             PString (AuthTokens.refreshToken tokens); PString userAgent;
             PString ipAddress; PDate (Session.expiresAt session)];
  Logger.log "SessionManager" info "Session created" ;;
  ret session.

Definition destroy (sessionId : string) : Async unit :=
  do _ <- query (T := AnyRow) "DELETE FROM sessions WHERE id = $1" [PString sessionId];
  Logger.log "SessionManager" info "Session destroyed".

Definition refresh (refreshToken : string) : Async (option AuthTokens.t) :=
  do payload <- verifyToken refreshToken true;
  match payload with
  | None =>
      Logger.log "SessionManager" warn "Invalid refresh token presented" ;;
      ret None
  | Some payload =>
      do result <- query (T := Session.t)
                     "SELECT * FROM sessions WHERE refresh_token = $1 AND expires_at > NOW()"
                     [PString refreshToken];
      if QueryResult.rowCount result =? 0 then
        Logger.log "SessionManager" warn "No active session found for refresh token" ;;
        ret None
      else
        do newTokens <- createTokenPair (JwtPayload.sub payload) (JwtPayload.email payload)
                                        (JwtPayload.role payload);
        do _ <- query (T := AnyRow)
                  "UPDATE sessions SET refresh_token = $1 WHERE refresh_token = $2"
                  [PString (AuthTokens.refreshToken newTokens); PString refreshToken];
        Logger.log "SessionManager" info "Session refreshed" ;;
        ret (Some newTokens)
  end.

(** [result.rows[0].refreshToken] on an empty [rows] is a [TypeError],
    which the [async] function turns into a rejection. *)
Definition validate (sessionId : string) : Async (option JwtPayload.t) :=
  do result <- query (T := Session.t)
                 "SELECT * FROM sessions WHERE id = $1 AND expires_at > NOW()"
                 [PString sessionId];
  if QueryResult.rowCount result =? 0 then ret None
  else
    match QueryResult.rows result with
    | row :: _ => verifyToken (Session.refreshToken row) true
    | [] => throw "Cannot read properties of undefined (reading 'refreshToken')"
    end.

End SessionManager.
End SessionManager.

Module UserModel.
Section UserModel.
Context `{Env}.

Definition findById (id : string) : Async (option User.t) :=
  do result <- query (T := User.t) "SELECT * FROM users WHERE id = $1" [PString id];
  ret (head (QueryResult.rows result)).

Definition findByEmail (email : string) : Async (option User.t) :=
  do result <- query (T := User.t) "SELECT * FROM users WHERE email = $1"
                 [PString (Js.toLowerCase email)];
  ret (head (QueryResult.rows result)).

Definition create (email username passwordHash : string) : Async User.t :=
  do id <- randomUUID;
  do created <- Date_now;
  do updated <- Date_now;
  let user :=
    User.mk id (Js.toLowerCase email) username passwordHash UserRole.User true false None
            created updated in
  do _ <- query (T := AnyRow)
            "INSERT INTO users (id, email, username, password_hash, role, is_active, email_verified, created_at, updated_at) VALUES ($1,$2,$3,$4,$5,$6,$7,$8,$9)"
            [PString (User.id user); PString (User.email user); PString (User.username user);
             PString (User.passwordHash user); PString (User.role user);
             PBool (User.isActive user); PBool (User.emailVerified user);
             PDate (User.createdAt user); PDate (User.updatedAt user)];
  Logger.log "UserModel" info "User created" ;;
  ret user.

(** [update(id, { lastLoginAt })], the one shape the login handler uses. *)
Definition update_lastLoginAt (id : string) (lastLoginAt : Z) : Async (option User.t) :=
  do updated <- Date_now;
  do _ <- query (T := AnyRow)
            "UPDATE users SET lastLoginAt = $1, updated_at = $2 WHERE id = $3"
            [PDate lastLoginAt; PDate updated; PString id];
  findById id.

Definition delete (id : string) : Async bool :=
  do result <- query (T := AnyRow) "DELETE FROM users WHERE id = $1" [PString id];
  Logger.log "UserModel" info "User deleted" ;;
  ret (0 <? QueryResult.rowCount result).

End UserModel.
End UserModel.

Module AuditLogModel.

(** [JSON.stringify(entry.metadata)] is the text of an empty object in
    every call the handlers below make. *)
Definition create (userId : string) (action : AuditAction)
  (ipAddress userAgent : option string) : Async AuditLogEntry.t :=
  do id <- randomUUID;
  do created <- Date_now;
  let entry :=
    AuditLogEntry.mk id userId action (default "unknown" ipAddress)
                     (default "unknown" userAgent) created in
  do _ <- query (T := AnyRow)
            "INSERT INTO audit_logs (id, user_id, action, metadata, ip_address, user_agent, created_at) VALUES ($1,$2,$3,$4,$5,$6,$7)"
            [PString (AuditLogEntry.id entry); PString (AuditLogEntry.userId entry);
             PString (AuditAction_value (AuditLogEntry.action entry)); PString "{}";
             PString (AuditLogEntry.ipAddress entry); PString (AuditLogEntry.userAgent entry);
             PDate (AuditLogEntry.createdAt entry)];
  ret entry.

End AuditLogModel.

Module AuthController.
Section AuthController.
Context `{Env} `{Runtime}.

(** A collaborator call, written to the journal as it is made. *)
Definition call {A : Type} (c : Call) (m : Async A) : Async A :=
  record_call c ;; m.

Definition login (credentials : LoginCredentials.t) (ip userAgent : string)
  : Async (ApiResponse.t AuthTokens.t) :=
  do user <- call (CallFindByEmail (LoginCredentials.email credentials))
                  (UserModel.findByEmail (LoginCredentials.email credentials));
  let not_found :=
    Logger.log "AuthController" warn "Login failed: user not found" ;;
    ret (ApiResponse.failure "Invalid credentials" 401) in
  match user with
  | None => not_found
  | Some user =>
      if negb (User.isActive user) then not_found
      else
        do valid <- call (CallComparePassword (LoginCredentials.password credentials)
                                              (User.passwordHash user))
                         (comparePassword (LoginCredentials.password credentials)
                                          (User.passwordHash user));
        if negb valid then
          Logger.log "AuthController" warn "Login failed: wrong password" ;;
          ret (ApiResponse.failure "Invalid credentials" 401)
        else
          do tokens <- call (CallCreateTokenPair (User.id user))
                            (createTokenPair (User.id user) (User.email user) (User.role user));
          do _ <- call (CallSessionCreate (User.id user))
                       (SessionManager.create (User.id user) (User.email user) (User.role user)
                                              tokens userAgent ip);
          do lastLoginAt <- Date_now;
          do _ <- call (CallUserUpdate (User.id user))
                       (UserModel.update_lastLoginAt (User.id user) lastLoginAt);
          do _ <- call (CallAuditCreate (User.id user) Login)
                       (AuditLogModel.create (User.id user) Login (Some ip) (Some userAgent));
          Logger.log "AuthController" info "User logged in" ;;
          ret (ApiResponse.ok tokens 200)
  end.

(** [random] is the salt drawn inside [hashPassword]. *)
Definition signup (random : list N) (data : SignupData.t) (ip userAgent : string)
  : Async (ApiResponse.t AuthTokens.t) :=
  let emailCheck := Validators.validateEmail (SignupData.email data) in
  if negb (ValidationResult.valid emailCheck) then ret (validation_failure emailCheck)
  else
  let usernameCheck := Validators.validateUsername (SignupData.username data) in
  if negb (ValidationResult.valid usernameCheck) then ret (validation_failure usernameCheck)
  else
  let passwordCheck := Validators.validatePassword (SignupData.password data) in
  if negb (ValidationResult.valid passwordCheck) then ret (validation_failure passwordCheck)
  else
  if negb (String.eqb (SignupData.password data) (SignupData.confirmPassword data))
  then ret (ApiResponse.failure "Passwords do not match" 400)
  else
    do existing <- UserModel.findByEmail (SignupData.email data);
    match existing with
    | Some _ => ret (ApiResponse.failure "Email already in use" 409)
    | None =>
        do passwordHash <- hashPassword random (SignupData.password data);
        do user <- UserModel.create (SignupData.email data) (SignupData.username data)
                                    passwordHash;
        do tokens <- createTokenPair (User.id user) (User.email user) (User.role user);
        do _ <- SessionManager.create (User.id user) (User.email user) (User.role user)
                                      tokens userAgent ip;
        do _ <- AuditLogModel.create (User.id user) Signup (Some ip) (Some userAgent);
        Logger.log "AuthController" info "User signed up" ;;
        ret (ApiResponse.ok tokens 201)
    end.

Definition refreshToken (refreshToken userId : string)
  : Async (ApiResponse.t AuthTokens.t) :=
  do tokens <- SessionManager.refresh refreshToken;
  match tokens with
  | None => ret (ApiResponse.failure "Invalid refresh token" 401)
  | Some tokens =>
      do _ <- AuditLogModel.create userId TokenRefresh None None;
      ret (ApiResponse.ok tokens 200)
  end.

End AuthController.
End AuthController.

Module UserController.
Section UserController.
Context `{Env}.

Definition getProfile (userId : string) : Async (ApiResponse.t SafeUser.t) :=
  do user <- UserModel.findById userId;
  match user with
  | None => ret (ApiResponse.failure "User not found" 404)
  | Some user => ret (ApiResponse.ok (stripPassword user) 200)
  end.

Definition deleteAccount (userId : string) (role : UserRole) : Async (ApiResponse.t unit) :=
  requirePermission role Permission.DeleteOwnAccount ;;
  do deleted <- UserModel.delete userId;
  if negb deleted then ret (ApiResponse.failure "User not found" 404)
  else
    do _ <- AuditLogModel.create userId AccountDeletion None None;
    ret (ApiResponse.mk true None None (Some "Account deleted") 200).

Definition getUserById (requestingRole : UserRole) (targetId : string)
  : Async (ApiResponse.t SafeUser.t) :=
  if negb (hasPermission requestingRole Permission.ReadAnyProfile)
  then ret (ApiResponse.failure "Forbidden" 403)
  else
    do user <- UserModel.findById targetId;
    match user with
    | None => ret (ApiResponse.failure "User not found" 404)
    | Some user => ret (ApiResponse.ok (stripPassword user) 200)
    end.

End UserController.
End UserController.

End Shipped.



(** Further sample data over the reference runtime: an access token
    minted in [world0] and a request that presents it, a token pair, a
    world whose database was never connected, and two signups, one
    well-formed and one with a malformed email, with the salt bytes drawn
    for them. *)
Module Samples.
Import RefRuntime.

Definition accessToken0 : string :=
  match fst (generateAccessToken "u1" "a@b.com" UserRole.User world0) with
  | Fulfilled t => t
  | _ => ""
  end.

Definition request_bearer : Request.t :=
  Request.mk {["authorization" := "Bearer " +:+ accessToken0]} None (Some "10.0.0.1").

Definition tokens0 : AuthTokens.t :=
  AuthTokens.mk accessToken0 refreshToken0 900 "Bearer".

Definition world_offline : World.t :=
  World.mk 5000 uuids 0 (Db.mk false [] [alice; bob] []) ∅ [] [].

Definition salt_bytes : list N := [1; 2; 3; 4]%N.

Definition newcomer : SignupData.t :=
  SignupData.mk "New@Example.com" "newcomer" "Abcdef12" "Abcdef12".

Definition careless : SignupData.t :=
  SignupData.mk "not-an-email" "newcomer" "Abcdef12" "Abcdef12".

Definition response_of (o : Outcome (ApiResponse.t AuthTokens.t)) : ApiResponse.t AuthTokens.t :=
  match o with
  | Fulfilled response => response
  | _ => ApiResponse.failure "no response" 0
  end.

Definition careless_response : ApiResponse.t AuthTokens.t :=
  response_of (fst (signup salt_bytes careless "10.0.0.1" "agent" world0)).

Definition world_careless : World.t :=
  snd (signup salt_bytes careless "10.0.0.1" "agent" world0).

End Samples.

(** The rejection of [query] when no connection was made. *)
Definition notConnected : string := "Database not connected. Call connect() first.".

(** * Properties *)

(** ** Strings and splitting *)

Lemma length_append a b :
  String.length (a +:+ b) = (String.length a + String.length b)%nat.
Proof. induction a as [|c a IH]; simpl; [reflexivity | now rewrite IH]. Qed.

Lemma split_free sep s : Js.occurs sep s = false -> Js.split sep s = [s].
Proof.
  induction s as [|c s IH]; simpl; intros Hs; [reflexivity|].
  apply orb_false_elim in Hs as [Hc Hs].
  rewrite Hc, (IH Hs). reflexivity.
Qed.

Lemma split_app sep a b :
  Js.occurs sep a = false ->
  Js.split sep (a +:+ String sep b) = a :: Js.split sep b.
Proof.
  induction a as [|c a IH]; simpl; intros Ha.
  - rewrite Ascii.eqb_refl. reflexivity.
  - apply orb_false_elim in Ha as [Hc Ha].
    rewrite Hc, (IH Ha). reflexivity.
Qed.

(** The token text [h.b.s] splits back into its three segments. *)
Lemma split_three h b s :
  Js.occurs "." h = false -> Js.occurs "." b = false -> Js.occurs "." s = false ->
  Js.split "." (h +:+ "." +:+ b +:+ "." +:+ s) = [h; b; s].
Proof.
  intros Hh Hb Hs.
  change (h +:+ "." +:+ b +:+ "." +:+ s) with (h +:+ String "." (b +:+ String "." s)).
  rewrite (split_app _ _ _ Hh), (split_app _ _ _ Hb), (split_free _ _ Hs).
  reflexivity.
Qed.

(** ** Tokens *)

Section JwtProps.
Context `{Env} `{R : Runtime} {L : RuntimeLaws R}.

Lemma sign_split p secret :
  Js.split "." (sign p secret) =
  [base64url header_json; base64url (JSON_stringify p);
   hmacSha256 secret (signing_input p)].
Proof.
  unfold sign, signing_input, base64url.
  apply split_three; auto using b64url_no_dot, hmac_no_dot.
Qed.

Lemma mint_run isRefresh userId email role w :
  mint isRefresh userId email role w =
  (Fulfilled (sign (minted_payload isRefresh userId email role w) (secret_of isRefresh)),
   World.with_uuid_drawn (S (World.uuid_drawn w)) w).
Proof. destruct isRefresh; reflexivity. Qed.

(** Verification of a signed payload, by cases on the key and the clock. *)
Lemma verify_sign p signedAs isRefresh w :
  verifyToken (sign p (secret_of signedAs)) isRefresh w =
  (Fulfilled
     (if negb (String.eqb (hmacSha256 (secret_of isRefresh) (signing_input p))
                          (hmacSha256 (secret_of signedAs) (signing_input p)))
      then None
      else if JwtPayload.exp p <? now_seconds w then None else Some p),
   w).
Proof.
  unfold verifyToken. rewrite sign_split.
  change (base64url header_json +:+ "." +:+ base64url (JSON_stringify p))
    with (signing_input p).
  replace (if isRefresh then Config.JWT_SECRET config +:+ "_refresh"
           else Config.JWT_SECRET config) with (secret_of isRefresh) by reflexivity.
  destruct (negb _); [reflexivity|].
  unfold base64url. rewrite b64url_decode_encode, JSON_parse_stringify.
  unfold bind, Date_now, now_seconds; simpl.
  destruct (_ <? _); reflexivity.
Qed.

Lemma refresh_secret_differs : secret_of true <> secret_of false.
Proof.
  unfold secret_of. intros E.
  apply (f_equal String.length) in E.
  rewrite length_append in E. simpl in E. lia.
Qed.

(** C5. A token verified under its own kind in the world its mint left
    (the clock has not moved) yields exactly the payload that was minted:
    the given subject, email and role, [iat] the clock in seconds, [exp]
    that plus the kind's TTL, [jti] the UUID drawn; the same holds in any
    world whose clock, in seconds, has not passed that [exp].  In any
    world whose clock, in seconds, is strictly past that [exp], verifying
    the same token yields [null].  The TTL is taken non-negative. *)
Theorem verify_after_mint isRefresh userId email role w :
  0 <= ttl isRefresh ->
  exists token w',
    mint isRefresh userId email role w = (Fulfilled token, w') /\
    World.clock w' = World.clock w /\
    verifyToken token isRefresh w' =
      (Fulfilled (Some (minted_payload isRefresh userId email role w)), w') /\
    (forall w2,
       now_seconds w2 <= JwtPayload.exp (minted_payload isRefresh userId email role w) ->
       verifyToken token isRefresh w2 =
         (Fulfilled (Some (minted_payload isRefresh userId email role w)), w2)) /\
    (forall w2,
       JwtPayload.exp (minted_payload isRefresh userId email role w) < now_seconds w2 ->
       verifyToken token isRefresh w2 = (Fulfilled None, w2)).
Proof.
  intros Httl. rewrite mint_run. do 2 eexists.
  split; [reflexivity|]. split; [reflexivity|].
  assert (Hvalid : forall w2,
    now_seconds w2 <= JwtPayload.exp (minted_payload isRefresh userId email role w) ->
    verifyToken (sign (minted_payload isRefresh userId email role w) (secret_of isRefresh))
                isRefresh w2 =
      (Fulfilled (Some (minted_payload isRefresh userId email role w)), w2)).
  { intros w2 Hle. rewrite verify_sign, String.eqb_refl. cbn [negb].
    destruct (Z.ltb_spec (JwtPayload.exp (minted_payload isRefresh userId email role w))
                         (now_seconds w2)); [lia | reflexivity]. }
  split; [|split].
  - apply Hvalid. unfold now_seconds. simpl. lia.
  - exact Hvalid.
  - intros w2 Hpast. rewrite verify_sign, String.eqb_refl. cbn [negb].
    destruct (Z.ltb_spec (JwtPayload.exp (minted_payload isRefresh userId email role w))
                         (now_seconds w2)); [reflexivity | lia].
Qed.

End JwtProps.

Section KindProps.
Context `{Env} `{R : Runtime} {L : RuntimeLaws R} {K : HmacLaws R}.

(** The secret a kind is checked under is not the secret of the other
    kind. *)
Lemma secret_of_negb isRefresh : secret_of (negb isRefresh) <> secret_of isRefresh.
Proof.
  destruct isRefresh; cbn [negb]; intros E; [symmetry in E|];
    exact (refresh_secret_differs E).
Qed.

(** C3. A token minted as one kind never verifies as the other kind:
    for an access token, [verifyToken(token, true)] is [null], and for a
    refresh token, [verifyToken(token, false)] is [null], in every world.
    The refresh secret is the access secret followed by "_refresh", so the
    two secrets differ ([refresh_secret_differs]), and HMAC under
    different keys gives different signatures ([hmac_key_injective]). *)
Theorem token_kinds_do_not_cross isRefresh userId email role w :
  exists token w',
    mint isRefresh userId email role w = (Fulfilled token, w') /\
    forall w2, verifyToken token (negb isRefresh) w2 = (Fulfilled None, w2).
Proof.
  rewrite mint_run. do 2 eexists. split; [reflexivity|].
  intros w2. rewrite verify_sign.
  destruct (String.eqb_spec
              (hmacSha256 (secret_of (negb isRefresh))
                 (signing_input (minted_payload isRefresh userId email role w)))
              (hmacSha256 (secret_of isRefresh)
                 (signing_input (minted_payload isRefresh userId email role w))))
    as [E|_]; [|reflexivity].
  apply hmac_key_injective in E. now apply secret_of_negb in E.
Qed.

End KindProps.

(** ** Password comparison *)

Section HashProps.
Context `{R : Runtime} {L : ScryptLaws R}.

Lemma split_stored salt hash :
  Js.occurs ":" salt = false -> Js.occurs ":" hash = false ->
  Js.split ":" (salt +:+ ":" +:+ hash) = [salt; hash].
Proof.
  intros Hs Hh.
  change (salt +:+ ":" +:+ hash) with (salt +:+ String ":" hash).
  now rewrite (split_app _ _ _ Hs), (split_free _ _ Hh).
Qed.

Lemma falsy_Some s : s <> "" -> Js.falsy (Some s) = false.
Proof. intros Hs. simpl. now apply String.eqb_neq. Qed.

(** The guard of [comparePassword]: a stored value without a salt or
    without a key half compares as [false]. *)
Lemma comparePassword_guard password storedHash w :
  Js.falsy (Js.split ":" storedHash !! 0%nat) = true \/
  Js.falsy (Js.split ":" storedHash !! 1%nat) = true ->
  comparePassword password storedHash w = (Fulfilled false, w).
Proof.
  intros Hg. unfold comparePassword.
  destruct Hg as [-> | ->]; [reflexivity|].
  now rewrite orb_true_r.
Qed.

(** C4 (as the code behaves).  A stored value [salt:hash] with both
    halves present whose key half does not decode to [KEY_LENGTH] bytes
    passes the guard, and once scrypt has derived its key, the comparison
    throws inside the scrypt callback: the call ends in an uncaught
    exception, not in [false]. *)
Theorem comparePassword_wrong_length_uncaught password salt hash key w :
  Js.occurs ":" salt = false -> Js.occurs ":" hash = false ->
  salt <> "" -> hash <> "" ->
  length (Buffer.from_hex hash) <> KEY_LENGTH ->
  scrypt password salt KEY_LENGTH SCRYPT_COST = inr key ->
  comparePassword password (salt +:+ ":" +:+ hash) w =
    (Uncaught "Input buffers must have the same byte length", w).
Proof.
  intros Hs Hh Hsalt Hhash Hlen Hkey.
  unfold comparePassword. rewrite (split_stored _ _ Hs Hh).
  change ([salt; hash] !! 0%nat) with (Some salt).
  change ([salt; hash] !! 1%nat) with (Some hash).
  rewrite (falsy_Some _ Hsalt), (falsy_Some _ Hhash). simpl.
  rewrite Hkey. unfold Buffer.timingSafeEqual.
  rewrite (scrypt_length _ _ _ _ _ Hkey).
  apply Nat.eqb_neq in Hlen. rewrite Hlen. reflexivity.
Qed.

End HashProps.

(** ** The role table *)

Lemma includes_In x xs : Js.includes x xs = true <-> In x xs.
Proof.
  unfold Js.includes. rewrite existsb_exists. split.
  - intros (y & Hy & E). apply String.eqb_eq in E. now subst.
  - intros Hx. exists x. split; [assumption | apply String.eqb_refl].
Qed.

Lemma RolePermissions_lookup role :
  RolePermissions !! role =
  if decide (UserRole.Admin = role) then Some Permission.values
  else if decide (UserRole.Moderator = role) then
    Some [Permission.ReadOwnProfile; Permission.UpdateOwnProfile;
          Permission.DeleteOwnAccount; Permission.ReadAnyProfile;
          Permission.ListUsers; Permission.ViewAuditLog]
  else if decide (UserRole.User = role) then
    Some [Permission.ReadOwnProfile; Permission.UpdateOwnProfile;
          Permission.DeleteOwnAccount]
  else if decide (UserRole.Guest = role) then Some [Permission.ReadOwnProfile]
  else None.
Proof.
  unfold RolePermissions, Js.Map_new, RolePermissions_entries. simpl fold_left.
  rewrite !lookup_insert. rewrite lookup_empty.
  repeat case_decide; reflexivity.
Qed.

(** C7. [hasPermission(role, permission)] holds exactly when the
    authored entry of that very role lists the permission; nothing is
    inherited from another role's entry: the User role lacks ListUsers
    although Moderator has it; and a role without an entry has no
    permission at all. *)
Theorem hasPermission_authored_table :
  (forall role permission,
     hasPermission role permission = true <->
     exists permissions,
       In (role, permissions) RolePermissions_entries /\ In permission permissions) /\
  hasPermission UserRole.User Permission.ListUsers = false /\
  hasPermission UserRole.Moderator Permission.ListUsers = true /\
  (forall role permission,
     (forall permissions, ~ In (role, permissions) RolePermissions_entries) ->
     hasPermission role permission = false).
Proof.
  assert (Hchar : forall role permission,
    hasPermission role permission = true <->
    exists permissions,
      In (role, permissions) RolePermissions_entries /\ In permission permissions).
  { intros role permission. unfold hasPermission.
    rewrite RolePermissions_lookup. split.
    - repeat case_decide; try discriminate; subst role;
        intros Hin%includes_In; eexists; (split; [|exact Hin]);
        unfold RolePermissions_entries; simpl; auto.
    - intros (ps & Hentry & Hin).
      unfold RolePermissions_entries in Hentry. simpl in Hentry.
      destruct Hentry as [E | [E | [E | [E | []]]]]; inversion E; subst;
        repeat (case_decide; try discriminate); try congruence;
        now apply includes_In. }
  split; [exact Hchar|]. split; [reflexivity|]. split; [reflexivity|].
  intros role permission Hnone.
  destruct (hasPermission role permission) eqn:E; [|reflexivity].
  apply Hchar in E as (ps & Hentry & _). now apply Hnone in Hentry.
Qed.

(** ** Middlewares *)

Section MiddlewareProps.
Context `{Env} `{R : Runtime}.

(** Logging changes the console and nothing else. *)
Lemma log_run context level message w :
  exists lines,
    Logger.log context level message w = (Fulfilled tt, World.with_console lines w).
Proof.
  unfold Logger.log. destruct Logger.minLevel as [m|].
  - destruct (_ <? _).
    + exists (World.console w). now destruct w.
    + eexists. reflexivity.
  - eexists. reflexivity.
Qed.

(** C9. For a request that carries an authenticated user of role [R]
    and a route requiring the roles [S]: if [R] is in [S], [requireRole]
    hands the request to the next handler and changes nothing; if [R] is
    not in [S], it answers 403 Forbidden and the next handler is not
    called; so the request proceeds exactly when [R] is in [S]. *)
Theorem requireRole_gate roles req user w :
  Request.user req = Some user ->
  (In (JwtPayload.role user) roles ->
     requireRole roles req w = (Fulfilled (CallNext req), w)) /\
  (~ In (JwtPayload.role user) roles ->
     exists w', requireRole roles req w = (Fulfilled forbidden, w')) /\
  ((exists w', requireRole roles req w = (Fulfilled (CallNext req), w')) <->
     In (JwtPayload.role user) roles).
Proof.
  intros Huser. unfold requireRole. rewrite Huser.
  destruct (Js.includes (JwtPayload.role user) roles) eqn:E; simpl.
  - apply includes_In in E. split; [reflexivity|]. split; [tauto|].
    split; [tauto | eauto].
  - assert (Hnot : ~ In (JwtPayload.role user) roles).
    { intros Hin%includes_In. congruence. }
    destruct (log_run "AuthMiddleware" warn "Insufficient role" w) as [lines Hlog].
    unfold bind. rewrite Hlog. simpl.
    split; [tauto|]. split; [eauto|].
    split; [|tauto]. intros [w' Hw']. discriminate.
Qed.

Lemma rateLimitAuth_fresh maxAttempts windowMs req w :
  (World.rateLimitStore w !! rateLimitKey req = None \/
   exists e, World.rateLimitStore w !! rateLimitKey req = Some e /\
             RateLimitEntry.resetAt e <= World.clock w) ->
  rateLimitAuth maxAttempts windowMs req w =
    (Fulfilled (CallNext req),
     World.with_rateLimitStore
       (<[rateLimitKey req := RateLimitEntry.mk 1 (World.clock w + windowMs)]>
          (World.rateLimitStore w)) w).
Proof.
  unfold rateLimitAuth, rateLimitKey, bind, Date_now, get_rateLimitStore. simpl.
  intros [-> | (e & -> & Hle)]; [reflexivity|].
  destruct (Z.ltb_spec (World.clock w) (RateLimitEntry.resetAt e)); [lia | reflexivity].
Qed.

Lemma rateLimitAuth_counted maxAttempts windowMs req w e :
  World.rateLimitStore w !! rateLimitKey req = Some e ->
  World.clock w < RateLimitEntry.resetAt e ->
  RateLimitEntry.count e < maxAttempts ->
  rateLimitAuth maxAttempts windowMs req w =
    (Fulfilled (CallNext req),
     World.with_rateLimitStore
       (<[rateLimitKey req :=
            RateLimitEntry.mk (RateLimitEntry.count e + 1) (RateLimitEntry.resetAt e)]>
          (World.rateLimitStore w)) w).
Proof.
  unfold rateLimitAuth, rateLimitKey, bind, Date_now, get_rateLimitStore. simpl.
  intros -> Hin Hlt.
  destruct (Z.ltb_spec (World.clock w) (RateLimitEntry.resetAt e)); [|lia].
  destruct (Z.leb_spec maxAttempts (RateLimitEntry.count e)); [lia | reflexivity].
Qed.

Lemma rateLimitAuth_blocked maxAttempts windowMs req w e :
  World.rateLimitStore w !! rateLimitKey req = Some e ->
  World.clock w < RateLimitEntry.resetAt e ->
  maxAttempts <= RateLimitEntry.count e ->
  exists lines,
    rateLimitAuth maxAttempts windowMs req w =
      (Fulfilled tooManyAttempts, World.with_console lines w).
Proof.
  unfold rateLimitAuth, rateLimitKey, bind, Date_now, get_rateLimitStore. simpl.
  intros -> Hin Hge.
  destruct (Z.ltb_spec (World.clock w) (RateLimitEntry.resetAt e)); [|lia].
  destruct (Z.leb_spec maxAttempts (RateLimitEntry.count e)); [|lia].
  destruct (log_run "AuthMiddleware" warn "Rate limit exceeded" w) as [lines ->].
  exists lines. reflexivity.
Qed.

(** C6. One check of [rateLimitAuth] for a request, by the state of its
    key's entry: (1) no entry, or an entry whose window has elapsed: the
    entry becomes count 1 with reset time now + window, and the request is
    allowed; (2) an entry within its window with count >= maxAttempts: the
    request is answered 429 and the store is unchanged; (3) an entry
    within its window with count < maxAttempts: the count goes up by one,
    the reset time stays, and the request is allowed.  (4) Hence with
    maxAttempts = 3, starting from no live entry, a first call and three
    more inside the window it opens are allowed, allowed, allowed, blocked,
    and a call once that window has elapsed is allowed and leaves the
    count at 1. *)
Theorem rateLimitAuth_window maxAttempts windowMs req w :
  ((World.rateLimitStore w !! rateLimitKey req = None \/
    exists e, World.rateLimitStore w !! rateLimitKey req = Some e /\
              RateLimitEntry.resetAt e <= World.clock w) ->
   exists w',
     rateLimitAuth maxAttempts windowMs req w = (Fulfilled (CallNext req), w') /\
     World.rateLimitStore w' !! rateLimitKey req =
       Some (RateLimitEntry.mk 1 (World.clock w + windowMs))) /\
  (forall e,
     World.rateLimitStore w !! rateLimitKey req = Some e ->
     World.clock w < RateLimitEntry.resetAt e ->
     maxAttempts <= RateLimitEntry.count e ->
     exists w',
       rateLimitAuth maxAttempts windowMs req w = (Fulfilled tooManyAttempts, w') /\
       World.rateLimitStore w' = World.rateLimitStore w) /\
  (forall e,
     World.rateLimitStore w !! rateLimitKey req = Some e ->
     World.clock w < RateLimitEntry.resetAt e ->
     RateLimitEntry.count e < maxAttempts ->
     exists w',
       rateLimitAuth maxAttempts windowMs req w = (Fulfilled (CallNext req), w') /\
       World.rateLimitStore w' !! rateLimitKey req =
         Some (RateLimitEntry.mk (RateLimitEntry.count e + 1) (RateLimitEntry.resetAt e))) /\
  (forall t1 t2 t3 t4 t5,
     (World.rateLimitStore w !! rateLimitKey req = None \/
      exists e, World.rateLimitStore w !! rateLimitKey req = Some e /\
                RateLimitEntry.resetAt e <= t1) ->
     t2 < t1 + windowMs -> t3 < t1 + windowMs -> t4 < t1 + windowMs ->
     t1 + windowMs <= t5 ->
     exists w',
       serve (rateLimitAuth 3 windowMs) req [t1; t2; t3; t4; t5] w =
         ([Fulfilled (CallNext req); Fulfilled (CallNext req); Fulfilled (CallNext req);
           Fulfilled tooManyAttempts; Fulfilled (CallNext req)], w') /\
       World.rateLimitStore w' !! rateLimitKey req =
         Some (RateLimitEntry.mk 1 (t5 + windowMs))).
Proof.
  split; [|split; [|split]].
  - intros Hfresh. eexists. split; [now apply rateLimitAuth_fresh|].
    simpl. apply lookup_insert_eq.
  - intros e He Hin Hge.
    destruct (rateLimitAuth_blocked _ windowMs _ _ _ He Hin Hge) as [lines Hrun].
    eexists. split; [exact Hrun | reflexivity].
  - intros e He Hin Hlt. eexists.
    split; [now apply (rateLimitAuth_counted _ _ _ _ e)|].
    simpl. apply lookup_insert_eq.
  - intros t1 t2 t3 t4 t5 Hfresh H2 H3 H4 H5.
    cbn [serve].
    rewrite rateLimitAuth_fresh by exact Hfresh.
    set (w1 := World.with_rateLimitStore _ _).
    assert (E1 : World.rateLimitStore (World.with_clock t2 w1) !! rateLimitKey req =
                 Some (RateLimitEntry.mk 1 (t1 + windowMs)))
      by (simpl; apply lookup_insert_eq).
    rewrite (rateLimitAuth_counted 3 windowMs req _ _ E1) by (simpl; lia).
    set (w2 := World.with_rateLimitStore _ _).
    assert (E2 : World.rateLimitStore (World.with_clock t3 w2) !! rateLimitKey req =
                 Some (RateLimitEntry.mk 2 (t1 + windowMs)))
      by (simpl; apply lookup_insert_eq).
    rewrite (rateLimitAuth_counted 3 windowMs req _ _ E2) by (simpl; lia).
    set (w3 := World.with_rateLimitStore _ _).
    assert (E3 : World.rateLimitStore (World.with_clock t4 w3) !! rateLimitKey req =
                 Some (RateLimitEntry.mk 3 (t1 + windowMs)))
      by (simpl; apply lookup_insert_eq).
    destruct (rateLimitAuth_blocked 3 windowMs req _ _ E3) as [lines ->];
      [simpl; lia | simpl; lia |].
    set (w4 := World.with_console _ _).
    assert (E4 : World.rateLimitStore (World.with_clock t5 w4) !! rateLimitKey req =
                 Some (RateLimitEntry.mk 3 (t1 + windowMs)))
      by exact E3.
    rewrite rateLimitAuth_fresh by (right; eexists; split; [exact E4 | simpl; lia]).
    eexists. split; [reflexivity|].
    simpl. apply lookup_insert_eq.
Qed.

End MiddlewareProps.

(** ** Sessions *)

Section SessionProps.
Context `{Env} `{R : Runtime}.

Lemma verifyToken_world token isRefresh w :
  exists r, verifyToken token isRefresh w = (Fulfilled r, w).
Proof.
  unfold verifyToken.
  destruct (Js.split "." token) as [|p0 [|p1 [|p2 [|]]]]; try (eexists; reflexivity).
  destruct (negb _); [eexists; reflexivity|].
  destruct (JSON_parse _); [|eexists; reflexivity].
  unfold bind, Date_now. destruct (_ <? _); eexists; reflexivity.
Qed.

Lemma createTokenPair_run userId email role w :
  createTokenPair userId email role w =
  (Fulfilled
     (AuthTokens.mk
        (sign (minted_payload false userId email role w) (secret_of false))
        (sign (minted_payload true userId email role
                 (World.with_uuid_drawn (S (World.uuid_drawn w)) w))
              (secret_of true))
        (Config.JWT_EXPIRY config) "Bearer"),
   World.with_uuid_drawn (S (S (World.uuid_drawn w))) w).
Proof. reflexivity. Qed.

(** [create] stores a session that expires [tokens.expiresIn] seconds
    after the clock reading, whatever the tokens are. *)
Lemma create_run userId email role tokens userAgent ipAddress w :
  Db.connected (World.db w) = true ->
  exists session w',
    SessionManager.create userId email role tokens userAgent ipAddress w =
      (Fulfilled session, w') /\
    Session.refreshToken session = AuthTokens.refreshToken tokens /\
    Session.expiresAt session = World.clock w + AuthTokens.expiresIn tokens * 1000 /\
    In session (Db.sessions (World.db w')).
Proof.
  intros Hc.
  unfold SessionManager.create, bind, randomUUID, Date_now, Sql.insert_session,
    Sql.write, Sql.query_guard, bind. simpl. rewrite Hc.
  match goal with |- context [Logger.log ?c ?l ?m ?w0] =>
    destruct (log_run c l m w0) as [lines ->] end.
  do 2 eexists. split; [reflexivity|]. simpl.
  split; [reflexivity|]. split; [reflexivity|].
  apply in_or_app. right. now left.
Qed.



(** A verified token that a live session row holds is rotated. *)
Lemma refresh_accepts t payload w row :
  verifyToken t true w = (Fulfilled (Some payload), w) ->
  Db.connected (World.db w) = true ->
  In row (Db.sessions (World.db w)) ->
  Session.refreshToken row = t ->
  World.clock w < Session.expiresAt row ->
  exists tokens w1, SessionManager.refresh t w = (Fulfilled (Some tokens), w1).
Proof.
  intros Hv Hc Hrow Htok Hlive.
  unfold SessionManager.refresh. unfold bind at 1. rewrite Hv.
  unfold Sql.select_sessions_by_refresh_token, Sql.read, Sql.query_guard.
  unfold bind at 1. unfold bind at 1. rewrite Hc.
  assert (Hsome : Nat.eqb (length (filter (fun s => Session.refreshToken s = t /\
                                                   World.clock w < Session.expiresAt s)
                                         (Db.sessions (World.db w)))) 0 = false).
  { apply Nat.eqb_neq. intros Hlen. apply length_zero_iff_nil in Hlen.
    assert (Hin : row ∈ filter (fun s => Session.refreshToken s = t /\
                                         World.clock w < Session.expiresAt s)
                               (Db.sessions (World.db w))).
    { apply list_elem_of_filter. split; [tauto|]. now apply list_elem_of_In. }
    rewrite Hlen in Hin. now apply not_elem_of_nil in Hin. }
  rewrite Hsome.
  unfold bind at 1. rewrite createTokenPair_run.
  unfold Sql.update_refresh_token, Sql.write, Sql.query_guard, bind. simpl.
  rewrite Hc.
  match goal with |- context [Logger.log ?c ?l ?m ?w0] =>
    destruct (log_run c l m w0) as [lines ->] end.
  do 2 eexists. reflexivity.
Qed.


End SessionProps.

Section SessionLawProps.
Context `{Env} `{R : Runtime} {L : RuntimeLaws R}.


(** C1 (as the code behaves).  The session that [create] persists for a
    pair from [createTokenPair] expires [JWT_EXPIRY] seconds after the
    clock reading, the access-token lifetime carried in
    [tokens.expiresIn]; whenever the two configured lifetimes differ, as
    the defaults 900 and 604800 do, that is not the clock reading plus
    [REFRESH_EXPIRY]. *)
Theorem session_expiry_is_access_ttl userId email role userAgent ipAddress w :
  Db.connected (World.db w) = true ->
  exists tokens w1 session w2,
    createTokenPair userId email role w = (Fulfilled tokens, w1) /\
    SessionManager.create userId email role tokens userAgent ipAddress w1 =
      (Fulfilled session, w2) /\
    In session (Db.sessions (World.db w2)) /\
    Session.expiresAt session = World.clock w + Config.JWT_EXPIRY config * 1000 /\
    (Config.JWT_EXPIRY config <> Config.REFRESH_EXPIRY config ->
     Session.expiresAt session <> World.clock w + Config.REFRESH_EXPIRY config * 1000).
Proof.
  intros Hc. rewrite createTokenPair_run.
  edestruct create_run as (session & w2 & Hrun & _ & Hexp & Hin); [|
    do 4 eexists; split; [reflexivity|]; split; [exact Hrun|];
    split; [exact Hin|]; split; [exact Hexp|]].
  - exact Hc.
  - intros Hdiff. rewrite Hexp. simpl. lia.
Qed.

End SessionLawProps.

(** ** Login *)

Section LoginProps.
Context `{Env} `{R : Runtime}.

Lemma findByEmail_journal email w r j :
  UserModel.findByEmail email w = (Fulfilled r, w) ->
  UserModel.findByEmail email (World.with_journal j w) =
    (Fulfilled r, World.with_journal j w).
Proof.
  unfold UserModel.findByEmail, Sql.select_users_by_email, Sql.read, Sql.query_guard, bind.
  simpl. destruct (Db.connected (World.db w)); [|discriminate].
  simpl. intros [= <-]. reflexivity.
Qed.

(** [comparePassword] reads and writes nothing of the world. *)
Lemma comparePassword_pure password storedHash :
  exists o, forall w, comparePassword password storedHash w = (o, w).
Proof.
  unfold comparePassword.
  destruct (Js.falsy _ || Js.falsy _); [eexists; reflexivity|].
  destruct (scrypt _ _ _ _); [eexists; reflexivity|].
  destruct (Buffer.timingSafeEqual _ _); eexists; reflexivity.
Qed.

(** Login when the lookup finds no user: the generic answer, after the
    lookup alone. *)
Lemma login_unknown_email credentials ip userAgent w :
  UserModel.findByEmail (LoginCredentials.email credentials) w = (Fulfilled None, w) ->
  exists w',
    AuthController.login credentials ip userAgent w = (Fulfilled invalidCredentials, w') /\
    calls_made w w' = [CallFindByEmail (LoginCredentials.email credentials)] /\
    World.db w' = World.db w.
Proof.
  intros Hfind.
  unfold AuthController.login, AuthController.call, record_call.
  unfold bind at 1. unfold bind at 1.
  rewrite (findByEmail_journal _ _ _ _ Hfind).
  unfold bind.
  match goal with |- context [Logger.log ?c ?l ?m ?w0] =>
    destruct (log_run c l m w0) as [lines ->] end.
  eexists. split; [reflexivity|]. split; [|reflexivity].
  unfold calls_made. simpl. apply drop_app_length.
Qed.

(** Login when an active user matches and the password compares as
    wrong. *)
Lemma login_wrong_password credentials ip userAgent w user :
  UserModel.findByEmail (LoginCredentials.email credentials) w =
    (Fulfilled (Some user), w) ->
  User.isActive user = true ->
  fst (comparePassword (LoginCredentials.password credentials) (User.passwordHash user) w)
    = Fulfilled false ->
  exists w',
    AuthController.login credentials ip userAgent w = (Fulfilled invalidCredentials, w').
Proof.
  intros Hfind Hactive Hwrong.
  unfold AuthController.login, AuthController.call, record_call.
  unfold bind at 1. unfold bind at 1.
  rewrite (findByEmail_journal _ _ _ _ Hfind). rewrite Hactive. cbn [negb].
  unfold bind at 1. unfold bind at 1.
  destruct (comparePassword_pure (LoginCredentials.password credentials)
                                 (User.passwordHash user)) as [o Ho].
  rewrite Ho in Hwrong. simpl in Hwrong. subst o. rewrite Ho. cbn [negb].
  unfold bind.
  match goal with |- context [Logger.log ?c ?l ?m ?w0] =>
    destruct (log_run c l m w0) as [lines ->] end.
  eexists. reflexivity.
Qed.

(** Login when the matching user is deactivated: the generic answer,
    after the lookup alone. *)
Lemma login_inactive credentials ip userAgent w user :
  UserModel.findByEmail (LoginCredentials.email credentials) w =
    (Fulfilled (Some user), w) ->
  User.isActive user = false ->
  exists w',
    AuthController.login credentials ip userAgent w = (Fulfilled invalidCredentials, w') /\
    calls_made w w' = [CallFindByEmail (LoginCredentials.email credentials)] /\
    World.db w' = World.db w.
Proof.
  intros Hfind Hinactive.
  unfold AuthController.login, AuthController.call, record_call.
  unfold bind at 1. unfold bind at 1.
  rewrite (findByEmail_journal _ _ _ _ Hfind). rewrite Hinactive. cbn [negb].
  unfold bind.
  match goal with |- context [Logger.log ?c ?l ?m ?w0] =>
    destruct (log_run c l m w0) as [lines ->] end.
  eexists. split; [reflexivity|]. split; [|reflexivity].
  unfold calls_made. simpl. apply drop_app_length.
Qed.

(** C8. Login does not reveal whether an email is registered: the
    response when no user record matches the email, and the response when
    a user record matches but the supplied password compares as wrong,
    are the same [ApiResponse]: success false, error "Invalid credentials",
    status code 401.  The two runs may differ in credentials, caller and
    world. *)
Theorem login_non_enumerating credentialsA ipA userAgentA wA
  credentialsB ipB userAgentB wB user :
  UserModel.findByEmail (LoginCredentials.email credentialsA) wA = (Fulfilled None, wA) ->
  UserModel.findByEmail (LoginCredentials.email credentialsB) wB =
    (Fulfilled (Some user), wB) ->
  fst (comparePassword (LoginCredentials.password credentialsB) (User.passwordHash user) wB)
    = Fulfilled false ->
  exists response wA' wB',
    AuthController.login credentialsA ipA userAgentA wA = (Fulfilled response, wA') /\
    AuthController.login credentialsB ipB userAgentB wB = (Fulfilled response, wB') /\
    response = ApiResponse.mk false None (Some "Invalid credentials") None 401.
Proof.
  intros HfindA HfindB Hwrong.
  destruct (login_unknown_email credentialsA ipA userAgentA wA HfindA) as (wA' & HA & _).
  assert (HB : exists wB',
    AuthController.login credentialsB ipB userAgentB wB = (Fulfilled invalidCredentials, wB')).
  { destruct (User.isActive user) eqn:Hactive.
    - exact (login_wrong_password _ _ _ _ _ HfindB Hactive Hwrong).
    - destruct (login_inactive credentialsB ipB userAgentB wB user HfindB Hactive)
        as (wB' & HB & _).
      exists wB'. exact HB. }
  destruct HB as (wB' & HB).
  exists invalidCredentials, wA', wB'. split; [exact HA|]. split; [exact HB | reflexivity].
Qed.

(** C10. Login for an email whose user record is deactivated gives the
    generic "Invalid credentials" 401 response, the very response an
    unknown email gets; the only collaborator call it makes is the lookup,
    so [comparePassword] is not invoked, and the database is untouched. *)
Theorem login_deactivated_user credentials ip userAgent w user :
  UserModel.findByEmail (LoginCredentials.email credentials) w =
    (Fulfilled (Some user), w) ->
  User.isActive user = false ->
  exists w',
    AuthController.login credentials ip userAgent w =
      (Fulfilled (ApiResponse.mk false None (Some "Invalid credentials") None 401), w') /\
    calls_made w w' = [CallFindByEmail (LoginCredentials.email credentials)] /\
    (forall password storedHash,
       ~ In (CallComparePassword password storedHash) (calls_made w w')) /\
    World.db w' = World.db w /\
    (forall credentials0 ip0 userAgent0 w0,
       UserModel.findByEmail (LoginCredentials.email credentials0) w0 =
         (Fulfilled None, w0) ->
       fst (AuthController.login credentials0 ip0 userAgent0 w0) =
       fst (AuthController.login credentials ip userAgent w)).
Proof.
  intros Hfind Hinactive.
  destruct (login_inactive credentials ip userAgent w user Hfind Hinactive)
    as (w' & Hrun & Hj & Hdb).
  exists w'. split; [exact Hrun|]. split; [exact Hj|]. split.
  - intros password storedHash. rewrite Hj. intros [E | []]. discriminate.
  - split; [exact Hdb|].
    intros credentials0 ip0 userAgent0 w0 Hnone.
    destruct (login_unknown_email credentials0 ip0 userAgent0 w0 Hnone) as (w0' & -> & _).
    rewrite Hrun. reflexivity.
Qed.

End LoginProps.

(** ** The executable runtime obeys the laws *)

Section RefRuntimeLaws.
Import RefRuntime.

Lemma nibble_punct b3 b2 b1 b0 c :
  c = "."%char \/ c = ","%char -> Ascii.eqb (nibble b3 b2 b1 b0) c = false.
Proof. intros [-> | ->]; destruct b3, b2, b1, b0; reflexivity. Qed.

Lemma hexEncode_punct c s :
  c = "."%char \/ c = ","%char -> Js.occurs c (hexEncode s) = false.
Proof.
  intros Hc. induction s as [|[b0 b1 b2 b3 b4 b5 b6 b7] s IH]; [reflexivity|].
  cbn [hexEncode Js.occurs]. now rewrite !nibble_punct, IH.
Qed.

Lemma from_hex_encode s : Buffer.from_hex (hexEncode s) = map N_of_ascii (list_ascii_of_string s).
Proof.
  induction s as [|c s IH]; [reflexivity|].
  cbn [list_ascii_of_string map]. rewrite <- IH.
  destruct c as [[] [] [] [] [] [] [] []]; reflexivity.
Qed.

Lemma hexDecode_encode s : hexDecode (hexEncode s) = s.
Proof.
  unfold hexDecode. rewrite from_hex_encode.
  induction s as [|c s IH]; [reflexivity|].
  cbn [list_ascii_of_string map string_of_bytes].
  now rewrite ascii_N_embedding, IH.
Qed.

Lemma Z_of_string_of_Z z : Z_of_string (string_of_Z z) = Some z.
Proof.
  unfold Z_of_string, string_of_Z. now rewrite NilEmpty.isi, DecimalZ.of_to.
Qed.

Lemma parse_stringify p : parse (stringify p) = Some p.
Proof.
  destruct p as [sub email role iat exp jti].
  unfold parse, stringify. cbn [JwtPayload.sub JwtPayload.email JwtPayload.role
    JwtPayload.iat JwtPayload.exp JwtPayload.jti].
  repeat match goal with
  | |- context [Js.split "," (hexEncode ?a +:+ "," +:+ ?b)] =>
      change (hexEncode a +:+ "," +:+ b) with (hexEncode a +:+ String "," b);
      rewrite (split_app "," (hexEncode a) b) by (apply hexEncode_punct; now right)
  end.
  rewrite split_free by (apply hexEncode_punct; now right).
  now rewrite !hexDecode_encode, !Z_of_string_of_Z.
Qed.

Lemma RefRuntime_laws : RuntimeLaws runtime.
Proof.
  constructor.
  - intros s. apply hexEncode_punct. now left.
  - intros k d. apply hexEncode_punct. now left.
  - apply hexDecode_encode.
  - apply parse_stringify.
Qed.

Lemma append_inj_r s a b : a +:+ s = b +:+ s -> a = b.
Proof.
  revert b. induction a as [|c a IH]; intros [|d b] E.
  - reflexivity.
  - apply (f_equal String.length) in E. rewrite !length_append in E. simpl in E. lia.
  - apply (f_equal String.length) in E. rewrite !length_append in E. simpl in E. lia.
  - change (String c (a +:+ s) = String d (b +:+ s)) in E.
    injection E as -> E. f_equal. now apply IH.
Qed.

Lemma RefRuntime_hmac_laws : HmacLaws runtime.
Proof.
  constructor. intros k1 k2 d E. cbn in E. unfold digest in E.
  apply (f_equal hexDecode) in E. rewrite !hexDecode_encode in E.
  now apply append_inj_r in E.
Qed.

Lemma RefRuntime_scrypt_laws : ScryptLaws runtime.
Proof. constructor. intros pw salt n c key [= <-]. apply repeat_length. Qed.

End RefRuntimeLaws.

(** ** The theorems at work on the executable runtime *)

Section Instances.
Import RefRuntime.

Lemma verify_after_mint_witness :
  exists token w',
    mint false "u1" "a@b.com" UserRole.User world0 = (Fulfilled token, w') /\
    World.clock w' = World.clock world0 /\
    verifyToken token false w' =
      (Fulfilled (Some (minted_payload false "u1" "a@b.com" UserRole.User world0)), w') /\
    (forall w2,
       now_seconds w2 <=
         JwtPayload.exp (minted_payload false "u1" "a@b.com" UserRole.User world0) ->
       verifyToken token false w2 =
         (Fulfilled (Some (minted_payload false "u1" "a@b.com" UserRole.User world0)), w2)) /\
    (forall w2,
       JwtPayload.exp (minted_payload false "u1" "a@b.com" UserRole.User world0)
         < now_seconds w2 ->
       verifyToken token false w2 = (Fulfilled None, w2)).
Proof.
  apply (verify_after_mint (L := RefRuntime_laws) false "u1" "a@b.com" UserRole.User world0).
  simpl. lia.
Defined.

Lemma token_kinds_do_not_cross_witness :
  (exists token w',
     mint false "u1" "a@b.com" UserRole.User world0 = (Fulfilled token, w') /\
     forall w2, verifyToken token true w2 = (Fulfilled None, w2)) /\
  (exists token w',
     mint true "u1" "a@b.com" UserRole.User world0 = (Fulfilled token, w') /\
     forall w2, verifyToken token false w2 = (Fulfilled None, w2)).
Proof.
  split.
  - exact (token_kinds_do_not_cross (L := RefRuntime_laws) (K := RefRuntime_hmac_laws)
             false "u1" "a@b.com" UserRole.User world0).
  - exact (token_kinds_do_not_cross (L := RefRuntime_laws) (K := RefRuntime_hmac_laws)
             true "u1" "a@b.com" UserRole.User world0).
Defined.

Lemma comparePassword_wrong_length_uncaught_witness :
  comparePassword "Abcdef12" "ab:cd" world0 =
    (Uncaught "Input buffers must have the same byte length", world0).
Proof.
  apply (comparePassword_wrong_length_uncaught (L := RefRuntime_scrypt_laws)
           "Abcdef12" "ab" "cd" (repeat 10%N 64) world0).
  - reflexivity.
  - reflexivity.
  - discriminate.
  - discriminate.
  - simpl. discriminate.
  - reflexivity.
Defined.

Lemma session_expiry_is_access_ttl_witness :
  exists tokens w1 session w2,
    createTokenPair "u1" "a@b.com" UserRole.User world0 = (Fulfilled tokens, w1) /\
    SessionManager.create "u1" "a@b.com" UserRole.User tokens "agent" "10.0.0.1" w1 =
      (Fulfilled session, w2) /\
    In session (Db.sessions (World.db w2)) /\
    Session.expiresAt session = 5000 + 900 * 1000 /\
    (900 <> 604800 -> Session.expiresAt session <> 5000 + 604800 * 1000).
Proof.
  exact (session_expiry_is_access_ttl "u1" "a@b.com" UserRole.User "agent" "10.0.0.1"
           world0 eq_refl).
Defined.

Lemma rateLimitAuth_window_witness :
  exists w',
    serve (rateLimitAuth 3 900000) request_user [0; 1000; 2000; 3000; 900000] world0 =
      ([Fulfilled (CallNext request_user); Fulfilled (CallNext request_user);
        Fulfilled (CallNext request_user); Fulfilled tooManyAttempts;
        Fulfilled (CallNext request_user)], w') /\
    World.rateLimitStore w' !! rateLimitKey request_user =
      Some (RateLimitEntry.mk 1 (900000 + 900000)).
Proof.
  apply (proj2 (proj2 (proj2 (rateLimitAuth_window 3 900000 request_user world0)))).
  - left. reflexivity.
  - lia.
  - lia.
  - lia.
  - lia.
Defined.

Lemma hasPermission_authored_table_witness :
  hasPermission "superuser" Permission.ListUsers = false.
Proof.
  apply (proj2 (proj2 (proj2 hasPermission_authored_table))).
  intros permissions Hin. vm_compute in Hin.
  repeat (destruct Hin as [Hin | Hin]; [discriminate Hin|]). exact Hin.
Defined.

Lemma requireRole_gate_witness :
  exists w', requireRole [UserRole.Admin] request_user world0 = (Fulfilled forbidden, w').
Proof.
  apply (proj1 (proj2 (requireRole_gate [UserRole.Admin] request_user
                         (JwtPayload.mk "u1" "a@b.com" UserRole.User 5 905 "uuid-0")
                         world0 eq_refl))).
  intros [E | []]. discriminate E.
Defined.

Lemma login_non_enumerating_witness :
  exists response wA' wB',
    AuthController.login (LoginCredentials.mk "nobody@b.com" "Abcdef12" None)
                         "10.0.0.1" "agent" world_users = (Fulfilled response, wA') /\
    AuthController.login (LoginCredentials.mk "A@B.com" "wrong" None)
                         "10.0.0.1" "agent" world_users = (Fulfilled response, wB') /\
    response = ApiResponse.mk false None (Some "Invalid credentials") None 401.
Proof.
  apply (login_non_enumerating
           (LoginCredentials.mk "nobody@b.com" "Abcdef12" None) "10.0.0.1" "agent" world_users
           (LoginCredentials.mk "A@B.com" "wrong" None) "10.0.0.1" "agent" world_users
           alice).
  - vm_compute. reflexivity.
  - vm_compute. reflexivity.
  - vm_compute. reflexivity.
Defined.

Lemma login_deactivated_user_witness :
  exists w',
    AuthController.login (LoginCredentials.mk "bob@b.com" "Abcdef12" None)
                         "10.0.0.1" "agent" world_users =
      (Fulfilled (ApiResponse.mk false None (Some "Invalid credentials") None 401), w') /\
    calls_made world_users w' = [CallFindByEmail "bob@b.com"].
Proof.
  destruct (login_deactivated_user
              (LoginCredentials.mk "bob@b.com" "Abcdef12" None) "10.0.0.1" "agent"
              world_users bob) as (w' & Hrun & Hcalls & _).
  - vm_compute. reflexivity.
  - reflexivity.
  - exists w'. split; [exact Hrun | exact Hcalls].
Defined.

(** The model run on sample inputs. *)

Example split_token_text : Js.split "." "a.b.c" = ["a"; "b"; "c"].
Proof. reflexivity. Qed.

Example split_empty_text : Js.split ":" "" = [""].
Proof. reflexivity. Qed.

Example from_hex_truncates : Buffer.from_hex "abzz12" = [171%N].
Proof. reflexivity. Qed.

Example comparePassword_match :
  fst (comparePassword "Abcdef12" (User.passwordHash alice) world0) = Fulfilled true.
Proof. vm_compute. reflexivity. Qed.

Example comparePassword_no_separator :
  fst (comparePassword "Abcdef12" "not-a-stored-hash" world0) = Fulfilled false.
Proof. vm_compute. reflexivity. Qed.

Example login_success :
  match AuthController.login (LoginCredentials.mk "A@B.com" "Abcdef12" None)
                             "10.0.0.1" "agent" world_users with
  | (Fulfilled response, w') =>
      ApiResponse.success response = true /\
      ApiResponse.statusCode response = 200 /\
      (length (Db.sessions (World.db w')) = 1)%nat /\
      calls_made world_users w' =
        [CallFindByEmail "A@B.com"; CallComparePassword "Abcdef12" (User.passwordHash alice);
         CallCreateTokenPair "u1"; CallSessionCreate "u1"; CallUserUpdate "u1";
         CallAuditCreate "u1" Login]
  | _ => False
  end.
Proof. vm_compute. repeat split; reflexivity. Qed.

Example authenticate_then_gate :
  match fst (generateAccessToken "u1" "a@b.com" UserRole.User world0) with
  | Fulfilled token =>
      match authenticateRequest
              (Request.mk {["authorization" := "Bearer " +:+ token]} None None) world0 with
      | (Fulfilled (CallNext req), w') =>
          fst (requireRole [UserRole.User; UserRole.Admin] req w') = Fulfilled (CallNext req)
      | _ => False
      end
  | _ => False
  end.
Proof. vm_compute. reflexivity. Qed.

End Instances.

(** * Further properties of the code *)

(** ** Splitting, read backwards *)

Lemma split_not_nil sep s : Js.split sep s <> [].
Proof.
  destruct s as [|c s]; simpl; [discriminate|].
  destruct (Ascii.eqb c sep); [discriminate|].
  destruct (Js.split sep s); discriminate.
Qed.

Lemma split_cons_inv sep s h t :
  Js.split sep s = h :: t ->
  Js.occurs sep h = false /\
  ((t = [] /\ s = h) \/
   (exists rest, s = h +:+ String sep rest /\ Js.split sep rest = t)).
Proof.
  revert h t. induction s as [|c s IH]; simpl; intros h t Hs.
  - injection Hs as <- <-. split; [reflexivity | left; split; reflexivity].
  - destruct (Ascii.eqb c sep) eqn:Hc.
    + apply Ascii.eqb_eq in Hc. subst c. injection Hs as <- <-.
      split; [reflexivity|]. right. exists s. split; reflexivity.
    + destruct (Js.split sep s) as [|h' t'] eqn:Hsplit.
      * now apply split_not_nil in Hsplit.
      * injection Hs as <- <-.
        destruct (IH h' t' eq_refl) as [Hfree Hshape].
        split; [simpl; now rewrite Hc, Hfree|].
        destruct Hshape as [[-> ->] | (rest & -> & Hrest)].
        -- left. split; reflexivity.
        -- right. exists rest. split; [reflexivity | exact Hrest].
Qed.

Lemma split_three_inv s a b c :
  Js.split "." s = [a; b; c] ->
  s = a +:+ "." +:+ b +:+ "." +:+ c /\
  Js.occurs "." a = false /\ Js.occurs "." b = false /\ Js.occurs "." c = false.
Proof.
  intros Hs.
  apply split_cons_inv in Hs as [Ha [[Ht _] | (r1 & -> & Hs)]]; [discriminate|].
  apply split_cons_inv in Hs as [Hb [[Ht _] | (r2 & -> & Hs)]]; [discriminate|].
  apply split_cons_inv in Hs as [Hc [[_ ->] | (r3 & _ & Hs)]].
  - repeat split; assumption.
  - now apply split_not_nil in Hs.
Qed.

(** ** Tokens: what is accepted, and what decoding ignores *)

Section JwtMore.
Context `{Env} `{R : Runtime}.

(** X1. [verifyToken] yields a payload only for a text of exactly three
    dot-free segments whose third segment is the HMAC, under the secret of
    the kind asked for, of the first two joined by a dot, and whose second
    segment decodes to that payload; and it leaves the world as it found
    it. *)
Theorem verifyToken_accepts_only_signed token isRefresh w p w' :
  verifyToken token isRefresh w = (Fulfilled (Some p), w') ->
  exists header body,
    token = header +:+ "." +:+ body +:+ "." +:+
            hmacSha256 (secret_of isRefresh) (header +:+ "." +:+ body) /\
    Js.occurs "." header = false /\ Js.occurs "." body = false /\
    JSON_parse (b64urlDecode body) = Some p /\
    w' = w.
Proof.
  unfold verifyToken.
  destruct (Js.split "." token) as [|p0 [|p1 [|p2 [|]]]] eqn:Hsplit; try discriminate.
  apply split_three_inv in Hsplit as (-> & H0 & H1 & H2).
  replace (if isRefresh then Config.JWT_SECRET config +:+ "_refresh"
           else Config.JWT_SECRET config) with (secret_of isRefresh) by reflexivity.
  destruct (String.eqb _ p2) eqn:Hsig; [|discriminate]. cbn [negb].
  apply String.eqb_eq in Hsig. subst p2.
  destruct (JSON_parse (b64urlDecode p1)) as [payload|] eqn:Hparse; [|discriminate].
  unfold bind, Date_now.
  destruct (JwtPayload.exp payload <? World.clock w / 1000); [discriminate|].
  intros [= <- <-]. exists p0, p1. repeat split; auto.
Qed.

(** X2. Whatever [verifyToken] accepts, [decodeToken] decodes to the
    same payload, under either kind and at any clock. *)
Theorem verifyToken_implies_decodeToken token isRefresh w p w' :
  verifyToken token isRefresh w = (Fulfilled (Some p), w') ->
  decodeToken token = Some p.
Proof.
  unfold verifyToken, decodeToken.
  destruct (Js.split "." token) as [|p0 [|p1 [|p2 [|]]]]; try discriminate.
  destruct (negb _); [discriminate|].
  destruct (JSON_parse (b64urlDecode p1)) as [payload|]; [|discriminate].
  unfold bind, Date_now. destruct (_ <? _); [discriminate|].
  now intros [= <- _].
Qed.

End JwtMore.

Section JwtMoreLaws.
Context `{Env} `{R : Runtime} {L : RuntimeLaws R}.

Lemma append_assoc a b c : (a +:+ b) +:+ c = a +:+ (b +:+ c).
Proof.
  induction a as [|x a IH]; [reflexivity|].
  change (String x ((a +:+ b) +:+ c) = String x (a +:+ b +:+ c)). now rewrite IH.
Qed.

Lemma split_forged p sig :
  Js.occurs "." sig = false ->
  Js.split "." (signing_input p +:+ "." +:+ sig) =
    [base64url header_json; base64url (JSON_stringify p); sig].
Proof.
  intros Hsig. unfold signing_input, base64url.
  rewrite append_assoc.
  change (("." +:+ b64urlEncode (JSON_stringify p)) +:+ "." +:+ sig)
    with ("." +:+ b64urlEncode (JSON_stringify p) +:+ "." +:+ sig).
  apply split_three; auto using b64url_no_dot.
Qed.

(** X3. A token whose signature segment is not the HMAC of its first
    two segments is rejected by [verifyToken] at every clock, while
    [decodeToken] still returns its payload: decoding looks at neither the
    signature nor the expiry. *)
Theorem forged_signature_decodes_but_fails_verification p sig isRefresh w :
  Js.occurs "." sig = false ->
  sig <> hmacSha256 (secret_of isRefresh) (signing_input p) ->
  verifyToken (signing_input p +:+ "." +:+ sig) isRefresh w = (Fulfilled None, w) /\
  decodeToken (signing_input p +:+ "." +:+ sig) = Some p.
Proof.
  intros Hdot Hsig. unfold verifyToken, decodeToken.
  rewrite (split_forged p sig Hdot).
  change (base64url header_json +:+ "." +:+ base64url (JSON_stringify p))
    with (signing_input p).
  replace (if isRefresh then Config.JWT_SECRET config +:+ "_refresh"
           else Config.JWT_SECRET config) with (secret_of isRefresh) by reflexivity.
  split.
  - assert (E : String.eqb (hmacSha256 (secret_of isRefresh) (signing_input p)) sig = false)
      by (apply String.eqb_neq; congruence).
    now rewrite E.
  - unfold base64url. now rewrite b64url_decode_encode, JSON_parse_stringify.
Qed.

(** X4. Both halves of the pair [createTokenPair] returns verify, each
    under its own kind, in the world the call leaves: the access token
    yields the payload with the first UUID drawn and [exp] one access
    lifetime ahead, the refresh token the payload with the second UUID and
    [exp] one refresh lifetime ahead; the pair announces the access
    lifetime and the scheme "Bearer".  Both lifetimes are taken
    non-negative. *)
Theorem createTokenPair_verifies userId email role w :
  0 <= Config.JWT_EXPIRY config -> 0 <= Config.REFRESH_EXPIRY config ->
  exists tokens w',
    createTokenPair userId email role w = (Fulfilled tokens, w') /\
    World.uuid_drawn w' = S (S (World.uuid_drawn w)) /\
    AuthTokens.expiresIn tokens = Config.JWT_EXPIRY config /\
    AuthTokens.tokenType tokens = "Bearer" /\
    verifyToken (AuthTokens.accessToken tokens) false w' =
      (Fulfilled (Some (JwtPayload.mk userId email role (now_seconds w)
                          (now_seconds w + Config.JWT_EXPIRY config)
                          (World.uuid_source w (World.uuid_drawn w)))), w') /\
    verifyToken (AuthTokens.refreshToken tokens) true w' =
      (Fulfilled (Some (JwtPayload.mk userId email role (now_seconds w)
                          (now_seconds w + Config.REFRESH_EXPIRY config)
                          (World.uuid_source w (S (World.uuid_drawn w))))), w').
Proof.
  intros Ha Hr. rewrite createTokenPair_run. do 2 eexists.
  split; [reflexivity|]. split; [reflexivity|]. split; [reflexivity|].
  split; [reflexivity|]. cbn [AuthTokens.accessToken AuthTokens.refreshToken].
  split.
  - rewrite verify_sign, String.eqb_refl. cbn [negb].
    unfold minted_payload, now_seconds, ttl. cbn.
    destruct (Z.ltb_spec (World.clock w / 1000 + Config.JWT_EXPIRY config)
                         (World.clock w / 1000)); [lia | reflexivity].
  - rewrite verify_sign, String.eqb_refl. cbn [negb].
    unfold minted_payload, now_seconds, ttl. cbn.
    destruct (Z.ltb_spec (World.clock w / 1000 + Config.REFRESH_EXPIRY config)
                         (World.clock w / 1000)); [lia | reflexivity].
Qed.

End JwtMoreLaws.

(** ** Sessions: a refresh that fails *)

Section SessionMore.
Context `{Env} `{R : Runtime}.

(** X6. A failed [refresh] (one that returns [null]) has written
    nothing: the database is as before, and no UUID was drawn, so no token
    was minted. *)
Theorem refresh_failure_writes_nothing t w w' :
  SessionManager.refresh t w = (Fulfilled None, w') ->
  World.db w' = World.db w /\
  World.uuid_drawn w' = World.uuid_drawn w /\
  World.rateLimitStore w' = World.rateLimitStore w.
Proof.
  unfold SessionManager.refresh. unfold bind at 1.
  destruct (verifyToken_world t true w) as [[payload|] ->].
  - unfold Sql.select_sessions_by_refresh_token, Sql.read, Sql.query_guard.
    unfold bind at 1. unfold bind at 1.
    destruct (Db.connected (World.db w)) eqn:Hc; [|discriminate].
    destruct (length _ =? 0)%nat.
    + unfold bind.
      match goal with |- context [Logger.log ?c ?l ?m ?w0] =>
        destruct (log_run c l m w0) as [lines ->] end.
      intros [= <-]. repeat split.
    + unfold bind at 1. rewrite createTokenPair_run.
      unfold Sql.update_refresh_token, Sql.write, Sql.query_guard, bind. simpl.
      rewrite Hc.
      match goal with |- context [Logger.log ?c ?l ?m ?w0] =>
        destruct (log_run c l m w0) as [lines ->] end.
      discriminate.
  - unfold bind.
    match goal with |- context [Logger.log ?c ?l ?m ?w0] =>
      destruct (log_run c l m w0) as [lines ->] end.
    intros [= <-]. repeat split.
Qed.

End SessionMore.

Section SessionLifeProps.
Context `{Env} `{R : Runtime}.

Lemma create_run_exact userId email role tokens userAgent ipAddress w :
  Db.connected (World.db w) = true ->
  exists lines,
    SessionManager.create userId email role tokens userAgent ipAddress w =
      (Fulfilled
         (Session.mk (World.uuid_source w (World.uuid_drawn w)) userId
            (AuthTokens.refreshToken tokens) userAgent ipAddress
            (World.clock w + AuthTokens.expiresIn tokens * 1000) (World.clock w)),
       World.with_console lines
         (World.with_db
            (Db.mk true
               (Db.sessions (World.db w) ++
                [Session.mk (World.uuid_source w (World.uuid_drawn w)) userId
                   (AuthTokens.refreshToken tokens) userAgent ipAddress
                   (World.clock w + AuthTokens.expiresIn tokens * 1000) (World.clock w)])
               (Db.users (World.db w)) (Db.audit_logs (World.db w)))
            (World.with_uuid_drawn (S (World.uuid_drawn w)) w))).
Proof.
  intros Hc.
  unfold SessionManager.create, bind, randomUUID, Date_now, Sql.insert_session,
    Sql.write, Sql.query_guard, bind. simpl. rewrite Hc.
  match goal with |- context [Logger.log ?c ?l ?m ?w0] =>
    destruct (log_run c l m w0) as [lines ->] end.
  exists lines. unfold ret. cbn [World.db World.with_uuid_drawn]. now rewrite Hc.
Qed.

End SessionLifeProps.

(** ** Middlewares: bearer extraction, authentication, throttling *)

Lemma prefix_app p s : String.prefix p s = true <-> exists t, s = p +:+ t.
Proof.
  revert s. induction p as [|a p IH]; intros s.
  - split; [intros _; now exists s | intros _; now destruct s].
  - destruct s as [|b s]; simpl.
    + split; [discriminate | intros [t Ht]; discriminate].
    + destruct (ascii_dec a b) as [<- | Hne].
      * rewrite IH. split; intros [t Ht]; exists t; [now rewrite Ht | now injection Ht].
      * split; [discriminate | intros [t Ht]; injection Ht as E _; congruence].
Qed.

Section MiddlewareMore.
Context `{Env} `{R : Runtime}.

Lemma extractToken_Some req token :
  extractToken req = Some token ->
  Request.headers req !! "authorization" = Some ("Bearer " +:+ token).
Proof.
  unfold extractToken, Js.startsWith.
  destruct (Request.headers req !! "authorization") as [header|]; [|discriminate].
  destruct (String.prefix "Bearer " header) eqn:Hp; cbn [negb]; [|discriminate].
  apply prefix_app in Hp as [t ->].
  change (Js.slice 7 ("Bearer " +:+ t)) with t.
  now intros [= ->].
Qed.

Lemma extractToken_header req token :
  Request.headers req !! "authorization" = Some ("Bearer " +:+ token) ->
  extractToken req = Some token.
Proof.
  unfold extractToken, Js.startsWith. intros ->.
  assert (Htrue : String.prefix "Bearer " ("Bearer " +:+ token) = true)
    by (apply prefix_app; now exists token).
  rewrite Htrue. reflexivity.
Qed.

(** X10. [extractToken] returns a token exactly when the request has
    an [authorization] header that starts with "Bearer " (this very
    spelling), and the token is the rest of the header; without the
    header, or with another scheme, it returns nothing. *)
Theorem extractToken_bearer req :
  (forall token,
     extractToken req = Some token <->
     Request.headers req !! "authorization" = Some ("Bearer " +:+ token)) /\
  (Request.headers req !! "authorization" = None -> extractToken req = None) /\
  (forall header,
     Request.headers req !! "authorization" = Some header ->
     String.prefix "Bearer " header = false -> extractToken req = None).
Proof.
  split; [|split].
  - intros token. split; [apply extractToken_Some | apply extractToken_header].
  - intros Hnone. unfold extractToken. now rewrite Hnone.
  - intros header Hh Hp. unfold extractToken, Js.startsWith. now rewrite Hh, Hp.
Qed.

Lemma extractToken_falsy req :
  Js.falsy (extractToken req) = false ->
  exists token, extractToken req = Some token /\ token <> "".
Proof.
  destruct (extractToken req) as [token|]; [|discriminate].
  simpl. intros Hne. exists token. split; [reflexivity|]. now apply String.eqb_neq.
Qed.

(** X11. [authenticateRequest] hands a request on only when its header
    is "Bearer " followed by a non-empty token that [verifyToken] accepts
    as an access token; the request handed on is the incoming one with
    [user] set to the verified payload, and the world is unchanged.
    Conversely every such request is handed on; and a request with no
    [authorization] header is answered 401 "Authentication required". *)
Theorem authenticateRequest_sound req w :
  (forall req' w',
     authenticateRequest req w = (Fulfilled (CallNext req'), w') ->
     exists token p,
       Request.headers req !! "authorization" = Some ("Bearer " +:+ token) /\
       token <> "" /\
       verifyToken token false w = (Fulfilled (Some p), w) /\
       req' = Request.mk (Request.headers req) (Some p) (Request.ip req) /\
       w' = w) /\
  (forall token p,
     Request.headers req !! "authorization" = Some ("Bearer " +:+ token) ->
     token <> "" ->
     verifyToken token false w = (Fulfilled (Some p), w) ->
     authenticateRequest req w =
       (Fulfilled (CallNext (Request.mk (Request.headers req) (Some p) (Request.ip req))), w)) /\
  (Request.headers req !! "authorization" = None ->
   authenticateRequest req w =
     (Fulfilled (Respond 401 (ApiResponse.failure "Authentication required" 401)), w)).
Proof.
  split; [|split].
  - intros req' w'. unfold authenticateRequest.
    destruct (Js.falsy (extractToken req)) eqn:Hf; [discriminate|].
    apply extractToken_falsy in Hf as (token & Htok & Hne). rewrite Htok.
    cbn [from_option id]. unfold bind at 1.
    destruct (verifyToken_world token false w) as [[p|] Hv]; rewrite Hv.
    + intros [= <- <-]. exists token, p.
      apply extractToken_Some in Htok. repeat split; auto.
    + unfold bind.
      match goal with |- context [Logger.log ?c ?l ?m ?w0] =>
        destruct (log_run c l m w0) as [lines ->] end.
      discriminate.
  - intros token p Hh Hne Hv. unfold authenticateRequest.
    apply extractToken_header in Hh. rewrite Hh.
    cbn [Js.falsy from_option id]. apply String.eqb_neq in Hne. rewrite Hne.
    unfold bind at 1. now rewrite Hv.
  - intros Hnone. unfold authenticateRequest, extractToken. now rewrite Hnone.
Qed.

(** X12. [optionalAuth] never answers the request itself and never
    changes the world: it always hands a request on, with the same
    headers and address, and with [user] either as it came or set to the
    payload of a bearer token that [verifyToken] accepts as an access
    token. *)
Theorem optionalAuth_never_rejects req w :
  exists req',
    optionalAuth req w = (Fulfilled (CallNext req'), w) /\
    Request.headers req' = Request.headers req /\
    Request.ip req' = Request.ip req /\
    (req' = req \/
     exists token p,
       Request.headers req !! "authorization" = Some ("Bearer " +:+ token) /\
       verifyToken token false w = (Fulfilled (Some p), w) /\
       Request.user req' = Some p).
Proof.
  unfold optionalAuth.
  destruct (Js.falsy (extractToken req)) eqn:Hf.
  - exists req. repeat split; auto.
  - apply extractToken_falsy in Hf as (token & Htok & Hne). rewrite Htok.
    cbn [from_option id]. unfold bind at 1.
    destruct (verifyToken_world token false w) as [[p|] Hv]; rewrite Hv.
    + eexists. split; [reflexivity|]. split; [reflexivity|]. split; [reflexivity|].
      right. exists token, p. apply extractToken_Some in Htok. repeat split; auto.
    + exists req. repeat split; auto.
Qed.

(** X13. A check of [rateLimitAuth] touches the entry of the request's
    own key only: the entries of all other keys, the database, the clock,
    the UUID supply and the call journal are as before, whatever the
    outcome. *)
Theorem rateLimitAuth_touches_own_key_only maxAttempts windowMs req w :
  exists o w',
    rateLimitAuth maxAttempts windowMs req w = (Fulfilled o, w') /\
    (forall key, key <> rateLimitKey req ->
       World.rateLimitStore w' !! key = World.rateLimitStore w !! key) /\
    World.db w' = World.db w /\
    World.clock w' = World.clock w /\
    World.uuid_drawn w' = World.uuid_drawn w /\
    World.journal w' = World.journal w.
Proof.
  destruct (World.rateLimitStore w !! rateLimitKey req) as [e|] eqn:He.
  - destruct (Z.lt_ge_cases (World.clock w) (RateLimitEntry.resetAt e)) as [Hin | Hout].
    + destruct (Z.lt_ge_cases (RateLimitEntry.count e) maxAttempts) as [Hlt | Hge].
      * rewrite (rateLimitAuth_counted _ _ _ _ e He Hin Hlt).
        do 2 eexists. split; [reflexivity|]. split; [|repeat split].
        intros key Hkey. cbn. now rewrite lookup_insert_ne.
      * destruct (rateLimitAuth_blocked _ windowMs _ _ e He Hin Hge) as [lines ->].
        do 2 eexists. split; [reflexivity|]. repeat split.
    + rewrite rateLimitAuth_fresh by (right; exists e; split; [exact He | lia]).
      do 2 eexists. split; [reflexivity|]. split; [|repeat split].
      intros key Hkey. cbn. now rewrite lookup_insert_ne.
  - rewrite rateLimitAuth_fresh by (now left).
    do 2 eexists. split; [reflexivity|]. split; [|repeat split].
    intros key Hkey. cbn. now rewrite lookup_insert_ne.
Qed.

End MiddlewareMore.

Section RateLimitSequences.
Context `{Env} `{R : Runtime}.

Lemma serve_cons_fst mw req t ts w o w1 :
  mw req (World.with_clock t w) = (o, w1) ->
  fst (serve mw req (t :: ts) w) = o :: fst (serve mw req ts w1).
Proof.
  intros Hrun. cbn [serve]. rewrite Hrun. now destruct (serve mw req ts w1).
Qed.

(** Calls inside a window that is already open: the first
    [maxAttempts - count] are allowed, the rest are blocked. *)
Lemma serve_within_window maxAttempts windowMs req ts :
  forall w k r,
    World.rateLimitStore w !! rateLimitKey req = Some (RateLimitEntry.mk k r) ->
    Forall (fun t => t < r) ts ->
    fst (serve (rateLimitAuth maxAttempts windowMs) req ts w) =
      (repeat (Fulfilled (CallNext req)) (Nat.min (length ts) (Z.to_nat (maxAttempts - k))) ++
       repeat (Fulfilled tooManyAttempts) (length ts - Z.to_nat (maxAttempts - k)))%list.
Proof.
  induction ts as [|t ts IH]; intros w k r He Hts; [reflexivity|].
  apply Forall_cons in Hts as [Ht Hts].
  destruct (Z.lt_ge_cases k maxAttempts) as [Hlt | Hge].
  - erewrite serve_cons_fst;
      [|apply (rateLimitAuth_counted _ _ _ _ (RateLimitEntry.mk k r)); [exact He|exact Ht|exact Hlt]].
    rewrite (IH _ (k + 1) r); [|cbn; apply lookup_insert_eq | exact Hts].
    replace (Z.to_nat (maxAttempts - k)) with (S (Z.to_nat (maxAttempts - (k + 1)))) by lia.
    reflexivity.
  - destruct (rateLimitAuth_blocked maxAttempts windowMs req (World.with_clock t w)
                (RateLimitEntry.mk k r) He Ht Hge) as [lines Hrun].
    erewrite serve_cons_fst; [|exact Hrun].
    rewrite (IH _ k r); [|exact He | exact Hts].
    replace (Z.to_nat (maxAttempts - k)) with 0%nat by lia.
    rewrite Nat.min_0_r, !Nat.sub_0_r. reflexivity.
Qed.

(** X14. Over one window, [rateLimitAuth] admits at most
    [max(1, maxAttempts)] calls of a key.  Starting from no live entry,
    for a first call at [t1] and any further calls before [t1 + windowMs],
    in whatever order their clock readings come, the outcomes are: allowed
    for the first [max(1, maxAttempts)] calls, 429 for all the others.  In
    particular the first call of a window is allowed even when
    [maxAttempts] is zero or negative. *)
Theorem rateLimitAuth_admits_per_window maxAttempts windowMs req t1 ts w :
  (World.rateLimitStore w !! rateLimitKey req = None \/
   exists e, World.rateLimitStore w !! rateLimitKey req = Some e /\
             RateLimitEntry.resetAt e <= t1) ->
  Forall (fun t => t < t1 + windowMs) ts ->
  fst (serve (rateLimitAuth maxAttempts windowMs) req (t1 :: ts) w) =
    (repeat (Fulfilled (CallNext req))
            (Nat.min (S (length ts)) (Z.to_nat (Z.max 1 maxAttempts))) ++
     repeat (Fulfilled tooManyAttempts)
            (S (length ts) - Z.to_nat (Z.max 1 maxAttempts)))%list.
Proof.
  intros Hfresh Hts.
  erewrite serve_cons_fst; [|apply rateLimitAuth_fresh; exact Hfresh].
  rewrite (serve_within_window _ _ _ ts _ 1 (t1 + windowMs));
    [|cbn; apply lookup_insert_eq | exact Hts].
  replace (Z.to_nat (Z.max 1 maxAttempts)) with (S (Z.to_nat (maxAttempts - 1))) by lia.
  reflexivity.
Qed.

End RateLimitSequences.

(** ** Regular expressions: the matcher decides the language *)

Lemma append_nil_r s : s +:+ "" = s.
Proof.
  induction s as [|c s IH]; [reflexivity|].
  change (String c (s +:+ "") = String c s). now rewrite IH.
Qed.

Lemma append_eq_nil a b : a +:+ b = "" -> a = "" /\ b = "".
Proof.
  destruct a as [|x a]; intros E.
  - split; [reflexivity | exact E].
  - change (String x (a +:+ b) = "") in E. discriminate.
Qed.

Lemma append_eq_cons a b c s :
  a +:+ b = String c s ->
  (a = "" /\ b = String c s) \/ (exists a', a = String c a' /\ s = a' +:+ b).
Proof.
  destruct a as [|x a]; [intros E; left; split; [reflexivity | exact E]|].
  intros E. change (String x (a +:+ b) = String c s) in E.
  injection E as -> <-. right. now exists a.
Qed.

Section RegExpFacts.
Import RegExp.

Lemma nullable_spec r : nullable r = true <-> Lang r "".
Proof.
  split.
  - induction r; simpl; intros Hn; try discriminate.
    + constructor.
    + apply andb_prop in Hn as [H1 H2].
      change (Lang (Seq r1 r2) ("" +:+ "")). constructor; auto.
    + apply orb_prop in Hn as [H1 | H2]; [apply LAltL | apply LAltR]; auto.
    + constructor.
  - intros HL. remember "" as s eqn:Es. induction HL; simpl; try discriminate; auto.
    + apply append_eq_nil in Es as [-> ->]. now rewrite IHHL1, IHHL2.
    + now rewrite IHHL.
    + rewrite IHHL by assumption. apply orb_true_r.
Qed.

Lemma deriv_sound c r : forall s, Lang (deriv c r) s -> Lang r (String c s).
Proof.
  induction r; simpl; intros s HL.
  - inversion HL.
  - inversion HL.
  - destruct (in_class ranges c) eqn:Hc; inversion HL; subst. now constructor.
  - assert (Hseq : forall s0, Lang (Seq (deriv c r1) r2) s0 -> Lang (Seq r1 r2) (String c s0)).
    { intros s0 H0. inversion H0; subst.
      change (Lang (Seq r1 r2) (String c s1 +:+ s2)). constructor; auto. }
    destruct (nullable r1) eqn:Hn; [|now apply Hseq].
    inversion HL; subst; [now apply Hseq|].
    change (Lang (Seq r1 r2) ("" +:+ String c s)).
    constructor; [now apply nullable_spec | auto].
  - inversion HL; subst; [apply LAltL | apply LAltR]; auto.
  - inversion HL; subst.
    change (Lang (Star r) (String c s1 +:+ s2)). constructor; auto.
Qed.

Lemma deriv_complete r cs :
  Lang r cs -> forall c s, cs = String c s -> Lang (deriv c r) s.
Proof.
  induction 1 as [|ranges c0 Hc|r1 r2 s1 s2 H1 IH1 H2 IH2|r1 r2 s0 H0 IH0
                  |r1 r2 s0 H0 IH0|r0|r0 s1 s2 H1 IH1 H2 IH2];
    intros c s E; simpl.
  - discriminate.
  - injection E as -> <-. rewrite Hc. constructor.
  - apply append_eq_cons in E as [[-> ->] | (a' & -> & ->)].
    + apply nullable_spec in H1. rewrite H1. apply LAltR. now apply IH2.
    + assert (Hseq : Lang (Seq (deriv c r1) r2) (a' +:+ s2))
        by (constructor; [now apply IH1 | assumption]).
      destruct (nullable r1); [now apply LAltL | assumption].
  - apply LAltL. now apply IH0.
  - apply LAltR. now apply IH0.
  - discriminate.
  - apply append_eq_cons in E as [[-> ->] | (a' & -> & ->)].
    + now apply IH2.
    + constructor; [now apply IH1 | assumption].
Qed.

Lemma matches_spec s : forall r, matches r s = true <-> Lang r s.
Proof.
  induction s as [|c s IH]; intros r; simpl.
  - apply nullable_spec.
  - rewrite IH. split; [apply deriv_sound | intros HL; now apply (deriv_complete r _ HL)].
Qed.

End RegExpFacts.

Lemma all_app f a b : Str.all f (a +:+ b) = Str.all f a && Str.all f b.
Proof.
  induction a as [|c a IH]; [reflexivity|].
  change (f c && Str.all f (a +:+ b) = f c && Str.all f a && Str.all f b).
  rewrite IH. now destruct (f c).
Qed.

Lemma some_app f a b : Str.some f (a +:+ b) = Str.some f a || Str.some f b.
Proof.
  induction a as [|c a IH]; [reflexivity|].
  change (f c || Str.some f (a +:+ b) = f c || Str.some f a || Str.some f b).
  rewrite IH. now destruct (f c).
Qed.

Lemma some_split f s :
  Str.some f s = true -> exists a c b, s = a +:+ String c b /\ f c = true.
Proof.
  induction s as [|c s IH]; simpl; [discriminate|].
  destruct (f c) eqn:Hc.
  - intros _. now exists "", c, s.
  - intros Hs. destruct (IH Hs) as (a & d & b & -> & Hd).
    now exists (String c a), d, b.
Qed.

Lemma split_at n s :
  (n <= String.length s)%nat ->
  exists a b, s = a +:+ b /\ String.length a = n.
Proof.
  revert s. induction n as [|n IH]; intros s Hn.
  - now exists "", s.
  - destruct s as [|c s]; simpl in Hn; [lia|].
    destruct (IH s) as (a & b & -> & Ha); [lia|].
    exists (String c a), b. split; [reflexivity | simpl; now rewrite Ha].
Qed.

Lemma single_app c s : String c "" +:+ s = String c s.
Proof. reflexivity. Qed.

Section RegExpClasses.
Import RegExp.

Lemma Lang_class ranges s :
  Lang (Class ranges) s <-> exists c, s = String c "" /\ in_class ranges c = true.
Proof.
  split.
  - intros HL. inversion HL; subst. eauto.
  - intros (c & -> & Hc). now constructor.
Qed.

Lemma Lang_star_class ranges s :
  Lang (Star (Class ranges)) s <-> Str.all (in_class ranges) s = true.
Proof.
  split.
  - intros HL. remember (Star (Class ranges)) as r eqn:Er.
    induction HL; try discriminate; [reflexivity|].
    injection Er as ->. apply Lang_class in HL1 as (c & -> & Hc).
    rewrite all_app. simpl. rewrite Hc. simpl. auto.
  - induction s as [|c s IH]; simpl; intros Ha; [constructor|].
    apply andb_prop in Ha as [Hc Hs].
    change (Lang (Star (Class ranges)) (String c "" +:+ s)).
    constructor; [now constructor | auto].
Qed.

Lemma Lang_times_class ranges n : forall s,
  Lang (times n (Class ranges)) s <->
  String.length s = n /\ Str.all (in_class ranges) s = true.
Proof.
  induction n as [|n IH]; intros s; simpl.
  - split.
    + intros HL. inversion HL; subst. split; reflexivity.
    + intros [Hlen _]. destruct s; [constructor | discriminate].
  - split.
    + intros HL. inversion HL as [| |r1 r2 s1 s2 H1 H2| | | | ]; subst.
      apply Lang_class in H1 as (c & -> & Hc). apply IH in H2 as [Hlen Hall].
      rewrite single_app. split; [simpl; now rewrite Hlen | simpl; now rewrite Hc].
    + intros [Hlen Hall]. destruct s as [|c s]; [discriminate|].
      simpl in Hlen, Hall. apply andb_prop in Hall as [Hc Hs].
      change (Lang (Seq (Class ranges) (times n (Class ranges))) (String c "" +:+ s)).
      constructor; [now constructor | apply IH; split; [lia | assumption]].
Qed.

Lemma Lang_upto_class ranges n : forall s,
  Lang (upto n (Class ranges)) s <->
  (String.length s <= n)%nat /\ Str.all (in_class ranges) s = true.
Proof.
  induction n as [|n IH]; intros s; simpl.
  - split.
    + intros HL. inversion HL; subst. split; [simpl; lia | reflexivity].
    + intros [Hlen _]. destruct s; [constructor | simpl in Hlen; lia].
  - split.
    + intros HL. inversion HL as [| | |r1 r2 s0 H0|r1 r2 s0 H0| | ]; subst.
      * inversion H0; subst. split; [simpl; lia | reflexivity].
      * inversion H0 as [| |r1' r2' s1 s2 H1 H2| | | | ]; subst.
        apply Lang_class in H1 as (c & -> & Hc). apply IH in H2 as [Hlen Hall].
        rewrite single_app. split; [simpl; lia | simpl; now rewrite Hc].
    + intros [Hlen Hall]. destruct s as [|c s]; [apply LAltL; constructor|].
      simpl in Hlen, Hall. apply andb_prop in Hall as [Hc Hs]. apply LAltR.
      change (Lang (Seq (Class ranges) (upto n (Class ranges))) (String c "" +:+ s)).
      constructor; [now constructor | apply IH; split; [lia | assumption]].
Qed.

Lemma Lang_between_class ranges lo hi s :
  (lo <= hi)%nat ->
  (Lang (between lo hi (Class ranges)) s <->
   (lo <= String.length s <= hi)%nat /\ Str.all (in_class ranges) s = true).
Proof.
  intros Hlohi. unfold between. split.
  - intros HL. inversion HL as [| |r1 r2 s1 s2 H1 H2| | | | ]; subst.
    apply Lang_times_class in H1 as [Hl1 Ha1]. apply Lang_upto_class in H2 as [Hl2 Ha2].
    rewrite length_append, all_app, Ha1, Ha2. split; [lia | reflexivity].
  - intros [Hlen Hall].
    destruct (split_at lo s) as (a & b & -> & Ha); [lia|].
    rewrite length_append in Hlen. rewrite all_app in Hall.
    apply andb_prop in Hall as [Hall1 Hall2].
    constructor; [apply Lang_times_class | apply Lang_upto_class]; split; auto; lia.
Qed.

Lemma Lang_at_least_class ranges n s :
  Lang (at_least n (Class ranges)) s <->
  (n <= String.length s)%nat /\ Str.all (in_class ranges) s = true.
Proof.
  unfold at_least. split.
  - intros HL. inversion HL as [| |r1 r2 s1 s2 H1 H2| | | | ]; subst.
    apply Lang_times_class in H1 as [Hl1 Ha1]. apply Lang_star_class in H2.
    rewrite length_append, all_app, Ha1, H2. split; [lia | reflexivity].
  - intros [Hlen Hall].
    destruct (split_at n s) as (a & b & -> & Ha); [lia|].
    rewrite all_app in Hall. apply andb_prop in Hall as [Hall1 Hall2].
    constructor; [apply Lang_times_class | apply Lang_star_class]; auto.
Qed.

Lemma Lang_plus_class ranges s :
  Lang (plus (Class ranges)) s <->
  s <> "" /\ Str.all (in_class ranges) s = true.
Proof.
  unfold plus. split.
  - intros HL. inversion HL as [| |r1 r2 s1 s2 H1 H2| | | | ]; subst.
    apply Lang_class in H1 as (c & -> & Hc). apply Lang_star_class in H2.
    rewrite single_app. split; [discriminate | simpl; now rewrite Hc].
  - intros [Hne Hall]. destruct s as [|c s]; [congruence|].
    simpl in Hall. apply andb_prop in Hall as [Hc Hs].
    change (Lang (Seq (Class ranges) (Star (Class ranges))) (String c "" +:+ s)).
    constructor; [now constructor | now apply Lang_star_class].
Qed.

Lemma any_char c : in_class [(0, 255)%N] c = true.
Proof.
  unfold in_class. simpl. rewrite orb_false_r.
  pose proof (N_ascii_bounded c). apply andb_true_intro.
  split; apply N.leb_le; lia.
Qed.

Lemma Lang_star_any s : Lang (Star any) s.
Proof.
  unfold any. apply Lang_star_class. induction s as [|c s IH]; [reflexivity|].
  cbn [Str.all]. now rewrite any_char, IH.
Qed.

(** An unanchored test of one class finds a character of the class. *)
Lemma test_class ranges s :
  test (Class ranges) s = Str.some (in_class ranges) s.
Proof.
  apply eq_true_iff_eq. unfold test. rewrite matches_spec. split.
  - intros HL. inversion HL as [| |r1 r2 s1 s2 H1 H2| | | | ]; subst.
    inversion H2 as [| |r1' r2' s3 s4 H3 H4| | | | ]; subst.
    apply Lang_class in H3 as (c & -> & Hc).
    rewrite !some_app. simpl. rewrite Hc. now rewrite orb_true_r.
  - intros Hs. apply some_split in Hs as (a & c & b & -> & Hc).
    constructor; [apply Lang_star_any|].
    change (Lang (Seq (Class ranges) (Star any)) (String c "" +:+ b)).
    constructor; [now constructor | apply Lang_star_any].
Qed.

End RegExpClasses.

(** ** Validators *)

Section ValidatorProps.
Import RegExp Validators.

Lemma Lang_char c s : Lang (char c) s <-> s = String c "".
Proof.
  unfold char. rewrite Lang_class. split.
  - intros (d & -> & Hd). unfold in_class in Hd. simpl in Hd. rewrite orb_false_r in Hd.
    apply andb_prop in Hd as [H1 H2]. apply N.leb_le in H1, H2.
    assert (E : N_of_ascii d = N_of_ascii c) by lia.
    apply (f_equal ascii_of_N) in E. rewrite !ascii_N_embedding in E. now subst.
  - intros ->. exists c. split; [reflexivity|].
    unfold in_class. simpl. now rewrite N.leb_refl.
Qed.

(** X15. [validateUsername] accepts a name exactly when, after
    trimming, it has 3 to 30 characters, all of them ASCII letters,
    digits, underscores or hyphens. *)
Theorem validateUsername_accepts username :
  ValidationResult.valid (validateUsername username) = true <->
  (3 <= String.length (Str.trim username) <= 30)%nat /\
  Str.all (in_class USERNAME_CLASS) (Str.trim username) = true.
Proof.
  unfold validateUsername.
  assert (Hre : test_anchored USERNAME_REGEX (Str.trim username) = true <->
                (3 <= String.length (Str.trim username) <= 30)%nat /\
                Str.all (in_class USERNAME_CLASS) (Str.trim username) = true).
  { unfold test_anchored, USERNAME_REGEX. rewrite matches_spec.
    apply Lang_between_class. lia. }
  destruct (String.eqb_spec (Str.trim username) "") as [E | _].
  - rewrite E. simpl. split; [discriminate | lia].
  - destruct (test_anchored USERNAME_REGEX (Str.trim username)); simpl.
    + split; [intros _; now apply Hre | reflexivity].
    + split; [discriminate | intros Hr; now apply Hre in Hr].
Qed.

(** X16. [validatePassword] accepts a password exactly when it has 8
    to 128 characters and contains an ASCII upper-case letter, an ASCII
    lower-case letter and an ASCII digit. *)
Theorem validatePassword_accepts password :
  ValidationResult.valid (validatePassword password) = true <->
  (8 <= String.length password <= 128)%nat /\
  Str.some (in_class upper) password = true /\
  Str.some (in_class lower) password = true /\
  Str.some (in_class digit) password = true.
Proof.
  unfold validatePassword, MIN_PASSWORD_LENGTH, MAX_PASSWORD_LENGTH.
  rewrite !test_class.
  destruct (String.eqb_spec password "") as [-> | _]; [simpl; split; [discriminate | lia]|].
  destruct (Nat.ltb_spec (String.length password) 8); [simpl; split; [discriminate | lia]|].
  destruct (Nat.ltb_spec 128 (String.length password)); [simpl; split; [discriminate | lia]|].
  destruct (Str.some (in_class upper) password); simpl; [|split; [discriminate | tauto]].
  destruct (Str.some (in_class lower) password); simpl; [|split; [discriminate | tauto]].
  destruct (Str.some (in_class digit) password); simpl; [|split; [discriminate | tauto]].
  split; [intros _; repeat split; lia | reflexivity].
Qed.

(** X17. [validateEmail] accepts an address exactly when, trimmed and
    lower-cased, it has at most 254 characters and reads
    [local@domain.tld] with a non-empty [local] over letters, digits and
    [._%+-], a non-empty [domain] over letters, digits, dots and hyphens,
    and a [tld] of at least two letters. *)
Theorem validateEmail_accepts email :
  ValidationResult.valid (validateEmail email) = true <->
  (String.length (Js.toLowerCase (Str.trim email)) <= 254)%nat /\
  exists local domain tld,
    Js.toLowerCase (Str.trim email) = local +:+ "@" +:+ domain +:+ "." +:+ tld /\
    local <> "" /\ Str.all (in_class EMAIL_LOCAL_CLASS) local = true /\
    domain <> "" /\ Str.all (in_class EMAIL_DOMAIN_CLASS) domain = true /\
    (2 <= String.length tld)%nat /\ Str.all (in_class LETTER_CLASS) tld = true.
Proof.
  unfold validateEmail. set (t := Js.toLowerCase (Str.trim email)).
  assert (Hre : test_anchored EMAIL_REGEX t = true <->
    exists local domain tld,
      t = local +:+ "@" +:+ domain +:+ "." +:+ tld /\
      local <> "" /\ Str.all (in_class EMAIL_LOCAL_CLASS) local = true /\
      domain <> "" /\ Str.all (in_class EMAIL_DOMAIN_CLASS) domain = true /\
      (2 <= String.length tld)%nat /\ Str.all (in_class LETTER_CLASS) tld = true).
  { unfold test_anchored, EMAIL_REGEX. rewrite matches_spec. split.
    - intros HL.
      inversion HL as [| |ra1 ra2 sa1 sa2 Ha1 Ha2| | | | ]; subst.
      inversion Ha2 as [| |rb1 rb2 sb1 sb2 Hb1 Hb2| | | | ]; subst.
      inversion Hb2 as [| |rc1 rc2 sc1 sc2 Hc1 Hc2| | | | ]; subst.
      inversion Hc2 as [| |rd1 rd2 sd1 sd2 Hd1 Hd2| | | | ]; subst.
      apply Lang_plus_class in Ha1 as [? ?]. apply Lang_char in Hb1 as ->.
      apply Lang_plus_class in Hc1 as [? ?]. apply Lang_char in Hd1 as ->.
      apply Lang_at_least_class in Hd2 as [? ?].
      exists sa1, sc1, sd2. repeat split; auto.
    - intros (local & domain & tld & -> & Hl & Hla & Hd & Hda & Ht & Hta).
      constructor; [now apply Lang_plus_class|].
      change ("@" +:+ domain +:+ "." +:+ tld) with (String "@" "" +:+ domain +:+ "." +:+ tld).
      constructor; [now apply Lang_char|].
      constructor; [now apply Lang_plus_class|].
      change ("." +:+ tld) with (String "." "" +:+ tld).
      constructor; [now apply Lang_char | now apply Lang_at_least_class]. }
  destruct (String.eqb_spec t "") as [E | _].
  - simpl. split; [discriminate|]. intros [_ (local & domain & tld & Ht & Hl & _)].
    rewrite E in Ht. destruct local; [congruence | discriminate].
  - destruct (Nat.ltb_spec 254 (String.length t)); [simpl; split; [discriminate | lia]|].
    destruct (test_anchored EMAIL_REGEX t); simpl.
    + split; [intros _; split; [lia | now apply Hre] | reflexivity].
    + split; [discriminate | intros [_ Hr]; now apply Hre in Hr].
Qed.

Lemma occurs_app c a b : Js.occurs c (a +:+ b) = Js.occurs c a || Js.occurs c b.
Proof.
  induction a as [|d a IH]; [reflexivity|].
  change (Ascii.eqb d c || Js.occurs c (a +:+ b) =
          Ascii.eqb d c || Js.occurs c a || Js.occurs c b).
  rewrite IH. now destruct (Ascii.eqb d c).
Qed.

Lemma occurs_trimStart c s : Js.occurs c (Str.trimStart s) = true -> Js.occurs c s = true.
Proof.
  induction s as [|d s IH]; simpl; [discriminate|].
  destruct (Str.is_space d); [|exact (fun E => E)].
  intros Hc. rewrite (IH Hc). apply orb_true_r.
Qed.

Lemma occurs_trimEnd c s : Js.occurs c (Str.trimEnd s) = true -> Js.occurs c s = true.
Proof.
  induction s as [|d s IH]; simpl; [discriminate|].
  destruct (Str.trimEnd s) as [|e rest] eqn:Hrest.
  - destruct (Str.is_space d); simpl; [discriminate|].
    rewrite orb_false_r. intros ->. reflexivity.
  - simpl. intros Hc. apply orb_prop in Hc as [-> | Hc]; [reflexivity|].
    rewrite IH; [apply orb_true_r | exact Hc].
Qed.

Lemma occurs_replaceAll c d by_ s :
  Js.occurs c (Str.replaceAll d by_ s) = true ->
  Js.occurs c by_ = true \/ (Ascii.eqb d c = false /\ Js.occurs c s = true).
Proof.
  induction s as [|e s IH]; simpl; [discriminate|].
  destruct (Ascii.eqb e d) eqn:Hed.
  - rewrite occurs_app. intros Hc. apply orb_prop in Hc as [Hby | Hc]; [now left|].
    destruct (IH Hc) as [Hby | [Hdc Hs]]; [now left|].
    right. split; [assumption|]. rewrite Hs. apply orb_true_r.
  - simpl. intros Hc. apply orb_prop in Hc as [Hec | Hc].
    + right. apply Ascii.eqb_eq in Hec. subst e. rewrite Ascii.eqb_refl.
      split; [|reflexivity]. rewrite Ascii.eqb_sym. exact Hed.
    + destruct (IH Hc) as [Hby | [Hdc Hs]]; [now left|].
      right. split; [assumption|]. rewrite Hs. apply orb_true_r.
Qed.

(** X18. The text [sanitizeInput] returns contains none of the
    characters [<], [>], double quote and single quote, whatever the
    input. *)
Theorem sanitizeInput_has_no_markup input c :
  In c ["<"; ">"; "034"; "'"]%char ->
  Js.occurs c (sanitizeInput input) = false.
Proof.
  intros Hc. destruct (Js.occurs c (sanitizeInput input)) eqn:Ho; [exfalso | reflexivity].
  unfold sanitizeInput, Str.trim in Ho.
  apply occurs_trimEnd, occurs_trimStart in Ho.
  assert (Hby : forall by_,
    In by_ ["&#x27;"; "&quot;"; "&gt;"; "&lt;"; "&amp;"] -> Js.occurs c by_ = false).
  { intros by_ Hin. simpl in Hc, Hin.
    destruct Hc as [<- | [<- | [<- | [<- | []]]]];
      destruct Hin as [<- | [<- | [<- | [<- | [<- | []]]]]]; reflexivity. }
  apply occurs_replaceAll in Ho as [Ho | [H1 Ho]];
    [rewrite Hby in Ho; [discriminate | simpl; tauto]|].
  apply occurs_replaceAll in Ho as [Ho | [H2 Ho]];
    [rewrite Hby in Ho; [discriminate | simpl; tauto]|].
  apply occurs_replaceAll in Ho as [Ho | [H3 Ho]];
    [rewrite Hby in Ho; [discriminate | simpl; tauto]|].
  apply occurs_replaceAll in Ho as [Ho | [H4 Ho]];
    [rewrite Hby in Ho; [discriminate | simpl; tauto]|].
  simpl in Hc. destruct Hc as [<- | [<- | [<- | [<- | []]]]]; discriminate.
Qed.

End ValidatorProps.

(** ** Password hashing *)

Lemma below_16 (P : N -> Prop) :
  (forall k, (k < 16)%nat -> P (N.of_nat k)) -> forall n, (n < 16)%N -> P n.
Proof. intros HP n Hn. rewrite <- (N2Nat.id n). apply HP. lia. Qed.

Lemma unhex_hex_digit n : (n < 16)%N -> Buffer.unhex (Str.hex_digit n) = Some n.
Proof.
  revert n. apply below_16. intros k Hk.
  do 16 (destruct k as [|k]; [reflexivity|]). lia.
Qed.

Lemma hex_digit_not_colon n : (n < 16)%N -> Ascii.eqb (Str.hex_digit n) ":" = false.
Proof.
  revert n. apply below_16. intros k Hk.
  do 16 (destruct k as [|k]; [reflexivity|]). lia.
Qed.

Lemma from_hex_to_hex bytes :
  Forall (fun b => (b < 256)%N) bytes -> Buffer.from_hex (Str.to_hex bytes) = bytes.
Proof.
  induction 1 as [|b bytes Hb _ IH]; [reflexivity|].
  cbn [Str.to_hex Buffer.from_hex].
  rewrite !unhex_hex_digit by (apply N.mod_lt; discriminate).
  rewrite IH. f_equal.
  rewrite (N.mod_small (b / 16) 16) by (apply N.Div0.div_lt_upper_bound; lia).
  symmetry. apply N.div_mod. discriminate.
Qed.

Lemma to_hex_no_colon bytes : Js.occurs ":" (Str.to_hex bytes) = false.
Proof.
  induction bytes as [|b bytes IH]; [reflexivity|].
  cbn [Str.to_hex Js.occurs].
  rewrite !hex_digit_not_colon by (apply N.mod_lt; discriminate). exact IH.
Qed.

Lemma to_hex_nonempty bytes : bytes <> [] -> Str.to_hex bytes <> "".
Proof. destruct bytes; [congruence | discriminate]. Qed.

Section HashRoundTrip.
Context `{R : Runtime} {L : ScryptLaws R}.

Lemma comparePassword_wellformed password salt hash w :
  Js.occurs ":" salt = false -> Js.occurs ":" hash = false ->
  salt <> "" -> hash <> "" ->
  comparePassword password (salt +:+ ":" +:+ hash) w =
    match scrypt password salt KEY_LENGTH SCRYPT_COST with
    | inl err => (Rejected err, w)
    | inr derivedKey =>
        match Buffer.timingSafeEqual (Buffer.from_hex hash) derivedKey with
        | Some b => (Fulfilled b, w)
        | None => (Uncaught "Input buffers must have the same byte length", w)
        end
    end.
Proof.
  intros Hs Hh Hsalt Hhash.
  unfold comparePassword. rewrite (split_stored _ _ Hs Hh).
  change ([salt; hash] !! 0%nat) with (Some salt).
  change ([salt; hash] !! 1%nat) with (Some hash).
  rewrite (falsy_Some _ Hsalt), (falsy_Some _ Hhash). simpl.
  destruct (scrypt _ _ _ _); [reflexivity|].
  now destruct (Buffer.timingSafeEqual _ _).
Qed.

Lemma comparePassword_stored random key pw k w :
  random <> [] -> key <> [] ->
  Forall (fun b => (b < 256)%N) key ->
  length key = KEY_LENGTH ->
  scrypt pw (generateSalt random) KEY_LENGTH SCRYPT_COST = inr k ->
  comparePassword pw (Str.to_hex random +:+ ":" +:+ Str.to_hex key) w =
    (Fulfilled (bool_decide (key = k)), w).
Proof.
  intros Hrandom Hk Hbytes Hlen Hpw.
  rewrite comparePassword_wellformed;
    auto using to_hex_no_colon, to_hex_nonempty.
  unfold generateSalt in Hpw. rewrite Hpw, (from_hex_to_hex _ Hbytes).
  unfold Buffer.timingSafeEqual.
  rewrite Hlen, (scrypt_length _ _ _ _ _ Hpw), Nat.eqb_refl. reflexivity.
Qed.

(** X19. What [hashPassword] stores, [comparePassword] accepts: for a
    non-empty salt drawn and a key of bytes derived by scrypt, the stored
    value is [hex(salt):hex(key)], comparing the same password with it
    gives [true], and comparing any password whose derived key differs
    gives [false]. *)
Theorem hashPassword_then_comparePassword random password key w :
  random <> [] ->
  scrypt password (generateSalt random) KEY_LENGTH SCRYPT_COST = inr key ->
  Forall (fun b => (b < 256)%N) key ->
  hashPassword random password w =
    (Fulfilled (Str.to_hex random +:+ ":" +:+ Str.to_hex key), w) /\
  comparePassword password (Str.to_hex random +:+ ":" +:+ Str.to_hex key) w =
    (Fulfilled true, w) /\
  (forall other key',
     scrypt other (generateSalt random) KEY_LENGTH SCRYPT_COST = inr key' ->
     key' <> key ->
     comparePassword other (Str.to_hex random +:+ ":" +:+ Str.to_hex key) w =
       (Fulfilled false, w)).
Proof.
  intros Hrandom Hkey Hbytes.
  pose proof (scrypt_length _ _ _ _ _ Hkey) as Hlen.
  assert (Hk : key <> []) by (intros ->; discriminate).
  assert (Hcmp : forall pw k,
    scrypt pw (generateSalt random) KEY_LENGTH SCRYPT_COST = inr k ->
    comparePassword pw (Str.to_hex random +:+ ":" +:+ Str.to_hex key) w =
      (Fulfilled (bool_decide (key = k)), w))
    by (intros pw k; now apply comparePassword_stored).
  split; [|split].
  - unfold hashPassword. rewrite Hkey. reflexivity.
  - rewrite (Hcmp _ _ Hkey). now rewrite bool_decide_eq_true_2.
  - intros other key' Hother Hne. rewrite (Hcmp _ _ Hother).
    now rewrite bool_decide_eq_false_2 by congruence.
Qed.

End HashRoundTrip.

Section HashShape.
Context `{R : Runtime}.

Lemma split_stored_more salt hash rest :
  Js.occurs ":" salt = false -> Js.occurs ":" hash = false ->
  exists more, Js.split ":" (salt +:+ ":" +:+ hash +:+ ":" +:+ rest) = salt :: hash :: more.
Proof.
  intros Hs Hh.
  change (salt +:+ ":" +:+ hash +:+ ":" +:+ rest)
    with (salt +:+ String ":" (hash +:+ String ":" rest)).
  rewrite (split_app _ _ _ Hs), (split_app _ _ _ Hh). eauto.
Qed.

(** X20. [comparePassword] looks at the first two colon-separated
    segments of the stored value only.  A stored value with no colon, with
    an empty salt, or with an empty key half compares as [false] without
    scrypt being run; and segments after the second are ignored. *)
Theorem comparePassword_reads_two_segments password w :
  (forall stored, Js.occurs ":" stored = false ->
     comparePassword password stored w = (Fulfilled false, w)) /\
  (forall rest, comparePassword password (":" +:+ rest) w = (Fulfilled false, w)) /\
  (forall salt rest, Js.occurs ":" salt = false ->
     comparePassword password (salt +:+ "::" +:+ rest) w = (Fulfilled false, w) /\
     comparePassword password (salt +:+ ":") w = (Fulfilled false, w)) /\
  (forall salt hash rest,
     Js.occurs ":" salt = false -> Js.occurs ":" hash = false ->
     comparePassword password (salt +:+ ":" +:+ hash +:+ ":" +:+ rest) w =
     comparePassword password (salt +:+ ":" +:+ hash) w).
Proof.
  split; [|split; [|split]].
  - intros stored Hfree. apply comparePassword_guard. right.
    now rewrite (split_free _ _ Hfree).
  - intros rest. apply comparePassword_guard. left. reflexivity.
  - intros salt rest Hs. split; apply comparePassword_guard; right.
    + change (salt +:+ "::" +:+ rest) with (salt +:+ String ":" (String ":" rest)).
      rewrite (split_app _ _ _ Hs). reflexivity.
    + change (salt +:+ ":") with (salt +:+ String ":" "").
      rewrite (split_app _ _ _ Hs). reflexivity.
  - intros salt hash rest Hs Hh. unfold comparePassword.
    destruct (split_stored_more salt hash rest Hs Hh) as [more ->].
    now rewrite (split_stored _ _ Hs Hh).
Qed.

End HashShape.

(** ** The controllers, step by step *)

Section ControllerRuns.
Context `{Env} `{R : Runtime}.

Lemma bind_fulfilled {A B : Type} (m : Async A) (k : A -> Async B) w a w1 :
  m w = (Fulfilled a, w1) -> bind m k w = k a w1.
Proof. intros Hm. unfold bind. now rewrite Hm. Qed.

Lemma bind_rejected {A B : Type} (m : Async A) (k : A -> Async B) w e w1 :
  m w = (Rejected e, w1) -> bind m k w = (Rejected e, w1).
Proof. intros Hm. unfold bind. now rewrite Hm. Qed.

Lemma findByEmail_run email w :
  Db.connected (World.db w) = true ->
  UserModel.findByEmail email w =
    (Fulfilled (head (filter (fun u => User.email u = Js.toLowerCase email)
                             (Db.users (World.db w)))), w).
Proof.
  intros Hc.
  unfold UserModel.findByEmail, Sql.select_users_by_email, Sql.read, Sql.query_guard, bind.
  now rewrite Hc.
Qed.

Lemma findByEmail_connected email w r w' :
  UserModel.findByEmail email w = (Fulfilled r, w') -> Db.connected (World.db w) = true.
Proof.
  unfold UserModel.findByEmail, Sql.select_users_by_email, Sql.read, Sql.query_guard, bind.
  destruct (Db.connected (World.db w)); [reflexivity | discriminate].
Qed.

Lemma audit_create_run userId action ipAddress userAgent w :
  Db.connected (World.db w) = true ->
  AuditLogModel.create userId action ipAddress userAgent w =
    (Fulfilled
       (AuditLogEntry.mk (World.uuid_source w (World.uuid_drawn w)) userId action
          (default "unknown" ipAddress) (default "unknown" userAgent) (World.clock w)),
     World.with_db
       (Db.mk true (Db.sessions (World.db w)) (Db.users (World.db w))
          (Db.audit_logs (World.db w) ++
           [AuditLogEntry.mk (World.uuid_source w (World.uuid_drawn w)) userId action
              (default "unknown" ipAddress) (default "unknown" userAgent) (World.clock w)]))
       (World.with_uuid_drawn (S (World.uuid_drawn w)) w)).
Proof.
  intros Hc.
  unfold AuditLogModel.create, bind, randomUUID, Date_now, Sql.insert_audit_log,
    Sql.write, Sql.query_guard, bind, ret.
  cbn [World.db World.with_uuid_drawn World.clock World.uuid_source World.uuid_drawn].
  rewrite Hc. cbn [World.db World.with_uuid_drawn]. now rewrite Hc.
Qed.

End ControllerRuns.

Section SignupRuns.
Context `{Env} `{R : Runtime}.

Lemma UserModel_create_run email username passwordHash w :
  Db.connected (World.db w) = true ->
  exists lines,
    UserModel_create email username passwordHash w =
      (Fulfilled
         (User.mk (World.uuid_source w (World.uuid_drawn w)) (Js.toLowerCase email) username
            passwordHash UserRole.User true false None (World.clock w) (World.clock w)),
       World.with_console lines
         (World.with_db
            (Db.mk true (Db.sessions (World.db w))
               (Db.users (World.db w) ++
                [User.mk (World.uuid_source w (World.uuid_drawn w)) (Js.toLowerCase email)
                   username passwordHash UserRole.User true false None
                   (World.clock w) (World.clock w)])
               (Db.audit_logs (World.db w)))
            (World.with_uuid_drawn (S (World.uuid_drawn w)) w))).
Proof.
  intros Hc.
  unfold UserModel_create, bind, randomUUID, Date_now, Sql_insert_user,
    Sql.write, Sql.query_guard, bind. simpl. rewrite Hc.
  match goal with |- context [Logger.log ?c ?l ?m ?w0] =>
    destruct (log_run c l m w0) as [lines ->] end.
  exists lines. unfold ret. cbn [World.db World.with_uuid_drawn]. now rewrite Hc.
Qed.

(** The whole of a successful signup. *)
Lemma signup_run random data ip userAgent w key :
  ValidationResult.valid (Validators.validateEmail (SignupData.email data)) = true ->
  ValidationResult.valid (Validators.validateUsername (SignupData.username data)) = true ->
  ValidationResult.valid (Validators.validatePassword (SignupData.password data)) = true ->
  SignupData.password data = SignupData.confirmPassword data ->
  UserModel.findByEmail (SignupData.email data) w = (Fulfilled None, w) ->
  scrypt (SignupData.password data) (generateSalt random) KEY_LENGTH SCRYPT_COST = inr key ->
  exists tokens session entry w',
    signup random data ip userAgent w = (Fulfilled (ApiResponse.ok tokens 201), w') /\
    World.db w' =
      Db.mk true
        (Db.sessions (World.db w) ++ [session])
        (Db.users (World.db w) ++
         [User.mk (World.uuid_source w (World.uuid_drawn w))
            (Js.toLowerCase (SignupData.email data)) (SignupData.username data)
            (Str.to_hex random +:+ ":" +:+ Str.to_hex key)
            UserRole.User true false None (World.clock w) (World.clock w)])
        (Db.audit_logs (World.db w) ++ [entry]) /\
    Session.userId session = World.uuid_source w (World.uuid_drawn w) /\
    Session.refreshToken session = AuthTokens.refreshToken tokens /\
    AuditLogEntry.userId entry = World.uuid_source w (World.uuid_drawn w) /\
    AuditLogEntry.action entry = Signup.
Proof.
  intros He Hu Hp Hconfirm Hfind Hkey.
  pose proof (findByEmail_connected _ _ _ _ Hfind) as Hc.
  unfold signup. rewrite He, Hu, Hp. cbn [negb].
  rewrite <- Hconfirm, String.eqb_refl. cbn [negb].
  rewrite (bind_fulfilled _ _ _ _ _ Hfind).
  unfold bind at 1. unfold hashPassword. cbv zeta. rewrite Hkey. unfold ret at 1.
  unfold bind at 1.
  match goal with |- context [UserModel_create ?a ?b ?c ?w0] =>
    destruct (UserModel_create_run a b c w0 Hc) as [lines1 ->] end.
  unfold bind at 1. rewrite createTokenPair_run.
  unfold bind at 1.
  match goal with |- context [SessionManager.create ?a ?b ?c ?d ?e ?f ?w0] =>
    destruct (create_run_exact a b c d e f w0) as [lines2 ->]; [reflexivity|] end.
  unfold bind at 1. rewrite audit_create_run by reflexivity.
  unfold bind at 1.
  match goal with |- context [Logger.log ?c ?l ?m ?w0] =>
    destruct (log_run c l m w0) as [lines3 ->] end.
  do 4 eexists. split; [reflexivity|]. split; [reflexivity|]. repeat split.
Qed.

End SignupRuns.

(** ** Login, signup and the account handlers *)

Section ControllerProps.
Context `{Env} `{R : Runtime}.

(** X23. [forgotPassword] answers every email alike: with the database
    connected, the response is the same 200 message whether or not a user
    has that email, and the database is not changed. *)
Theorem forgotPassword_uniform email w :
  Db.connected (World.db w) = true ->
  exists w',
    forgotPassword email w =
      (Fulfilled (ApiResponse.mk true None None
                    (Some "If that email exists, a reset link has been sent") 200), w') /\
    World.db w' = World.db w /\
    World.uuid_drawn w' = World.uuid_drawn w.
Proof.
  intros Hc. unfold forgotPassword.
  rewrite (bind_fulfilled _ _ _ _ _ (findByEmail_run _ _ Hc)).
  destruct (head _) as [user|].
  - unfold bind.
    match goal with |- context [Logger.log ?c ?l ?m ?w0] =>
      destruct (log_run c l m w0) as [lines ->] end.
    eexists. split; [reflexivity|]. split; reflexivity.
  - eexists. split; [reflexivity|]. split; reflexivity.
Qed.

End ControllerProps.

Section SignupProps.
Context `{Env} `{R : Runtime} {L : ScryptLaws R}.

(** X26. A signup that reports failure has written nothing: the
    database is as before, no UUID was drawn, and the status code is 400
    or 409. *)
Theorem signup_failure_writes_nothing random data ip userAgent w response w1 :
  signup random data ip userAgent w = (Fulfilled response, w1) ->
  ApiResponse.success response = false ->
  World.db w1 = World.db w /\
  World.uuid_drawn w1 = World.uuid_drawn w /\
  (ApiResponse.statusCode response = 400 \/ ApiResponse.statusCode response = 409).
Proof.
  intros Hrun Hfail. pose proof Hrun as Horig. revert Hrun. unfold signup.
  destruct (ValidationResult.valid (Validators.validateEmail _)) eqn:He; cbn [negb];
    [|intros [= <- <-]; repeat split; now left].
  destruct (ValidationResult.valid (Validators.validateUsername _)) eqn:Hu; cbn [negb];
    [|intros [= <- <-]; repeat split; now left].
  destruct (ValidationResult.valid (Validators.validatePassword _)) eqn:Hp; cbn [negb];
    [|intros [= <- <-]; repeat split; now left].
  destruct (String.eqb_spec (SignupData.password data) (SignupData.confirmPassword data))
    as [Hconfirm | _]; cbn [negb]; [|intros [= <- <-]; repeat split; now left].
  destruct (Db.connected (World.db w)) eqn:Hc.
  - pose proof (findByEmail_run (SignupData.email data) w Hc) as Hfind.
    rewrite (bind_fulfilled _ _ _ _ _ Hfind).
    destruct (head _) as [existing|] eqn:Hhead;
      [intros [= <- <-]; repeat split; now right|].
    destruct (scrypt (SignupData.password data) (generateSalt random) KEY_LENGTH SCRYPT_COST)
      as [err | key] eqn:Hkey.
    + unfold bind at 1. unfold hashPassword. cbv zeta. rewrite Hkey. discriminate.
    + intros _. exfalso.
      destruct (signup_run random data ip userAgent w key He Hu Hp Hconfirm Hfind Hkey)
        as (tokens & session & entry & w' & Hrun' & _).
      rewrite Hrun' in Horig. injection Horig as <- _. discriminate.
  - unfold bind at 1.
    unfold UserModel.findByEmail, Sql.select_users_by_email, Sql.read, Sql.query_guard, bind.
    rewrite Hc. discriminate.
Qed.

End SignupProps.

(** ** Accounts and permissions *)

Lemma hasPermission_ReadAnyProfile role :
  hasPermission role Permission.ReadAnyProfile = true <->
  role = UserRole.Admin \/ role = UserRole.Moderator.
Proof.
  unfold hasPermission. rewrite RolePermissions_lookup.
  repeat case_decide; subst; split; try discriminate; auto;
    intros [E | E]; try discriminate; congruence.
Qed.

Section UserControllerProps.
Context `{Env}.

(** X28. [getUserById] refuses, with 403 and before looking anything
    up, every requesting role other than admin and moderator, so for
    those roles the answer does not depend on whether the target exists;
    for admin and moderator, the roles the route admits, the answer
    follows the lookup: 404 when [findById] finds no user, and 200 with
    the user's record, which has no password-hash field, when it finds
    one. *)
Theorem getUserById_access requestingRole targetId w :
  (requestingRole <> UserRole.Admin -> requestingRole <> UserRole.Moderator ->
   getUserById requestingRole targetId w =
     (Fulfilled (ApiResponse.failure "Forbidden" 403), w)) /\
  (requestingRole = UserRole.Admin \/ requestingRole = UserRole.Moderator ->
   forall found w',
     UserModel.findById targetId w = (Fulfilled found, w') ->
     getUserById requestingRole targetId w =
       (Fulfilled
          match found with
          | None => ApiResponse.failure "User not found" 404
          | Some user => ApiResponse.ok (stripPassword user) 200
          end, w')).
Proof.
  split.
  - intros Ha Hm. unfold getUserById.
    destruct (hasPermission requestingRole Permission.ReadAnyProfile) eqn:Hp; [|reflexivity].
    apply hasPermission_ReadAnyProfile in Hp. tauto.
  - intros Hrole found w' Hfind. unfold getUserById.
    apply hasPermission_ReadAnyProfile in Hrole. rewrite Hrole. cbn [negb].
    rewrite (bind_fulfilled _ _ _ _ _ Hfind).
    now destruct found.
Qed.

End UserControllerProps.

(** X29. The authored role table is nested: every permission of Guest
    is a permission of User, every permission of User one of Moderator,
    every permission of Moderator one of Admin; Admin holds every member
    of [Permission]; and no role holds anything that is not a member of
    [Permission]. *)
Theorem RolePermissions_nested role permission :
  (hasPermission UserRole.Guest permission = true ->
   hasPermission UserRole.User permission = true) /\
  (hasPermission UserRole.User permission = true ->
   hasPermission UserRole.Moderator permission = true) /\
  (hasPermission UserRole.Moderator permission = true ->
   hasPermission UserRole.Admin permission = true) /\
  (In permission Permission.values <-> hasPermission UserRole.Admin permission = true) /\
  (hasPermission role permission = true -> In permission Permission.values).
Proof.
  assert (Hin : forall r ps, RolePermissions !! r = Some ps ->
                  forall p, In p ps -> In p Permission.values).
  { intros r ps. rewrite RolePermissions_lookup.
    repeat case_decide; intros [= <-] p Hp; simpl in Hp |- *; tauto. }
  assert (HG : RolePermissions !! UserRole.Guest = Some [Permission.ReadOwnProfile])
    by (vm_compute; reflexivity).
  assert (HU : RolePermissions !! UserRole.User =
               Some [Permission.ReadOwnProfile; Permission.UpdateOwnProfile;
                     Permission.DeleteOwnAccount])
    by (vm_compute; reflexivity).
  assert (HM : RolePermissions !! UserRole.Moderator =
               Some [Permission.ReadOwnProfile; Permission.UpdateOwnProfile;
                     Permission.DeleteOwnAccount; Permission.ReadAnyProfile;
                     Permission.ListUsers; Permission.ViewAuditLog])
    by (vm_compute; reflexivity).
  assert (HA : RolePermissions !! UserRole.Admin = Some Permission.values)
    by (vm_compute; reflexivity).
  unfold hasPermission. rewrite HG, HU, HM, HA.
  split; [|split; [|split; [|split]]].
  - rewrite !includes_In. simpl. tauto.
  - rewrite !includes_In. simpl. tauto.
  - rewrite !includes_In. simpl. tauto.
  - now rewrite includes_In.
  - destruct (RolePermissions !! role) as [ps|] eqn:Hps; [|discriminate].
    rewrite includes_In. now apply (Hin role ps).
Qed.

(** ** Without a database connection *)

Section Disconnected.
Context `{Env} `{R : Runtime}.

(** X30. While the database is not connected, the session operations
    and the login handler end in the rejection "Database not connected.
    Call connect() first." and leave the tables as they are; [refresh]
    still answers [null] for a token that does not verify, since it
    checks the token before it queries, and rejects for one that does. *)
Theorem database_not_connected w :
  Db.connected (World.db w) = false ->
  (forall credentials ip userAgent,
     exists w', AuthController.login credentials ip userAgent w = (Rejected notConnected, w') /\
                World.db w' = World.db w) /\
  (forall userId email role tokens userAgent ipAddress,
     exists w',
       SessionManager.create userId email role tokens userAgent ipAddress w =
         (Rejected notConnected, w') /\
       World.db w' = World.db w) /\
  (forall sessionId, SessionManager.destroy sessionId w = (Rejected notConnected, w)) /\
  (forall sessionId, SessionManager.validate sessionId w = (Rejected notConnected, w)) /\
  (forall t,
     (verifyToken t true w = (Fulfilled None, w) ->
      exists w', SessionManager.refresh t w = (Fulfilled None, w') /\
                 World.db w' = World.db w) /\
     (forall p, verifyToken t true w = (Fulfilled (Some p), w) ->
      SessionManager.refresh t w = (Rejected notConnected, w))).
Proof.
  intros Hc. split; [|split; [|split; [|split]]].
  - intros credentials ip userAgent.
    unfold AuthController.login, AuthController.call, record_call.
    unfold bind at 1. unfold bind at 1.
    unfold UserModel.findByEmail, Sql.select_users_by_email, Sql.read, Sql.query_guard, bind.
    cbn [World.db World.with_journal]. rewrite Hc.
    eexists. split; reflexivity.
  - intros userId email role tokens userAgent ipAddress.
    unfold SessionManager.create, bind, randomUUID, Date_now, Sql.insert_session,
      Sql.write, Sql.query_guard, bind.
    cbn [World.db World.with_uuid_drawn]. rewrite Hc.
    eexists. split; reflexivity.
  - intros sessionId.
    unfold SessionManager.destroy, Sql.delete_session, Sql.write, Sql.query_guard, bind.
    now rewrite Hc.
  - intros sessionId.
    unfold SessionManager.validate, Sql.select_sessions_by_id, Sql.read, Sql.query_guard, bind.
    now rewrite Hc.
  - intros t. split.
    + intros Hv. unfold SessionManager.refresh. rewrite (bind_fulfilled _ _ _ _ _ Hv).
      unfold bind.
      match goal with |- context [Logger.log ?c ?l ?m ?w0] =>
        destruct (log_run c l m w0) as [lines ->] end.
      eexists. split; reflexivity.
    + intros p Hv. unfold SessionManager.refresh. rewrite (bind_fulfilled _ _ _ _ _ Hv).
      unfold Sql.select_sessions_by_refresh_token, Sql.read, Sql.query_guard, bind.
      now rewrite Hc.
Qed.

End Disconnected.

(** * The code on the connection as shipped *)

(** ** The models and handlers, step by step *)

Section ShippedRuns.
Context `{Env} `{R : Runtime}.

Lemma shipped_query_run {T : Type} sql params w :
  Db.connected (World.db w) = true ->
  Shipped.query (T := T) sql params w = (Fulfilled (QueryResult.mk [] 0), w).
Proof. intros Hc. unfold Shipped.query, Sql.query_guard, bind. now rewrite Hc. Qed.

Lemma shipped_query_bind {T B : Type} sql params (k : QueryResult.t T -> Async B) w :
  Db.connected (World.db w) = true ->
  bind (Shipped.query sql params) k w = k (QueryResult.mk [] 0) w.
Proof. intros Hc. apply bind_fulfilled. now apply shipped_query_run. Qed.


Lemma shipped_refresh_run t w :
  Db.connected (World.db w) = true ->
  exists lines,
    Shipped.SessionManager.refresh t w = (Fulfilled None, World.with_console lines w).
Proof.
  intros Hc. unfold Shipped.SessionManager.refresh.
  destruct (verifyToken_world t true w) as [r Hr].
  rewrite (bind_fulfilled _ _ _ _ _ Hr).
  destruct r as [payload|].
  - rewrite (bind_fulfilled _ _ _ _ _ (shipped_query_run _ _ w Hc)).
    cbn [QueryResult.rowCount Z.eqb]. unfold bind.
    match goal with |- context [Logger.log ?c ?l ?m ?w0] =>
      destruct (log_run c l m w0) as [lines ->] end.
    now exists lines.
  - unfold bind.
    match goal with |- context [Logger.log ?c ?l ?m ?w0] =>
      destruct (log_run c l m w0) as [lines ->] end.
    now exists lines.
Qed.

Lemma shipped_findByEmail_run email w :
  Db.connected (World.db w) = true ->
  Shipped.UserModel.findByEmail email w = (Fulfilled None, w).
Proof.
  intros Hc. unfold Shipped.UserModel.findByEmail.
  now rewrite (bind_fulfilled _ _ _ _ _ (shipped_query_run _ _ w Hc)).
Qed.

Lemma shipped_findById_run id w :
  Db.connected (World.db w) = true ->
  Shipped.UserModel.findById id w = (Fulfilled None, w).
Proof.
  intros Hc. unfold Shipped.UserModel.findById.
  now rewrite (bind_fulfilled _ _ _ _ _ (shipped_query_run _ _ w Hc)).
Qed.

Lemma shipped_login_run credentials ip userAgent w :
  Db.connected (World.db w) = true ->
  exists lines,
    Shipped.AuthController.login credentials ip userAgent w =
      (Fulfilled invalidCredentials,
       World.with_console lines
         (World.with_journal
            (World.journal w ++ [CallFindByEmail (LoginCredentials.email credentials)])%list w)).
Proof.
  intros Hc.
  unfold Shipped.AuthController.login, Shipped.AuthController.call, record_call.
  unfold bind at 1. unfold bind at 1.
  rewrite shipped_findByEmail_run by exact Hc.
  unfold bind.
  match goal with |- context [Logger.log ?c ?l ?m ?w0] =>
    destruct (log_run c l m w0) as [lines ->] end.
  now exists lines.
Qed.

Lemma shipped_create_run userId email role tokens userAgent ipAddress w :
  Db.connected (World.db w) = true ->
  exists lines,
    Shipped.SessionManager.create userId email role tokens userAgent ipAddress w =
      (Fulfilled
         (Session.mk (World.uuid_source w (World.uuid_drawn w)) userId
                     (AuthTokens.refreshToken tokens) userAgent ipAddress
                     (World.clock w + AuthTokens.expiresIn tokens * 1000) (World.clock w)),
       World.with_console lines (World.with_uuid_drawn (S (World.uuid_drawn w)) w)).
Proof.
  intros Hc.
  unfold Shipped.SessionManager.create, randomUUID, Date_now.
  unfold bind at 1. unfold bind at 1. unfold bind at 1.
  rewrite shipped_query_bind by exact Hc.
  unfold bind.
  match goal with |- context [Logger.log ?c ?l ?m ?w0] =>
    destruct (log_run c l m w0) as [lines ->] end.
  now exists lines.
Qed.

Lemma shipped_audit_create_run userId action ipAddress userAgent w :
  Db.connected (World.db w) = true ->
  Shipped.AuditLogModel.create userId action ipAddress userAgent w =
    (Fulfilled
       (AuditLogEntry.mk (World.uuid_source w (World.uuid_drawn w)) userId action
                         (default "unknown" ipAddress) (default "unknown" userAgent)
                         (World.clock w)),
     World.with_uuid_drawn (S (World.uuid_drawn w)) w).
Proof.
  intros Hc.
  unfold Shipped.AuditLogModel.create, randomUUID, Date_now.
  unfold bind at 1. unfold bind at 1.
  now rewrite shipped_query_bind by exact Hc.
Qed.

Lemma shipped_user_create_run email username passwordHash w :
  Db.connected (World.db w) = true ->
  exists lines,
    Shipped.UserModel.create email username passwordHash w =
      (Fulfilled
         (User.mk (World.uuid_source w (World.uuid_drawn w)) (Js.toLowerCase email) username
                  passwordHash UserRole.User true false None (World.clock w) (World.clock w)),
       World.with_console lines (World.with_uuid_drawn (S (World.uuid_drawn w)) w)).
Proof.
  intros Hc.
  unfold Shipped.UserModel.create, randomUUID, Date_now.
  unfold bind at 1. unfold bind at 1. unfold bind at 1.
  rewrite shipped_query_bind by exact Hc.
  unfold bind.
  match goal with |- context [Logger.log ?c ?l ?m ?w0] =>
    destruct (log_run c l m w0) as [lines ->] end.
  now exists lines.
Qed.

Lemma shipped_signup_run random data ip userAgent w key :
  Db.connected (World.db w) = true ->
  ValidationResult.valid (Validators.validateEmail (SignupData.email data)) = true ->
  ValidationResult.valid (Validators.validateUsername (SignupData.username data)) = true ->
  ValidationResult.valid (Validators.validatePassword (SignupData.password data)) = true ->
  SignupData.password data = SignupData.confirmPassword data ->
  scrypt (SignupData.password data) (generateSalt random) KEY_LENGTH SCRYPT_COST = inr key ->
  exists tokens w1,
    Shipped.AuthController.signup random data ip userAgent w =
      (Fulfilled (ApiResponse.ok tokens 201), w1) /\
    World.db w1 = World.db w /\
    World.uuid_drawn w1 = (5 + World.uuid_drawn w)%nat.
Proof.
  intros Hc He Hu Hp Hconfirm Hkey.
  unfold Shipped.AuthController.signup. rewrite He, Hu, Hp. cbn [negb].
  rewrite <- Hconfirm, String.eqb_refl. cbn [negb].
  rewrite (bind_fulfilled _ _ _ _ _ (shipped_findByEmail_run _ w Hc)).
  assert (Hhash : hashPassword random (SignupData.password data) w =
                  (Fulfilled (generateSalt random +:+ ":" +:+ Str.to_hex key), w)).
  { unfold hashPassword. cbv zeta. now rewrite Hkey. }
  rewrite (bind_fulfilled _ _ _ _ _ Hhash).
  destruct (shipped_user_create_run (SignupData.email data) (SignupData.username data)
              (generateSalt random +:+ ":" +:+ Str.to_hex key) w Hc) as [l1 Hcreate].
  rewrite (bind_fulfilled _ _ _ _ _ Hcreate).
  cbn [User.id User.email User.role].
  rewrite (bind_fulfilled _ _ _ _ _ (createTokenPair_run _ _ _ _)).
  match goal with |- context [bind (Shipped.SessionManager.create ?a ?b ?c ?d ?e ?f) _ ?w0] =>
    destruct (shipped_create_run a b c d e f w0 Hc) as [l2 Hsess] end.
  rewrite (bind_fulfilled _ _ _ _ _ Hsess).
  match goal with |- context [bind (Shipped.AuditLogModel.create ?a ?b ?c ?d) _ ?w0] =>
    rewrite (bind_fulfilled _ _ _ _ _ (shipped_audit_create_run a b c d w0 Hc)) end.
  unfold bind.
  match goal with |- context [Logger.log ?c ?l ?m ?w0] =>
    destruct (log_run c l m w0) as [l3 ->] end.
  do 2 eexists. split; [reflexivity|]. split; reflexivity.
Qed.

End ShippedRuns.

(** ** What the shipped connection never does *)

Section ShippedProps.
Context `{Env} `{R : Runtime}.

(** X5. On the connection as shipped, [create] returns a session object
    and stores none.  With the connection open, [create] succeeds with a
    session that has the UUID drawn as id, the pair's refresh token and
    the expiry [Date.now() + tokens.expiresIn * 1000], and leaves the
    tables as they were; from then on [validate] is [null] for that id,
    as for every id, and [destroy] succeeds without changing anything. *)
Theorem shipped_session_is_not_stored userId email role tokens userAgent ipAddress w :
  Db.connected (World.db w) = true ->
  exists session w',
    Shipped.SessionManager.create userId email role tokens userAgent ipAddress w =
      (Fulfilled session, w') /\
    Session.id session = World.uuid_source w (World.uuid_drawn w) /\
    Session.refreshToken session = AuthTokens.refreshToken tokens /\
    Session.expiresAt session = World.clock w + AuthTokens.expiresIn tokens * 1000 /\
    World.db w' = World.db w /\
    Shipped.SessionManager.validate (Session.id session) w' = (Fulfilled None, w') /\
    (forall sessionId w2, Db.connected (World.db w2) = true ->
       Shipped.SessionManager.validate sessionId w2 = (Fulfilled None, w2)) /\
    (forall sessionId w2, Db.connected (World.db w2) = true ->
       exists w3,
         Shipped.SessionManager.destroy sessionId w2 = (Fulfilled tt, w3) /\
         World.db w3 = World.db w2).
Proof.
  intros Hc.
  assert (Hvalidate : forall sessionId w2, Db.connected (World.db w2) = true ->
            Shipped.SessionManager.validate sessionId w2 = (Fulfilled None, w2)).
  { intros sessionId w2 Hc2. unfold Shipped.SessionManager.validate.
    now rewrite shipped_query_bind by exact Hc2. }
  destruct (shipped_create_run userId email role tokens userAgent ipAddress w Hc)
    as [lines Hcreate].
  do 2 eexists. split; [exact Hcreate|].
  repeat (split; [reflexivity|]).
  split; [now apply Hvalidate|]. split; [exact Hvalidate|].
  intros sessionId w2 Hc2. unfold Shipped.SessionManager.destroy.
  rewrite shipped_query_bind by exact Hc2.
  match goal with |- context [Logger.log ?c ?l ?m ?w0] =>
    destruct (log_run c l m w0) as [l2 ->] end.
  eexists. split; reflexivity.
Qed.

(** X9. On the connection as shipped no refresh token is ever rotated.
    With the connection open, [refresh] returns [null] for every token,
    also one that verifies and was handed to [create] a moment before;
    the controller's [refreshToken] answers 401 "Invalid refresh token";
    no UUID is drawn, so no token is minted, and the tables are as they
    were. *)
Theorem shipped_refresh_never_rotates t userId w :
  Db.connected (World.db w) = true ->
  exists w',
    Shipped.SessionManager.refresh t w = (Fulfilled None, w') /\
    Shipped.AuthController.refreshToken t userId w =
      (Fulfilled (ApiResponse.failure "Invalid refresh token" 401), w') /\
    World.db w' = World.db w /\
    World.uuid_drawn w' = World.uuid_drawn w.
Proof.
  intros Hc. destruct (shipped_refresh_run t w Hc) as [lines Hrun].
  eexists. split; [exact Hrun|]. split; [|split; reflexivity].
  unfold Shipped.AuthController.refreshToken.
  now rewrite (bind_fulfilled _ _ _ _ _ Hrun).
Qed.

(** X21. On the connection as shipped no login succeeds.  With the
    connection open, [login] answers 401 "Invalid credentials" for every
    credential: the lookup by email finds no user, so the only
    collaborator called is [findByEmail]; no password is compared, no
    token is minted and the tables are as they were. *)
Theorem shipped_login_never_succeeds credentials ip userAgent w :
  Db.connected (World.db w) = true ->
  exists w',
    Shipped.AuthController.login credentials ip userAgent w =
      (Fulfilled invalidCredentials, w') /\
    calls_made w w' = [CallFindByEmail (LoginCredentials.email credentials)] /\
    World.db w' = World.db w /\
    World.uuid_drawn w' = World.uuid_drawn w.
Proof.
  intros Hc. destruct (shipped_login_run credentials ip userAgent w Hc) as [lines Hrun].
  eexists. split; [exact Hrun|]. split; [|split; reflexivity].
  unfold calls_made. simpl. apply drop_app_length.
Qed.

(** X25. On the connection as shipped a signup is never refused as a
    duplicate and never leads to a login.  With the connection open, for
    data that pass the three validators, with matching passwords and a
    key derived by scrypt, [signup] answers 201 with a token pair and
    leaves the tables as they were; the same signup made again answers
    201 again, not 409; and a login with the email and password just
    signed up answers 401 "Invalid credentials". *)
Theorem shipped_signup_never_conflicts random data ip userAgent w key :
  Db.connected (World.db w) = true ->
  ValidationResult.valid (Validators.validateEmail (SignupData.email data)) = true ->
  ValidationResult.valid (Validators.validateUsername (SignupData.username data)) = true ->
  ValidationResult.valid (Validators.validatePassword (SignupData.password data)) = true ->
  SignupData.password data = SignupData.confirmPassword data ->
  scrypt (SignupData.password data) (generateSalt random) KEY_LENGTH SCRYPT_COST = inr key ->
  exists tokens w1,
    Shipped.AuthController.signup random data ip userAgent w =
      (Fulfilled (ApiResponse.ok tokens 201), w1) /\
    World.db w1 = World.db w /\
    (exists tokens' w2,
       Shipped.AuthController.signup random data ip userAgent w1 =
         (Fulfilled (ApiResponse.ok tokens' 201), w2)) /\
    (forall ip' userAgent', exists w2,
       Shipped.AuthController.login
         (LoginCredentials.mk (SignupData.email data) (SignupData.password data) None)
         ip' userAgent' w1 = (Fulfilled invalidCredentials, w2)).
Proof.
  intros Hc He Hu Hp Hconfirm Hkey.
  destruct (shipped_signup_run random data ip userAgent w key Hc He Hu Hp Hconfirm Hkey)
    as (tokens & w1 & Hrun & Hdb & _).
  assert (Hc1 : Db.connected (World.db w1) = true) by now rewrite Hdb.
  exists tokens, w1. split; [exact Hrun|]. split; [exact Hdb|]. split.
  - destruct (shipped_signup_run random data ip userAgent w1 key Hc1 He Hu Hp Hconfirm Hkey)
      as (tokens' & w2 & Hrun' & _).
    now exists tokens', w2.
  - intros ip' userAgent'.
    destruct (shipped_login_run
                (LoginCredentials.mk (SignupData.email data) (SignupData.password data) None)
                ip' userAgent' w1 Hc1) as [lines Hlogin].
    eexists. exact Hlogin.
Qed.

(** X27. On the connection as shipped no account is ever found.  With
    the connection open, [getProfile] answers 404 "User not found" for
    every id; so does [getUserById] for an admin or a moderator; and
    [deleteAccount], for a role that holds the permission, answers 404
    as well, writes no audit entry (no UUID is drawn for one) and leaves
    the tables as they were. *)
Theorem shipped_accounts_are_never_found userId role w :
  Db.connected (World.db w) = true ->
  Shipped.UserController.getProfile userId w =
    (Fulfilled (ApiResponse.failure "User not found" 404), w) /\
  (role = UserRole.Admin \/ role = UserRole.Moderator ->
   Shipped.UserController.getUserById role userId w =
     (Fulfilled (ApiResponse.failure "User not found" 404), w)) /\
  (hasPermission role Permission.DeleteOwnAccount = true ->
   exists w',
     Shipped.UserController.deleteAccount userId role w =
       (Fulfilled (ApiResponse.failure "User not found" 404), w') /\
     World.db w' = World.db w /\
     World.uuid_drawn w' = World.uuid_drawn w).
Proof.
  intros Hc. split; [|split].
  - unfold Shipped.UserController.getProfile.
    now rewrite (bind_fulfilled _ _ _ _ _ (shipped_findById_run userId w Hc)).
  - intros Hrole. unfold Shipped.UserController.getUserById.
    apply hasPermission_ReadAnyProfile in Hrole. rewrite Hrole. cbn [negb].
    now rewrite (bind_fulfilled _ _ _ _ _ (shipped_findById_run userId w Hc)).
  - intros Hp. unfold Shipped.UserController.deleteAccount, requirePermission.
    rewrite Hp. cbn [negb]. unfold bind at 1. cbn [ret].
    unfold Shipped.UserModel.delete. unfold bind at 1.
    rewrite shipped_query_bind by exact Hc.
    unfold bind.
    match goal with |- context [Logger.log ?c ?l ?m ?w0] =>
      destruct (log_run c l m w0) as [lines ->] end.
    cbn. eexists. split; [reflexivity|]. split; reflexivity.
Qed.

End ShippedProps.

(** ** Rotation, on either connection *)

Section RotationProps.
Context `{Env} `{R : Runtime} {L : RuntimeLaws R}.


End RotationProps.

(** * Instances of the further properties *)

Section MoreInstances.
Import RefRuntime Samples.

Lemma verifyToken_accepts_only_signed_witness :
  exists header body,
    refreshToken0 = header +:+ "." +:+ body +:+ "." +:+
                    hmacSha256 (secret_of true) (header +:+ "." +:+ body) /\
    Js.occurs "." header = false /\ Js.occurs "." body = false /\
    JSON_parse (b64urlDecode body) =
      Some (minted_payload true "u1" "a@b.com" UserRole.User world0) /\
    world0 = world0.
Proof.
  apply (verifyToken_accepts_only_signed refreshToken0 true world0).
  vm_compute. reflexivity.
Defined.

Lemma verifyToken_implies_decodeToken_witness :
  decodeToken accessToken0 = Some (minted_payload false "u1" "a@b.com" UserRole.User world0).
Proof.
  apply (verifyToken_implies_decodeToken accessToken0 false world0 _ world0).
  vm_compute. reflexivity.
Defined.

Lemma forged_signature_decodes_but_fails_verification_witness :
  verifyToken (signing_input (minted_payload false "u1" "a@b.com" UserRole.Admin world0)
               +:+ "." +:+ "00") false world0 = (Fulfilled None, world0) /\
  decodeToken (signing_input (minted_payload false "u1" "a@b.com" UserRole.Admin world0)
               +:+ "." +:+ "00") =
    Some (minted_payload false "u1" "a@b.com" UserRole.Admin world0).
Proof.
  apply (forged_signature_decodes_but_fails_verification (L := RefRuntime_laws)).
  - reflexivity.
  - vm_compute. discriminate.
Defined.

Lemma createTokenPair_verifies_witness :
  exists tokens w',
    createTokenPair "u1" "a@b.com" UserRole.User world0 = (Fulfilled tokens, w') /\
    World.uuid_drawn w' = 2%nat /\
    AuthTokens.expiresIn tokens = 900 /\
    AuthTokens.tokenType tokens = "Bearer" /\
    verifyToken (AuthTokens.accessToken tokens) false w' =
      (Fulfilled (Some (JwtPayload.mk "u1" "a@b.com" UserRole.User 5 (5 + 900) "uuid-0")), w') /\
    verifyToken (AuthTokens.refreshToken tokens) true w' =
      (Fulfilled (Some (JwtPayload.mk "u1" "a@b.com" UserRole.User 5 (5 + 604800) "uuid-1")), w').
Proof.
  refine (createTokenPair_verifies (L := RefRuntime_laws) "u1" "a@b.com" UserRole.User
            world0 _ _); vm_compute; discriminate.
Defined.

Lemma refresh_failure_writes_nothing_witness :
  World.db (snd (SessionManager.refresh refreshToken0 world_rotated)) = World.db world_rotated /\
  World.uuid_drawn (snd (SessionManager.refresh refreshToken0 world_rotated)) =
    World.uuid_drawn world_rotated /\
  World.rateLimitStore (snd (SessionManager.refresh refreshToken0 world_rotated)) =
    World.rateLimitStore world_rotated.
Proof.
  apply (refresh_failure_writes_nothing refreshToken0 world_rotated).
  vm_compute. reflexivity.
Defined.

Lemma extractToken_bearer_witness :
  extractToken request_bearer = Some accessToken0.
Proof.
  apply (proj1 (extractToken_bearer request_bearer) accessToken0).
  vm_compute. reflexivity.
Defined.

Lemma authenticateRequest_sound_witness :
  authenticateRequest request_bearer world0 =
    (Fulfilled (CallNext (Request.mk (Request.headers request_bearer)
                            (Some (minted_payload false "u1" "a@b.com" UserRole.User world0))
                            (Request.ip request_bearer))), world0).
Proof.
  apply (proj1 (proj2 (authenticateRequest_sound request_bearer world0)) accessToken0).
  - vm_compute. reflexivity.
  - vm_compute. discriminate.
  - vm_compute. reflexivity.
Defined.

Lemma rateLimitAuth_admits_per_window_witness :
  fst (serve (rateLimitAuth 2 1000) request_user [5000; 5999; 5100; 5200] world0) =
    [Fulfilled (CallNext request_user); Fulfilled (CallNext request_user);
     Fulfilled tooManyAttempts; Fulfilled tooManyAttempts].
Proof.
  refine (rateLimitAuth_admits_per_window 2 1000 request_user 5000 [5999; 5100; 5200]
            world0 _ _).
  - left. reflexivity.
  - repeat constructor.
Defined.

Lemma validateUsername_accepts_witness :
  ValidationResult.valid (Validators.validateUsername "  new_comer-7 ") = true.
Proof.
  apply (proj2 (validateUsername_accepts "  new_comer-7 ")).
  vm_compute. repeat split; lia.
Defined.

Lemma validatePassword_accepts_witness :
  (8 <= String.length "Abcdef12" <= 128)%nat /\
  Str.some (RegExp.in_class Validators.upper) "Abcdef12" = true /\
  Str.some (RegExp.in_class Validators.lower) "Abcdef12" = true /\
  Str.some (RegExp.in_class Validators.digit) "Abcdef12" = true.
Proof.
  apply (proj1 (validatePassword_accepts "Abcdef12")). reflexivity.
Defined.

Lemma validateEmail_accepts_witness :
  ValidationResult.valid (Validators.validateEmail " New@Example.co.uk ") = true.
Proof.
  apply (proj2 (validateEmail_accepts " New@Example.co.uk ")).
  split; [vm_compute; lia|].
  exists "new", "example.co", "uk". vm_compute. repeat split; try discriminate; lia.
Defined.

Lemma sanitizeInput_has_no_markup_witness :
  Js.occurs "<" (Validators.sanitizeInput " <b>'hi'</b> ") = false.
Proof.
  apply (sanitizeInput_has_no_markup " <b>'hi'</b> " "<"). left. reflexivity.
Defined.

Lemma hashPassword_then_comparePassword_witness :
  hashPassword salt_bytes "Abcdef12" world0 =
    (Fulfilled (Str.to_hex salt_bytes +:+ ":" +:+ Str.to_hex (repeat 16%N 64)), world0) /\
  comparePassword "Abcdef12" (Str.to_hex salt_bytes +:+ ":" +:+ Str.to_hex (repeat 16%N 64))
    world0 = (Fulfilled true, world0) /\
  (forall other key',
     scrypt other (generateSalt salt_bytes) KEY_LENGTH SCRYPT_COST = inr key' ->
     key' <> repeat 16%N 64 ->
     comparePassword other (Str.to_hex salt_bytes +:+ ":" +:+ Str.to_hex (repeat 16%N 64))
       world0 = (Fulfilled false, world0)).
Proof.
  apply (hashPassword_then_comparePassword (L := RefRuntime_scrypt_laws)
           salt_bytes "Abcdef12" (repeat 16%N 64) world0).
  - discriminate.
  - reflexivity.
  - apply List.Forall_forall. intros b Hb. apply repeat_spec in Hb. now subst.
Defined.

Lemma comparePassword_reads_two_segments_witness :
  comparePassword "Abcdef12" "0102030410101010" world0 = (Fulfilled false, world0).
Proof.
  apply (proj1 (comparePassword_reads_two_segments "Abcdef12" world0)). reflexivity.
Defined.

Lemma forgotPassword_uniform_witness :
  exists w',
    forgotPassword "nobody@b.com" world_users =
      (Fulfilled (ApiResponse.mk true None None
                    (Some "If that email exists, a reset link has been sent") 200), w') /\
    World.db w' = World.db world_users /\
    World.uuid_drawn w' = World.uuid_drawn world_users.
Proof.
  apply (forgotPassword_uniform "nobody@b.com" world_users). reflexivity.
Defined.

Lemma signup_failure_writes_nothing_witness :
  World.db world_careless = World.db world0 /\
  World.uuid_drawn world_careless = World.uuid_drawn world0 /\
  (ApiResponse.statusCode careless_response = 400 \/
   ApiResponse.statusCode careless_response = 409).
Proof.
  apply (signup_failure_writes_nothing salt_bytes careless "10.0.0.1" "agent" world0
           careless_response world_careless).
  - vm_compute. reflexivity.
  - reflexivity.
Defined.

Lemma RolePermissions_nested_witness :
  hasPermission UserRole.Moderator Permission.UpdateOwnProfile = true.
Proof.
  apply (proj1 (proj2 (RolePermissions_nested UserRole.User Permission.UpdateOwnProfile))).
  reflexivity.
Defined.

Lemma database_not_connected_witness :
  (forall credentials ip userAgent,
     exists w', AuthController.login credentials ip userAgent world_offline =
                  (Rejected notConnected, w') /\
                World.db w' = World.db world_offline) /\
  (forall userId email role tokens userAgent ipAddress,
     exists w',
       SessionManager.create userId email role tokens userAgent ipAddress world_offline =
         (Rejected notConnected, w') /\
       World.db w' = World.db world_offline) /\
  (forall sessionId, SessionManager.destroy sessionId world_offline =
                       (Rejected notConnected, world_offline)) /\
  (forall sessionId, SessionManager.validate sessionId world_offline =
                       (Rejected notConnected, world_offline)) /\
  (forall t,
     (verifyToken t true world_offline = (Fulfilled None, world_offline) ->
      exists w', SessionManager.refresh t world_offline = (Fulfilled None, w') /\
                 World.db w' = World.db world_offline) /\
     (forall p, verifyToken t true world_offline = (Fulfilled (Some p), world_offline) ->
      SessionManager.refresh t world_offline = (Rejected notConnected, world_offline))).
Proof.
  apply (database_not_connected world_offline). reflexivity.
Defined.


Lemma shipped_session_is_not_stored_witness :
  exists session w',
    Shipped.SessionManager.create "u1" "a@b.com" UserRole.User tokens0 "agent" "10.0.0.1"
      world0 = (Fulfilled session, w') /\
    Session.id session = "uuid-0" /\
    Session.refreshToken session = refreshToken0 /\
    Session.expiresAt session = 5000 + 900 * 1000 /\
    World.db w' = World.db world0 /\
    Shipped.SessionManager.validate (Session.id session) w' = (Fulfilled None, w') /\
    (forall sessionId w2, Db.connected (World.db w2) = true ->
       Shipped.SessionManager.validate sessionId w2 = (Fulfilled None, w2)) /\
    (forall sessionId w2, Db.connected (World.db w2) = true ->
       exists w3,
         Shipped.SessionManager.destroy sessionId w2 = (Fulfilled tt, w3) /\
         World.db w3 = World.db w2).
Proof.
  exact (shipped_session_is_not_stored "u1" "a@b.com" UserRole.User tokens0 "agent"
           "10.0.0.1" world0 eq_refl).
Defined.

Lemma shipped_refresh_never_rotates_witness :
  exists w',
    Shipped.SessionManager.refresh refreshToken0 world_session = (Fulfilled None, w') /\
    Shipped.AuthController.refreshToken refreshToken0 "u1" world_session =
      (Fulfilled (ApiResponse.failure "Invalid refresh token" 401), w') /\
    World.db w' = World.db world_session /\
    World.uuid_drawn w' = World.uuid_drawn world_session.
Proof.
  exact (shipped_refresh_never_rotates refreshToken0 "u1" world_session eq_refl).
Defined.

Lemma shipped_login_never_succeeds_witness :
  exists w',
    Shipped.AuthController.login (LoginCredentials.mk "a@b.com" "Abcdef12" None)
      "10.0.0.1" "agent" world_users = (Fulfilled invalidCredentials, w') /\
    calls_made world_users w' = [CallFindByEmail "a@b.com"] /\
    World.db w' = World.db world_users /\
    World.uuid_drawn w' = World.uuid_drawn world_users.
Proof.
  exact (shipped_login_never_succeeds (LoginCredentials.mk "a@b.com" "Abcdef12" None)
           "10.0.0.1" "agent" world_users eq_refl).
Defined.

Lemma shipped_signup_never_conflicts_witness :
  exists tokens w1,
    Shipped.AuthController.signup salt_bytes newcomer "10.0.0.1" "agent" world0 =
      (Fulfilled (ApiResponse.ok tokens 201), w1) /\
    World.db w1 = World.db world0 /\
    (exists tokens' w2,
       Shipped.AuthController.signup salt_bytes newcomer "10.0.0.1" "agent" w1 =
         (Fulfilled (ApiResponse.ok tokens' 201), w2)) /\
    (forall ip' userAgent', exists w2,
       Shipped.AuthController.login (LoginCredentials.mk "New@Example.com" "Abcdef12" None)
         ip' userAgent' w1 = (Fulfilled invalidCredentials, w2)).
Proof.
  refine (shipped_signup_never_conflicts salt_bytes newcomer "10.0.0.1" "agent" world0
            (repeat 16%N 64) eq_refl _ _ _ eq_refl _); vm_compute; reflexivity.
Defined.

Lemma shipped_accounts_are_never_found_witness :
  Shipped.UserController.getProfile "u1" world_users =
    (Fulfilled (ApiResponse.failure "User not found" 404), world_users) /\
  Shipped.UserController.getUserById UserRole.Admin "u1" world_users =
    (Fulfilled (ApiResponse.failure "User not found" 404), world_users) /\
  exists w',
    Shipped.UserController.deleteAccount "u1" UserRole.Admin world_users =
      (Fulfilled (ApiResponse.failure "User not found" 404), w') /\
    World.db w' = World.db world_users /\
    World.uuid_drawn w' = World.uuid_drawn world_users.
Proof.
  destruct (shipped_accounts_are_never_found "u1" UserRole.Admin world_users eq_refl)
    as (Hprofile & Hget & Hdelete).
  split; [exact Hprofile|]. split; [exact (Hget (or_introl eq_refl))|].
  apply Hdelete. reflexivity.
Defined.

Lemma getUserById_access_witness :
  getUserById UserRole.User "u2" world_users =
    (Fulfilled (ApiResponse.failure "Forbidden" 403), world_users) /\
  getUserById UserRole.Admin "nobody" world_users =
    (Fulfilled (ApiResponse.failure "User not found" 404), world_users).
Proof.
  split.
  - apply (proj1 (getUserById_access UserRole.User "u2" world_users)); discriminate.
  - apply (proj2 (getUserById_access UserRole.Admin "nobody" world_users)
             (or_introl eq_refl) None world_users).
    vm_compute. reflexivity.
Defined.

End MoreInstances.
